(** * Publications backend: scholar fetcher, storage gateway, sync orchestrator

    A shallow embedding of the Python backend (scholar_fetcher.py,
    database.py, bulk_sync.py, app.py, fixunknown.py) and the properties of
    its specification.

    Conventions of the embedding.
    - Python [str] is [string]; the text handled here (year labels, author
      lists) is ASCII, where Python's Unicode-aware [str.isdigit], [\b], [\w]
      and [re.IGNORECASE] coincide with their ASCII readings below.
    - Python [int] is [Z]; list positions and [enumerate] indices are [nat].
    - A call that may raise returns an [outcome]; [try]/[except Exception]
      is a [match] on it.
    - The external collaborators (the scholarly client, the PostgreSQL
      server) are oracles: a function says what each external call answers,
      a fault plan says which database statement raises. *)

From Stdlib Require Import List String Ascii ZArith Lia Bool Arith.
From Stdlib Require Import Sorted Permutation.
From Stdlib Require Import DecimalString.
From Stdlib Require DecimalZ DecimalPos.
Import ListNotations.

Set Implicit Arguments.

(* ===================================================================== *)
(** * Python values and builtins used by the code                        *)
(* ===================================================================== *)

Module Py.

(** Exceptions of class [Exception] that the code meets. *)
Inductive exn : Type :=
| ValueError
| ZeroDivisionError
| DatabaseError
| ScholarError.

Inductive outcome (A : Type) : Type :=
| Returned (a : A)
| Raised (e : exn).
Arguments Returned {A} a.
Arguments Raised {A} e.

Definition bind {A B} (c : outcome A) (k : A -> outcome B) : outcome B :=
  match c with
  | Returned a => k a
  | Raised e => Raised e
  end.

Definition is_returned {A} (c : outcome A) : bool :=
  match c with Returned _ => true | Raised _ => false end.

(** [dict.get(key, default)] on a field that may be absent. *)
Definition get {A} (field : option A) (default : A) : A :=
  match field with Some v => v | None => default end.

(** ** Characters *)

Definition code (c : ascii) : nat := nat_of_ascii c.

Definition is_ascii_digit (c : ascii) : bool :=
  (48 <=? code c) && (code c <=? 57).
Definition is_upper (c : ascii) : bool :=
  (65 <=? code c) && (code c <=? 90).
Definition is_lower (c : ascii) : bool :=
  (97 <=? code c) && (code c <=? 122).

(** [\w] on ASCII text: letters, digits and the underscore. *)
Definition is_word (c : ascii) : bool :=
  is_upper c || is_lower c || is_ascii_digit c || (code c =? 95).

Definition lower (c : ascii) : ascii :=
  if is_upper c then ascii_of_nat (code c + 32) else c.

(** ** [str.isdigit], [int] on digit strings, [str] of an [int] *)

Fixpoint all_digits (s : string) : bool :=
  match s with
  | EmptyString => true
  | String c s' => is_ascii_digit c && all_digits s'
  end.

(** [s.isdigit()]: at least one character and all of them digits. *)
Definition isdigit (s : string) : bool :=
  match s with
  | EmptyString => false
  | String _ _ => all_digits s
  end.

Definition digit_value (c : ascii) : Z := Z.of_nat (code c - 48).

Fixpoint int_digits (acc : Z) (s : string) : Z :=
  match s with
  | EmptyString => acc
  | String c s' => int_digits (10 * acc + digit_value c) s'
  end.

(** [int(s)] for a string of decimal digits; the code calls [int] on a
    year label only under the guard [s.isdigit()]. *)
Definition int_of_digits (s : string) : Z := int_digits 0 s.

(** [str(z)] for an [int]. *)
Definition str_of_int (z : Z) : string := NilZero.string_of_int (Z.to_int z).

(** A raw field of the scraped [bib] record: text or a number. *)
Inductive scalar : Type :=
| PyStr (s : string)
| PyInt (z : Z).

Definition str (v : scalar) : string :=
  match v with
  | PyStr s => s
  | PyInt z => str_of_int z
  end.

(** [enumerate(l)]: the items with their 0-based positions. *)
Definition enumerate {A} (l : list A) : list (nat * A) :=
  combine (seq 0 (List.length l)) l.

(** ** Sorting

    A stable sort by insertion: [before x y] says that [x] may stay in
    front of [y]; an item is put in front of the first item it may stay
    in front of, so items that compare equal keep their order. *)
Section StableSort.
Context {A : Type}.
Variable before : A -> A -> bool.

Fixpoint insert_by (x : A) (l : list A) : list A :=
  match l with
  | [] => [x]
  | y :: l' => if before x y then x :: y :: l' else y :: insert_by x l'
  end.

Definition sort_by (l : list A) : list A := fold_right insert_by [] l.
End StableSort.

(** [l.sort(key=key, reverse=True)]: stable, greatest key first. *)
Definition sort_reverse {A} (key : A -> Z) (l : list A) : list A :=
  sort_by (fun x y => (key y <=? key x)%Z) l.

(** ** Dictionaries

    A [dict] with string keys, in insertion order: [d[key] = v] replaces
    the value of a key that is present and appends a new key. *)
Section Dict.
Context {V : Type}.

Fixpoint dict_set (key : string) (v : V) (d : list (string * V))
  : list (string * V) :=
  match d with
  | [] => [(key, v)]
  | (k, x) :: d' =>
      if String.eqb k key then (k, v) :: d' else (k, x) :: dict_set key v d'
  end.

Fixpoint dict_get (key : string) (d : list (string * V)) : option V :=
  match d with
  | [] => None
  | (k, x) :: d' => if String.eqb k key then Some x else dict_get key d'
  end.
End Dict.

End Py.

Import Py.

(* ===================================================================== *)
(** * The fragment of [re] used by the fetcher                           *)
(* ===================================================================== *)

Module Re.

Local Open Scope string_scope.

(** The three patterns have the shape [\bLITERAL\b]; the literal is
    matched character by character under [re.IGNORECASE]. *)

Definition ci_eqb (a b : ascii) : bool := Ascii.eqb (lower a) (lower b).

(** Matches the literal at the head of [s]: the matched text and what
    follows it. *)
Fixpoint match_literal (lit s : string) : option (string * string) :=
  match lit with
  | EmptyString => Some (EmptyString, s)
  | String p lit' =>
      match s with
      | EmptyString => None
      | String c s' =>
          if ci_eqb p c then
            match match_literal lit' s' with
            | Some (m, rest) => Some (String c m, rest)
            | None => None
            end
          else None
      end
  end.

Definition head (s : string) : option ascii :=
  match s with
  | EmptyString => None
  | String c _ => Some c
  end.

Fixpoint last_char (prev : option ascii) (s : string) : option ascii :=
  match s with
  | EmptyString => prev
  | String c s' => last_char (Some c) s'
  end.

Definition word_side (c : option ascii) : bool :=
  match c with
  | Some a => is_word a
  | None => false
  end.

(** [\b] between the character before a position and the one after it. *)
Definition boundary (before after : option ascii) : bool :=
  xorb (word_side before) (word_side after).

(** [\bLITERAL\b] at the current position, [prev] being the character
    just before it. *)
Definition match_at (lit : string) (prev : option ascii) (s : string)
  : option (string * string) :=
  if boundary prev (head s) then
    match match_literal lit s with
    | Some (m, rest) =>
        if boundary (last_char prev m) (head rest) then Some (m, rest)
        else None
    | None => None
    end
  else None.

(** The replacement template ['<strong>\\g<0></strong>']. *)
Definition open_tag : string := "<strong>".
Definition close_tag : string := "</strong>".
Definition emphasise (m : string) : string := open_tag ++ m ++ close_tag.

(** [re.sub]: scan from the left; at a match emit the replacement and
    resume right after the matched text, otherwise copy one character.
    [skip] counts the characters of the current match still to be
    passed over. *)
Fixpoint sub_scan (lit : string) (prev : option ascii) (skip : nat)
         (s : string) : string :=
  match s with
  | EmptyString => EmptyString
  | String c s' =>
      match skip with
      | S k => sub_scan lit (Some c) k s'
      | O =>
          match match_at lit prev s with
          | Some (m, _) =>
              emphasise m ++ sub_scan lit (Some c) (String.length m - 1) s'
          | None => String c (sub_scan lit (Some c) 0 s')
          end
      end
  end.

Definition sub (lit : string) (s : string) : string :=
  sub_scan lit None 0 s.

(** [re.search]: is there a match at some position of [s]? *)
Fixpoint search_from (lit : string) (prev : option ascii) (s : string)
  : bool :=
  match match_at lit prev s with
  | Some _ => true
  | None =>
      match s with
      | EmptyString => false
      | String c s' => search_from lit (Some c) s'
      end
  end.

Definition search (lit s : string) : bool := search_from lit None s.

End Re.

(* ===================================================================== *)
(** * scholar_fetcher.py                                                  *)
(* ===================================================================== *)

Module ScholarFetcher.

Local Open Scope string_scope.

(** ** Data *)

(** The ['bib'] record of a filled publication; every key may be absent. *)
Record bib : Type := {
  bib_title : option string;
  bib_author : option string;
  bib_venue : option string;
  bib_pub_year : option scalar
}.

Definition empty_bib : bib :=
  {| bib_title := None; bib_author := None; bib_venue := None;
     bib_pub_year := None |}.

(** What [scholarly.fill(pub)] returns. *)
Record filled_pub : Type := {
  fp_bib : option bib;
  fp_num_citations : option Z;
  fp_pub_url : option string
}.

(** The dictionary appended to [processed_pubs]. *)
Record publication : Type := {
  title : string;
  authors : string;
  venue : string;
  year : string;
  citations : Z;
  scholar_url : string;
  pub_number : nat
}.

(** ** [__init__] *)

Definition max_retries : nat := 3.

(** ** [_highlight_author_name] *)

Definition patterns : list string :=
  ["A Dixit"; "Abhishek Dixit"; "A. Dixit"].

Definition _highlight_author_name (authors : string) : string :=
  match authors with
  | EmptyString => authors
  | String _ _ => fold_left (fun text lit => Re.sub lit text) patterns authors
  end.

(** ** [_process_all_publications] *)

Section Process.
Variable source_pub : Type.
(** [scholarly.fill] on a publication of the author. *)
Variable fill : source_pub -> outcome filled_pub.

(** The body of the [try] for the item at position [i]. *)
Definition process_one (i : nat) (pub : source_pub) : outcome publication :=
  bind (fill pub) (fun pub_filled =>
    let pub_data := get (fp_bib pub_filled) empty_bib in
    Returned
      {| title := get (bib_title pub_data) "Unknown Title";
         authors := _highlight_author_name (get (bib_author pub_data) "");
         venue := get (bib_venue pub_data) "";
         year := str (get (bib_pub_year pub_data) (PyStr "Unknown"));
         citations := get (fp_num_citations pub_filled) 0%Z;
         scholar_url := get (fp_pub_url pub_filled) "";
         pub_number := i + 1 |}).

Definition process_step (processed_pubs : list publication)
           (item : nat * source_pub) : list publication :=
  match process_one (fst item) (snd item) with
  | Returned record => (processed_pubs ++ [record])%list
  | Raised _ => processed_pubs
  end.

Definition _process_all_publications (publications : list source_pub)
  : list publication :=
  fold_left process_step (enumerate publications) [].
End Process.

(** ** [_format_scholar_data] *)

Record author_filled (source_pub : Type) : Type := {
  af_name : option string;
  af_affiliation : option string;
  af_citedby : option Z;
  af_hindex : option Z;
  af_i10index : option Z;
  af_publications : option (list source_pub)
}.

Record profile : Type := {
  name : string;
  affiliation : string;
  profile_url : string;
  total_citations : Z;
  h_index : Z;
  i10_index : Z
}.

(** The result dictionary; its ['last_updated'] timestamp, which no
    caller reads, is left out. [publications_by_year] is a [dict], kept
    in insertion order. *)
Record scholar_data : Type := {
  sd_profile : profile;
  publications_by_year : list (string * list publication);
  total_publications : nat
}.

(** The sort key [int(x['year']) if x['year'].isdigit() else 0]. *)
Definition year_key (x : publication) : Z :=
  if isdigit (year x) then int_of_digits (year x) else 0%Z.

(** [d[year].append(pub)], after [d[year] = []] for a new key. *)
Fixpoint group_add (label : string) (pub : publication)
         (d : list (string * list publication))
  : list (string * list publication) :=
  match d with
  | [] => [(label, [pub])]
  | (y, pubs) :: d' =>
      if String.eqb y label then (y, (pubs ++ [pub])%list) :: d'
      else (y, pubs) :: group_add label pub d'
  end.

Definition group_by_year (publications : list publication)
  : list (string * list publication) :=
  fold_left (fun d pub => group_add (year pub) pub d) publications [].

(** The list after [publications.sort(key=..., reverse=True)]. *)
Definition sorted_publications (publications : list publication)
  : list publication :=
  sort_reverse year_key publications.

Definition _format_scholar_data {source_pub} (author : author_filled source_pub)
           (publications : list publication) (scholar_id : string)
  : scholar_data :=
  let publications := sorted_publications publications in
  {| sd_profile :=
       {| name := get (af_name author) "Dr. Abhishek Dixit";
          affiliation := get (af_affiliation author) "";
          profile_url :=
            "https://scholar.google.co.in/citations?user=" ++ scholar_id
            ++ "&hl=en";
          total_citations := get (af_citedby author) 0%Z;
          h_index := get (af_hindex author) 0%Z;
          i10_index := get (af_i10index author) 0%Z |};
     publications_by_year := group_by_year publications;
     total_publications := List.length publications |}.

(** ** [fetch_scholar_data] *)

(** The scholarly client as it answers during one attempt. *)
Record client (source_pub : Type) : Type := {
  search_and_fill_author : string -> outcome (author_filled source_pub);
  fill_publication : source_pub -> outcome filled_pub
}.

(** The body of the [try] of one attempt. *)
Definition attempt_body {source_pub} (scholarly : client source_pub)
           (scholar_id : string) : outcome scholar_data :=
  bind (search_and_fill_author scholarly scholar_id) (fun author =>
    let publications :=
      _process_all_publications (fill_publication scholarly)
        (get (af_publications author) []) in
    Returned (_format_scholar_data author publications scholar_id)).

(** What the loop does, in order. *)
Inductive event : Type :=
| Attempt (attempt : nat)
| Backoff (attempt : nat).

Definition is_attempt (e : event) : bool :=
  match e with Attempt _ => true | Backoff _ => false end.

Definition attempts_made (log : list event) : nat :=
  List.length (filter is_attempt log).

Section Retry.
Variable A : Type.
(** The [try] body at attempt number [attempt]. *)
Variable try_body : nat -> outcome A.

(** [for attempt in range(1, max_retries + 1)], then [return None]. *)
Fixpoint retry_loop (attempts : list nat) (log : list event)
  : option A * list event :=
  match attempts with
  | [] => (None, log)
  | attempt :: later =>
      let log := (log ++ [Attempt attempt])%list in
      match try_body attempt with
      | Returned result => (Some result, log)
      | Raised _ =>
          if (attempt =? max_retries)%nat then (None, log)
          else retry_loop later (log ++ [Backoff attempt])%list
      end
  end.
End Retry.

(** [scholarly attempt] is the client as it behaves during that attempt.
    The result is the returned value ([None] is the failure sentinel) and
    the log of attempts and back-off waits. *)
Definition fetch_scholar_data {source_pub}
           (scholarly : nat -> client source_pub) (scholar_id : string)
  : option scholar_data * list event :=
  retry_loop (fun attempt => attempt_body (scholarly attempt) scholar_id)
    (seq 1 max_retries) [].

End ScholarFetcher.

(* ===================================================================== *)
(** * database.py                                                         *)
(* ===================================================================== *)

Module Database.

Local Open Scope Z_scope.

(** ** The persisted schema *)

Record pub_row : Type := {
  id : Z;
  title : string;
  authors : string;
  venue : string;
  year : option Z;
  citations : Z;
  scholar_url : string;
  pub_number : nat
}.

Record profile_row : Type := {
  profile_id : Z;
  name : string;
  affiliation : string;
  profile_url : string;
  total_citations : Z;
  h_index : Z;
  i10_index : Z;
  total_publications : Z;
  last_updated : Z
}.

Record tables : Type := {
  publications : list pub_row;
  scholar_profile : list profile_row
}.

(** The server as one client sees it. [committed] is what a new
    transaction starts from, [working] the view of the open transaction.
    The id sequences are not transactional. [statements] counts the
    statements sent so far and serves as the clock of [NOW()]. *)
Record world : Type := {
  committed : tables;
  working : tables;
  publications_seq : Z;
  profile_seq : Z;
  statements : nat
}.

Definition with_working (t : tables) (w : world) : world :=
  {| committed := committed w; working := t;
     publications_seq := publications_seq w; profile_seq := profile_seq w;
     statements := statements w |}.

Definition with_committed (t : tables) (w : world) : world :=
  {| committed := t; working := working w;
     publications_seq := publications_seq w; profile_seq := profile_seq w;
     statements := statements w |}.

Definition tick (w : world) : world :=
  {| committed := committed w; working := working w;
     publications_seq := publications_seq w; profile_seq := profile_seq w;
     statements := S (statements w) |}.

Definition with_publications (rows : list pub_row) (t : tables) : tables :=
  {| publications := rows; scholar_profile := scholar_profile t |}.

Definition with_profiles (rows : list profile_row) (t : tables) : tables :=
  {| publications := publications t; scholar_profile := rows |}.

(** ** Calls that may raise, over the server state *)

Definition action (A : Type) : Type := world -> outcome A * world.

Definition ret {A} (a : A) : action A := fun w => (Returned a, w).

Definition lift {A} (c : outcome A) : action A := fun w => (c, w).

Definition and_then {A B} (c : action A) (k : A -> action B) : action B :=
  fun w =>
    match c w with
    | (Returned a, w') => k a w'
    | (Raised e, w') => (Raised e, w')
    end.

Declare Scope action_scope.
Delimit Scope action_scope with action.
Notation "x <- c ;; k" := (and_then c (fun x => k))
  (at level 61, c at next level, right associativity) : action_scope.
Notation "c ;; k" := (and_then c (fun _ => k))
  (at level 61, right associativity) : action_scope.

Fixpoint for_each {A} (body : A -> action unit) (l : list A) : action unit :=
  match l with
  | [] => ret tt
  | x :: later => (body x ;; for_each body later)%action
  end.

(** [a // b] *)
Definition floordiv (a b : Z) : outcome Z :=
  if b =? 0 then Raised ZeroDivisionError else Returned (a / b).

(** [range(0, n, step)] and the slices [values[i:i + step]] over it. *)
Definition range_step (n step : nat) : list nat :=
  map (fun k => (k * step)%nat) (seq 0 ((n + step - 1) / step)%nat).

Definition batches {A} (batch_size : nat) (values : list A) : list (list A) :=
  map (fun i => firstn batch_size (skipn i values))
      (range_step (List.length values) batch_size).

Section Gateway.

(** The fault plan: statement number [n] of the run raises. *)
Variable faults : nat -> bool.

(** Python's [int] on a request string. *)
Variable int_of_str : string -> outcome Z.

(** A statement that changes the transaction's view. *)
Definition execute (effect : world -> world) : action unit :=
  fun w =>
    if faults (statements w) then (Raised DatabaseError, tick w)
    else (Returned tt, tick (effect w)).

(** A statement that answers a query. *)
Definition query {A} (answer : world -> outcome A) : action A :=
  fun w =>
    if faults (statements w) then (Raised DatabaseError, tick w)
    else (answer w, tick w).

(** [get_connection]: a pooled connection, at the start of a
    transaction. *)
Definition get_connection : action unit :=
  execute (fun w => with_working (committed w) w).

Definition commit : action unit :=
  execute (fun w => with_committed (working w) w).

(** [conn.rollback()] in an [except] handler. *)
Definition rollback (w : world) : world := with_working (committed w) w.

(** *** [bulk_insert_publications] *)

(** An item of the argument list. *)
Record pub : Type := {
  in_title : string;
  in_authors : string;
  in_venue : string;
  in_year : option Z;
  in_citations : Z;
  in_scholar_url : string;
  in_pub_number : nat
}.

(** [pub.get('year') if pub.get('year') and
    str(pub.get('year')).isdigit() else None] *)
Definition year_value (y : option Z) : option Z :=
  match y with
  | Some z => if negb (z =? 0) && isdigit (str_of_int z) then Some z else None
  | None => None
  end.

(** The tuple of [values] for one item. *)
Definition values_of (p : pub) : pub :=
  {| in_title := in_title p; in_authors := in_authors p;
     in_venue := in_venue p; in_year := year_value (in_year p);
     in_citations := in_citations p; in_scholar_url := in_scholar_url p;
     in_pub_number := in_pub_number p |}.

Definition row_of (new_id : Z) (v : pub) : pub_row :=
  {| id := new_id; title := in_title v; authors := in_authors v;
     venue := in_venue v; year := in_year v; citations := in_citations v;
     scholar_url := in_scholar_url v; pub_number := in_pub_number v |}.

Definition insert_row (w : world) (v : pub) : world :=
  let new_id := publications_seq w + 1 in
  {| committed := committed w;
     working :=
       with_publications
         (publications (working w) ++ [row_of new_id v]) (working w);
     publications_seq := new_id; profile_seq := profile_seq w;
     statements := statements w |}.

(** [execute_values(cur, insert_query, batch, page_size=batch_size)] *)
Definition execute_values (batch : list pub) : action unit :=
  execute (fun w => fold_left insert_row batch w).

Definition delete_publications : action unit :=
  execute (fun w => with_working (with_publications [] (working w)) w).

Definition batch_size : nat := 100.

Definition bulk_insert_body (publications : list pub) : action unit :=
  (delete_publications ;;
   let values := map values_of publications in
   for_each execute_values (batches batch_size values) ;;
   commit)%action.

Definition bulk_insert_publications (publications : list pub)
  : world -> bool * world :=
  fun w =>
    match get_connection w with
    | (Raised _, w') => (false, w')
    | (Returned _, w') =>
        match bulk_insert_body publications w' with
        | (Returned _, w'') => (true, w'')
        | (Raised _, w'') => (false, rollback w'')
        end
    end.

(** *** The ordering [ORDER BY year DESC NULLS LAST, citations DESC] *)

Definition order_before (a b : pub_row) : bool :=
  match year a, year b with
  | Some ya, Some yb =>
      (yb <? ya) || ((yb =? ya) && (citations b <=? citations a))
  | Some _, None => true
  | None, Some _ => false
  | None, None => citations b <=? citations a
  end.

Definition order_by (rows : list pub_row) : list pub_row :=
  sort_by order_before rows.

(** [LIMIT limit OFFSET offset]; the server refuses negative values. *)
Definition limit_offset {A} (limit offset : Z) (rows : list A)
  : outcome (list A) :=
  if (limit <? 0) || (offset <? 0) then Raised DatabaseError
  else Returned (firstn (Z.to_nat limit) (skipn (Z.to_nat offset) rows)).

(** *** [get_publications] *)

Inductive where_clause : Type :=
| NoFilter
| YearIsNull
| YearEquals (y : Z).

(** [if year_filter and year_filter != 'all': ...] *)
Definition build_where (year_filter : option string)
  : outcome where_clause :=
  match year_filter with
  | None => Returned NoFilter
  | Some f =>
      if String.eqb f "" || String.eqb f "all" then Returned NoFilter
      else if String.eqb f "Unknown" then Returned YearIsNull
      else bind (int_of_str f) (fun y => Returned (YearEquals y))
  end.

Definition satisfies (c : where_clause) (r : pub_row) : bool :=
  match c with
  | NoFilter => true
  | YearIsNull => match year r with None => true | Some _ => false end
  | YearEquals y => match year r with Some z => z =? y | None => false end
  end.

(** A row as the select list returns it, with
    [COALESCE(CAST(year AS TEXT), 'Unknown') as year]. *)
Record pub_dict : Type := {
  out_id : Z;
  out_title : string;
  out_authors : string;
  out_venue : string;
  out_year : string;
  out_citations : Z;
  out_scholar_url : string;
  out_pub_number : nat
}.

Definition year_text (y : option Z) : string :=
  match y with
  | Some z => str_of_int z
  | None => "Unknown"
  end.

Definition dict_of_row (r : pub_row) : pub_dict :=
  {| out_id := id r; out_title := title r; out_authors := authors r;
     out_venue := venue r; out_year := year_text (year r);
     out_citations := citations r; out_scholar_url := scholar_url r;
     out_pub_number := pub_number r |}.

Record pagination : Type := {
  page : Z;
  per_page : Z;
  total : Z;
  total_pages : Z;
  has_next : bool
}.

Record page_result : Type := {
  page_publications : list pub_dict;
  page_pagination : pagination
}.

Definition count_query (c : where_clause) : action Z :=
  query (fun w =>
    Returned
      (Z.of_nat (List.length (filter (satisfies c) (publications (working w)))))).

Definition select_query (c : where_clause) (limit offset : Z)
  : action (list pub_row) :=
  query (fun w =>
    limit_offset limit offset
      (order_by (filter (satisfies c) (publications (working w))))).

(** The handler logs and re-raises, so a raise of the body is a raise
    of the call. *)
Definition get_publications (page per_page : Z) (year_filter : option string)
  : action page_result :=
  (get_connection ;;
   where_clause <- lift (build_where year_filter) ;;
   total <- count_query where_clause ;;
   let offset := (page - 1) * per_page in
   publications <- select_query where_clause per_page offset ;;
   total_pages <- lift (floordiv (total + per_page - 1) per_page) ;;
   ret {| page_publications := map dict_of_row publications;
          page_pagination :=
            {| page := page; per_page := per_page; total := total;
               total_pages := total_pages;
               has_next := offset + per_page <? total |} |})%action.

(** *** [search_publications] *)

(** The server's [ILIKE] operator: pattern, then text. *)
Variable ilike : string -> string -> bool.

Definition search_matches (pattern : string) (r : pub_row) : bool :=
  ilike pattern (title r) || ilike pattern (authors r)
  || ilike pattern (venue r).

Record search_result : Type := {
  found_publications : list pub_row;
  found_query : string;
  found_total : Z;
  found_page : Z;
  found_per_page : Z
}.

Definition search_publications (text : string) (page per_page : Z)
  : action search_result :=
  (get_connection ;;
   let search_query := ("%" ++ text ++ "%")%string in
   total <- query (fun w =>
     Returned
       (Z.of_nat
          (List.length
             (filter (search_matches search_query)
                (publications (working w)))))) ;;
   let offset := (page - 1) * per_page in
   results <- query (fun w =>
     limit_offset per_page offset
       (order_by
          (filter (search_matches search_query)
             (publications (working w))))) ;;
   ret {| found_publications := results; found_query := text;
          found_total := total; found_page := page;
          found_per_page := per_page |})%action.

(** *** [get_profile] *)

(** The dictionary returned by [get_profile]: a row of the table, or
    the default profile, which has neither id nor timestamp. *)
Record profile_dict : Type := {
  pd_id : option Z;
  pd_name : string;
  pd_affiliation : string;
  pd_scholar_url : string;
  pd_total_citations : Z;
  pd_h_index : Z;
  pd_i10_index : Z;
  pd_total_publications : Z;
  pd_last_updated : option Z
}.

Definition dict_of_profile (r : profile_row) : profile_dict :=
  {| pd_id := Some (profile_id r); pd_name := name r;
     pd_affiliation := affiliation r; pd_scholar_url := profile_url r;
     pd_total_citations := total_citations r; pd_h_index := h_index r;
     pd_i10_index := i10_index r;
     pd_total_publications := total_publications r;
     pd_last_updated := Some (last_updated r) |}.

Definition default_profile : profile_dict :=
  {| pd_id := None; pd_name := "Dr. Abhishek Dixit";
     pd_affiliation := "Indian Institute of Technology Delhi";
     pd_scholar_url :=
       "https://scholar.google.co.in/citations?user=CjJ84BwAAAAJ&hl=en";
     pd_total_citations := 0; pd_h_index := 0; pd_i10_index := 0;
     pd_total_publications := 0; pd_last_updated := None |}.

(** [SELECT * FROM scholar_profile ORDER BY last_updated DESC LIMIT 1],
    then [fetchone()]. *)
Definition latest_profile (rows : list profile_row) : option profile_row :=
  List.hd_error
    (sort_by (fun a b => last_updated b <=? last_updated a) rows).

Definition get_profile : action profile_dict :=
  (get_connection ;;
   result <- query (fun w =>
     Returned (latest_profile (scholar_profile (working w)))) ;;
   match result with
   | Some row => ret (dict_of_profile row)
   | None => ret default_profile
   end)%action.

(** *** [update_profile] *)

Record profile_data : Type := {
  new_name : string;
  new_affiliation : string;
  new_scholar_url : string;
  new_total_citations : Z;
  new_h_index : Z;
  new_i10_index : Z;
  new_total_publications : Z
}.

Definition profile_row_of (row_id now : Z) (d : profile_data) : profile_row :=
  {| profile_id := row_id; name := new_name d;
     affiliation := new_affiliation d; profile_url := new_scholar_url d;
     total_citations := new_total_citations d; h_index := new_h_index d;
     i10_index := new_i10_index d;
     total_publications := new_total_publications d;
     last_updated := now |}.

Definition now (w : world) : Z := Z.of_nat (statements w).

(** [UPDATE scholar_profile SET ... WHERE id = %s] *)
Definition update_row (row_id : Z) (d : profile_data) : action unit :=
  execute (fun w =>
    with_working
      (with_profiles
         (map (fun r =>
                 if profile_id r =? row_id
                 then profile_row_of row_id (now w) d else r)
              (scholar_profile (working w)))
         (working w)) w).

(** [INSERT INTO scholar_profile ... VALUES ...]; the id and the
    timestamp are the column defaults. *)
Definition insert_profile (d : profile_data) : action unit :=
  execute (fun w =>
    let new_id := profile_seq w + 1 in
    {| committed := committed w;
       working :=
         with_profiles
           (scholar_profile (working w) ++ [profile_row_of new_id (now w) d])
           (working w);
       publications_seq := publications_seq w; profile_seq := new_id;
       statements := statements w |}).

Definition update_profile_body (d : profile_data) : action unit :=
  (existing <- query (fun w =>
     Returned (List.hd_error (scholar_profile (working w)))) ;;
   match existing with
   | Some row => update_row (profile_id row) d
   | None => insert_profile d
   end ;;
   commit)%action.

Definition update_profile (d : profile_data) : world -> bool * world :=
  fun w =>
    match get_connection w with
    | (Raised _, w') => (false, w')
    | (Returned _, w') =>
        match update_profile_body d w' with
        | (Returned _, w'') => (true, w'')
        | (Raised _, w'') => (false, rollback w'')
        end
    end.

(** *** [get_all_publications] *)

(** [SELECT * FROM publications ORDER BY year DESC NULLS LAST,
    citations DESC]; the handler logs and re-raises. *)
Definition get_all_publications : action (list pub_row) :=
  (get_connection ;;
   publications <- query (fun w =>
     Returned (order_by (publications (working w)))) ;;
   ret publications)%action.

(** *** [get_years_with_counts] *)

Definition year_eqb (a b : option Z) : bool :=
  match a, b with
  | Some x, Some y => x =? y
  | None, None => true
  | _, _ => false
  end.

(** The groups of [GROUP BY year]: each year of the table, once. *)
Fixpoint distinct_years (years : list (option Z)) : list (option Z) :=
  match years with
  | [] => []
  | y :: later =>
      if existsb (year_eqb y) later then distinct_years later
      else y :: distinct_years later
  end.

(** The server's descending order on text, for the column alias [year]
    of the select list, which is what the second sort key names. *)
Variable text_desc : string -> string -> bool.

(** [ORDER BY CASE WHEN year IS NULL THEN 1 ELSE 0 END, year DESC] on
    the grouped rows. *)
Definition histogram_before (a b : option Z * nat) : bool :=
  match fst a, fst b with
  | Some _, None => true
  | None, Some _ => false
  | _, _ => text_desc (year_text (fst a)) (year_text (fst b))
  end.

Definition year_counts (rows : list pub_row) : list (option Z * nat) :=
  sort_by histogram_before
    (map (fun y =>
            (y, List.length (filter (fun r => year_eqb (year r) y) rows)))
         (distinct_years (map year rows))).

(** [{row['year']: row['count'] for row in results}] *)
Definition counts_dict (results : list (option Z * nat)) : list (string * Z) :=
  fold_left (fun d row => dict_set (year_text (fst row)) (Z.of_nat (snd row)) d)
            results [].

(** The handler logs and returns the empty dictionary. *)
Definition get_years_with_counts : world -> list (string * Z) * world :=
  fun w =>
    match (get_connection ;;
           query (fun w => Returned (year_counts (publications (working w)))))%action w
    with
    | (Returned results, w') => (counts_dict results, w')
    | (Raised _, w') => ([], w')
    end.

End Gateway.

End Database.

(* ===================================================================== *)
(** * bulk_sync.py                                                        *)
(* ===================================================================== *)

Module BulkSync.

Local Open Scope string_scope.

Definition scholar_id : string := "CjJ84BwAAAAJ".

(** [int(year) if year.isdigit() else None] *)
Definition year_of_label (label : string) : option Z :=
  if isdigit label then Some (int_of_digits label) else None.

(** The publication after [pub['year'] = ...]. *)
Definition with_year (p : ScholarFetcher.publication) (y : option Z)
  : Database.pub :=
  {| Database.in_title := ScholarFetcher.title p;
     Database.in_authors := ScholarFetcher.authors p;
     Database.in_venue := ScholarFetcher.venue p;
     Database.in_year := y;
     Database.in_citations := ScholarFetcher.citations p;
     Database.in_scholar_url := ScholarFetcher.scholar_url p;
     Database.in_pub_number := ScholarFetcher.pub_number p |}.

(** [for year, pubs in publications_by_year.items(): for pub in pubs: ...] *)
Definition flatten (by_year : list (string * list ScholarFetcher.publication))
  : list Database.pub :=
  flat_map
    (fun entry => map (fun p => with_year p (year_of_label (fst entry)))
                      (snd entry))
    by_year.

Definition profile_data_of (d : ScholarFetcher.scholar_data)
  : Database.profile_data :=
  let p := ScholarFetcher.sd_profile d in
  {| Database.new_name := ScholarFetcher.name p;
     Database.new_affiliation := ScholarFetcher.affiliation p;
     Database.new_scholar_url := ScholarFetcher.profile_url p;
     Database.new_total_citations := ScholarFetcher.total_citations p;
     Database.new_h_index := ScholarFetcher.h_index p;
     Database.new_i10_index := ScholarFetcher.i10_index p;
     Database.new_total_publications :=
       Z.of_nat (ScholarFetcher.total_publications d) |}.

(** The steps after a successful fetch, shared with the admin endpoint:
    flatten, bulk replace, then the profile upsert, whose result is not
    looked at. The list is returned for the caller's report. *)
Definition store (faults : nat -> bool) (d : ScholarFetcher.scholar_data)
           (w : Database.world)
  : bool * list Database.pub * Database.world :=
  let all_publications := flatten (ScholarFetcher.publications_by_year d) in
  match Database.bulk_insert_publications faults all_publications w with
  | (true, w') =>
      (true, all_publications,
       snd (Database.update_profile faults (profile_data_of d) w'))
  | (false, w') => (false, all_publications, w')
  end.

(** [pool_ok] says whether [SupabaseManager()] succeeded; its raise is
    caught by the outer handler. *)
Definition sync_all_publications {source_pub} (pool_ok : bool)
           (scholarly : nat -> ScholarFetcher.client source_pub)
           (faults : nat -> bool) (w : Database.world)
  : bool * Database.world :=
  if pool_ok then
    match fst (ScholarFetcher.fetch_scholar_data scholarly scholar_id) with
    | None => (false, w)
    | Some scholar_data =>
        let '(success, _, w') := store faults scholar_data w in
        (success, w')
    end
  else (false, w).

(** [verify_sync]: the total, the ten most recent years with their
    counts and the latest profile are read and printed; the result is
    [total > 1400]. Any raise gives [False]. *)
Definition recent_years (rows : list Database.pub_row) : list (Z * nat) :=
  firstn 10
    (sort_by (fun a b : Z * nat => (fst b <=? fst a)%Z)
       (flat_map
          (fun y => match y with
                    | Some z =>
                        [(z, List.length
                               (filter (fun r => Database.year_eqb
                                                   (Database.year r) (Some z))
                                       rows))]
                    | None => []
                    end)
          (Database.distinct_years (map Database.year rows)))).

Definition verification (faults : nat -> bool)
  : Database.action (Z * list (Z * nat) * option Database.profile_row) :=
  Database.and_then (Database.get_connection faults) (fun _ =>
  Database.and_then
    (Database.query faults (fun w =>
       Returned
         (Z.of_nat
            (List.length (Database.publications (Database.working w))))))
    (fun total =>
  Database.and_then
    (Database.query faults (fun w =>
       Returned (recent_years (Database.publications (Database.working w)))))
    (fun years =>
  Database.and_then
    (Database.query faults (fun w =>
       Returned
         (Database.latest_profile
            (Database.scholar_profile (Database.working w)))))
    (fun profile => Database.ret (total, years, profile))))).

Definition verify_sync (pool_ok : bool) (faults : nat -> bool)
           (w : Database.world) : bool * Database.world :=
  if pool_ok then
    match verification faults w with
    | (Returned (total, _, _), w') => ((1400 <? total)%Z, w')
    | (Raised _, w') => (false, w')
    end
  else (false, w).

End BulkSync.

(* ===================================================================== *)
(** * fixunknown.py                                                       *)
(* ===================================================================== *)

Module FixUnknown.

Local Open Scope Z_scope.
Import Database.

Definition null_or_zero (r : pub_row) : bool :=
  match year r with
  | None => true
  | Some y => y =? 0
  end.

(** [WHERE year < 1900 OR year > 2030]; a NULL year satisfies neither. *)
Definition invalid_year (r : pub_row) : bool :=
  match year r with
  | None => false
  | Some y => (y <? 1900) || (2030 <? y)
  end.

Definition count_where (faults : nat -> bool) (p : pub_row -> bool)
  : action Z :=
  query faults (fun w =>
    Returned (Z.of_nat (List.length (filter p (publications (working w)))))).

(** The three reports of the script: the two counts and up to five
    titles with a NULL year. *)
Definition analysis (faults : nat -> bool)
  : action (Z * Z * list pub_row) :=
  (get_connection faults ;;
   count_before <- count_where faults null_or_zero ;;
   invalid_years <- count_where faults invalid_year ;;
   examples <- query faults (fun w =>
     Returned
       (firstn 5
          (filter (fun r => match year r with None => true | Some _ => false end)
             (publications (working w))))) ;;
   ret (count_before, invalid_years, examples))%action.

Definition fix_unknown_years (pool_ok : bool) (faults : nat -> bool)
           (w : world) : bool * world :=
  if pool_ok then
    match analysis faults w with
    | (Returned _, w') => (true, w')
    | (Raised _, w') => (false, w')
    end
  else (false, w).

End FixUnknown.

(* ===================================================================== *)
(** * app.py                                                              *)
(* ===================================================================== *)

Module App.

Local Open Scope Z_scope.
Import Database.

Record response (A : Type) : Type := {
  status : nat;
  body : A
}.

(** *** [POST /api/admin/sync-scholar] *)

Inductive sync_body : Type :=
| SyncError (message : string)
| SyncDone (total_publications : nat).

(** [db_ready] says whether the module-level [db] was initialised. *)
Definition sync_scholar_data {source_pub} (db_ready : bool)
           (scholarly : nat -> ScholarFetcher.client source_pub)
           (faults : nat -> bool) (w : Database.world)
  : response sync_body * Database.world :=
  if db_ready then
    match fst (ScholarFetcher.fetch_scholar_data scholarly BulkSync.scholar_id) with
    | None =>
        ({| status := 500; body := SyncError "Failed to fetch Scholar data" |}, w)
    | Some scholar_data =>
        match BulkSync.store faults scholar_data w with
        | (true, all_publications, w') =>
            ({| status := 200;
                body := SyncDone (List.length all_publications) |}, w')
        | (false, _, w') =>
            ({| status := 500; body := SyncError "Failed to sync data" |}, w')
        end
    end
  else ({| status := 500; body := SyncError "Database not available" |}, w).

(** *** [GET /api/publications] *)

Record request_args : Type := {
  arg_page : option string;
  arg_per_page : option string;
  arg_year : option string
}.

(** The JSON body, without its clock-dependent fields [response_time]
    and [last_updated]. *)
Inductive publications_body : Type :=
| PublicationsError (e : exn)
| Unavailable
| Publications (profile : option Database.profile_dict)
               (publications : list Database.pub_dict)
               (pagination : Database.pagination).

(** [int(request.args.get(key, default))] *)
Definition int_arg (int_of_str : string -> outcome Z) (arg : option string)
           (default : Z) : outcome Z :=
  match arg with
  | Some text => int_of_str text
  | None => Returned default
  end.

Definition get_publications_body (faults : nat -> bool)
           (int_of_str : string -> outcome Z) (args : request_args)
  : Database.action publications_body :=
  (page <- Database.lift (int_arg int_of_str (arg_page args) 1) ;;
   per_page <- Database.lift (int_arg int_of_str (arg_per_page args) 5) ;;
   let year_filter := get (arg_year args) "all"%string in
   result <- Database.get_publications faults int_of_str page per_page
               (Some year_filter) ;;
   profile <- Database.get_profile faults ;;
   Database.ret
     (Publications (if page =? 1 then Some profile else None)
        (Database.page_publications result)
        (Database.page_pagination result)))%action.

Definition get_publications (db_ready : bool) (faults : nat -> bool)
           (int_of_str : string -> outcome Z) (args : request_args)
           (w : Database.world)
  : response publications_body * Database.world :=
  if db_ready then
    match get_publications_body faults int_of_str args w with
    | (Returned b, w') => ({| status := 200; body := b |}, w')
    | (Raised e, w') => ({| status := 500; body := PublicationsError e |}, w')
    end
  else ({| status := 500; body := Unavailable |}, w).

(** *** [GET /api/years] *)

Inductive years_body : Type :=
| YearsUnavailable
| YearCounts (counts : list (string * Z)).

Definition get_years (db_ready : bool) (faults : nat -> bool)
           (text_desc : string -> string -> bool) (w : Database.world)
  : response years_body * Database.world :=
  if db_ready then
    let (year_counts, w') :=
      Database.get_years_with_counts faults text_desc w in
    ({| status := 200; body := YearCounts year_counts |}, w')
  else ({| status := 500; body := YearsUnavailable |}, w).

(** *** [GET /api/search] *)

Record search_args : Type := {
  search_q : option string;
  search_page : option string;
  search_per_page : option string
}.

Inductive search_body : Type :=
| QueryUnavailable
| QueryFailed (e : exn)
| QueryRequired
| QueryFound (result : Database.search_result).

Definition search_publications (db_ready : bool) (faults : nat -> bool)
           (int_of_str : string -> outcome Z)
           (ilike : string -> string -> bool) (args : search_args)
           (w : Database.world)
  : response search_body * Database.world :=
  if db_ready then
    let query := get (search_q args) ""%string in
    match int_arg int_of_str (search_page args) 1 with
    | Raised e => ({| status := 500; body := QueryFailed e |}, w)
    | Returned page =>
        match int_arg int_of_str (search_per_page args) 10 with
        | Raised e => ({| status := 500; body := QueryFailed e |}, w)
        | Returned per_page =>
            match query with
            | EmptyString =>
                ({| status := 400; body := QueryRequired |}, w)
            | String _ _ =>
                match Database.search_publications faults ilike query
                        page per_page w with
                | (Returned result, w') =>
                    ({| status := 200; body := QueryFound result |}, w')
                | (Raised e, w') =>
                    ({| status := 500; body := QueryFailed e |}, w')
                end
            end
        end
    end
  else ({| status := 500; body := QueryUnavailable |}, w).

(** *** [GET /api/test-db] *)

Inductive test_body : Type :=
| TestUnavailable
| TestFailed (e : exn)
| TestPassed (total_publications : Z) (database_version : string).

(** [db_version] is what the server answers to [SELECT version()]. *)
Definition test_queries (faults : nat -> bool) (db_version : string)
  : Database.action (Z * string) :=
  (Database.get_connection faults ;;
   result <- Database.query faults (fun w =>
     Returned
       (Z.of_nat (List.length (Database.publications (Database.working w))))) ;;
   version <- Database.query faults (fun _ => Returned db_version) ;;
   Database.ret (result, version))%action.

Definition test_database (db_ready : bool) (faults : nat -> bool)
           (db_version : string) (w : Database.world)
  : response test_body * Database.world :=
  if db_ready then
    match test_queries faults db_version w with
    | (Returned (total, version), w') =>
        ({| status := 200;
            body := TestPassed total
                      (String.substring 0 50 version ++ "...")%string |}, w')
    | (Raised e, w') => ({| status := 500; body := TestFailed e |}, w')
    end
  else ({| status := 500; body := TestUnavailable |}, w).

End App.

(* ===================================================================== *)
(** * Notions used in the statements                                      *)
(* ===================================================================== *)

Section ProcessNotions.
Variable source_pub : Type.
Variable fill : source_pub -> outcome ScholarFetcher.filled_pub.

(** The records an item contributes: one, or none when its [try] raises. *)
Definition kept (item : nat * source_pub) : list ScholarFetcher.publication :=
  match ScholarFetcher.process_one fill (fst item) (snd item) with
  | Returned record => [record]
  | Raised _ => []
  end.

(** The items whose detail fetch does not raise. *)
Definition survives (item : nat * source_pub) : bool :=
  is_returned (fill (snd item)).
End ProcessNotions.

(** The ceiling of the quotient [a / b], for a positive [b]. *)
Definition ceiling_div (a b : Z) : Z := (- ((- a) / b))%Z.

(** The statements numbered [first], ..., [first + count - 1] of a run all
    succeed under the fault plan. *)
Definition answers (faults : nat -> bool) (first count : nat) : Prop :=
  forall k, k < count -> faults (first + k) = false.

(** The rows an [INSERT] of [values] creates when the id sequence stands
    at [last_id]. *)
Fixpoint rows_from (last_id : Z) (values : list Database.pub)
  : list Database.pub_row :=
  match values with
  | [] => []
  | v :: later =>
      Database.row_of (last_id + 1) v :: rows_from (last_id + 1) later
  end.

(** The year that reaches the table for a raw year label: the label goes
    through the orchestrator's flattening, then through the value
    preparation of the bulk replace. *)
Definition stored_year (label : string) : option Z :=
  Database.year_value (BulkSync.year_of_label label).

(** A four-digit year. *)
Definition plausible_year (y : Z) : Prop := (1000 <= y <= 9999)%Z.

(** [a] occurs before [b] in [l]. *)
Inductive precedes {A : Type} (a b : A) (l : list A) : Prop :=
| precedes_at (l1 l2 l3 : list A) :
    l = l1 ++ a :: l2 ++ b :: l3 -> precedes a b l.

(** The order of the fetcher's sort: greater or equal sort key. *)
Definition year_key_ge (a b : ScholarFetcher.publication) : Prop :=
  (ScholarFetcher.year_key b <= ScholarFetcher.year_key a)%Z.

(** The order [year DESC NULLS LAST, citations DESC] on rows. *)
Definition storage_order (a b : Database.pub_row) : Prop :=
  match Database.year a, Database.year b with
  | Some ya, Some yb =>
      (yb < ya \/ (yb = ya /\ Database.citations b <= Database.citations a))%Z
  | Some _, None => True
  | None, Some _ => False
  | None, None => (Database.citations b <= Database.citations a)%Z
  end.

(** The records of a grouping by year label, in dictionary order. *)
Definition records_of (d : list (string * list ScholarFetcher.publication))
  : list ScholarFetcher.publication :=
  flat_map snd d.

(** Every group is non-empty and holds publications of its own label. *)
Definition well_grouped (d : list (string * list ScholarFetcher.publication))
  : Prop :=
  Forall (fun entry =>
            snd entry <> []
            /\ Forall (fun p => ScholarFetcher.year p = fst entry) (snd entry))
         d.

(** ** Occurrences of a name in an author string *)

Module Occurrence.

Local Open Scope string_scope.

(** [text] is [pre ++ m ++ post], and the pattern [\bLITERAL\b] matches
    the segment [m] at that position. *)
Definition occurs (lit text pre m post : string) : Prop :=
  text = pre ++ m ++ post
  /\ Re.match_at lit (Re.last_char None pre) (m ++ post) = Some (m, post).

(** The literal differs from [b] within the length of both: it cannot
    match at the head of [b], whatever follows [b]. *)
Fixpoint mismatch (lit b : string) : bool :=
  match lit, b with
  | String p lit', String c b' =>
      if Re.ci_eqb p c then mismatch lit' b' else true
  | _, _ => false
  end.

(** No match of the literal can start inside [b]. *)
Fixpoint no_start (lit b : string) : bool :=
  match b with
  | EmptyString => true
  | String _ b' => mismatch lit b && no_start lit b'
  end.

(** No character of [s] is [c], up to case. *)
Fixpoint without (c : ascii) (s : string) : bool :=
  match s with
  | EmptyString => true
  | String p s' => negb (Re.ci_eqb p c) && without c s'
  end.

(** A match of the literal that starts earlier cannot reach a [c]. *)
Definition no_run (lit : string) (c : ascii) : bool :=
  match lit with
  | EmptyString => true
  | String _ lit' => without c lit'
  end.

(** The same text up to the case of its letters. *)
Fixpoint ci_same (a b : string) : bool :=
  match a, b with
  | EmptyString, EmptyString => true
  | String x a', String y b' => Re.ci_eqb x y && ci_same a' b'
  | _, _ => false
  end.

End Occurrence.

(* ===================================================================== *)
(** * Sample data                                                         *)
(* ===================================================================== *)

Module Examples.

Local Open Scope string_scope.

Definition no_faults : nat -> bool := fun _ => false.

(** Every statement from number [n] on is refused. *)
Definition faults_from (n : nat) : nat -> bool := fun k => (n <=? k)%nat.

Definition empty_world : Database.world :=
  {| Database.committed :=
       {| Database.publications := []; Database.scholar_profile := [] |};
     Database.working :=
       {| Database.publications := []; Database.scholar_profile := [] |};
     Database.publications_seq := 0%Z;
     Database.profile_seq := 0%Z;
     Database.statements := 0%nat |}.

(** A fetched publication with the given year label and position. *)
Definition paper (label : string) (number : nat) : ScholarFetcher.publication :=
  {| ScholarFetcher.title := "Optical access networks";
     ScholarFetcher.authors := "A Dixit, J Smith";
     ScholarFetcher.venue := "Journal of Lightwave Technology";
     ScholarFetcher.year := label;
     ScholarFetcher.citations := 12%Z;
     ScholarFetcher.scholar_url := "";
     ScholarFetcher.pub_number := number |}.

Definition filled (label : string) : ScholarFetcher.filled_pub :=
  {| ScholarFetcher.fp_bib :=
       Some {| ScholarFetcher.bib_title := Some "Optical access networks";
               ScholarFetcher.bib_author := Some "A Dixit, J Smith";
               ScholarFetcher.bib_venue := None;
               ScholarFetcher.bib_pub_year := Some (PyStr label) |};
     ScholarFetcher.fp_num_citations := Some 12%Z;
     ScholarFetcher.fp_pub_url := None |}.

(** Source items are numbered; item 5 cannot be filled. *)
Definition fill_but_fifth (item : nat) : outcome ScholarFetcher.filled_pub :=
  if (item =? 5)%nat then Raised ScholarError else Returned (filled "2021").

Definition author : ScholarFetcher.author_filled nat :=
  {| ScholarFetcher.af_name := Some "Abhishek Dixit";
     ScholarFetcher.af_affiliation := None;
     ScholarFetcher.af_citedby := Some 100%Z;
     ScholarFetcher.af_hindex := Some 5%Z;
     ScholarFetcher.af_i10index := Some 3%Z;
     ScholarFetcher.af_publications := Some (seq 1 10) |}.

Definition working_client : ScholarFetcher.client nat :=
  {| ScholarFetcher.search_and_fill_author := fun _ => Returned author;
     ScholarFetcher.fill_publication := fill_but_fifth |}.

Definition broken_client : ScholarFetcher.client nat :=
  {| ScholarFetcher.search_and_fill_author := fun _ => Raised ScholarError;
     ScholarFetcher.fill_publication := fill_but_fifth |}.

(** The source fails during the first two attempts only. *)
Definition recovering (attempt : nat) : ScholarFetcher.client nat :=
  if (attempt <=? 2)%nat then broken_client else working_client.

Definition unreachable (attempt : nat) : ScholarFetcher.client nat :=
  broken_client.

(** A reading of [int] for request strings: decimal digits only. *)
Definition int_of_str (text : string) : outcome Z :=
  if isdigit text then Returned (int_of_digits text) else Raised ValueError.

(** Twelve papers of 2021 and one without a year, as the fetcher groups
    them. *)
Definition catalogue : list (string * list ScholarFetcher.publication) :=
  [("2021", map (paper "2021") (seq 1 12)); ("Unknown", [paper "Unknown" 13])].

(** The server after a first sync of the catalogue. *)
Definition stocked_world : Database.world :=
  snd (Database.bulk_insert_publications no_faults
         (BulkSync.flatten catalogue) empty_world).

Definition first_page : App.request_args :=
  {| App.arg_page := None; App.arg_per_page := None; App.arg_year := None |}.

(** A later snapshot of 250 papers, which takes three batches. *)
Definition second_snapshot : list Database.pub :=
  BulkSync.flatten [("2022", map (paper "2022") (seq 1 250))].

End Examples.

(* ===================================================================== *)
(** * Further notions                                                     *)
(* ===================================================================== *)

(** The profile row [r] holds the data [d]. *)
Definition carries (d : Database.profile_data) (r : Database.profile_row)
  : Prop :=
  Database.name r = Database.new_name d
  /\ Database.affiliation r = Database.new_affiliation d
  /\ Database.profile_url r = Database.new_scholar_url d
  /\ Database.total_citations r = Database.new_total_citations d
  /\ Database.h_index r = Database.new_h_index d
  /\ Database.i10_index r = Database.new_i10_index d
  /\ Database.total_publications r = Database.new_total_publications d.

(** The profile dictionary [p] shows the data [d]. *)
Definition shows (d : Database.profile_data) (p : Database.profile_dict)
  : Prop :=
  Database.pd_name p = Database.new_name d
  /\ Database.pd_affiliation p = Database.new_affiliation d
  /\ Database.pd_scholar_url p = Database.new_scholar_url d
  /\ Database.pd_total_citations p = Database.new_total_citations d
  /\ Database.pd_h_index p = Database.new_h_index d
  /\ Database.pd_i10_index p = Database.new_i10_index d
  /\ Database.pd_total_publications p = Database.new_total_publications d.

(** Sample profile data. *)
Definition sample_profile : Database.profile_data :=
  {| Database.new_name := "Abhishek Dixit";
     Database.new_affiliation := "IIT Delhi";
     Database.new_scholar_url := "";
     Database.new_total_citations := 100;
     Database.new_h_index := 5;
     Database.new_i10_index := 3;
     Database.new_total_publications := 13 |}.

(** The sum of a list of integers. *)
Definition sum_of (l : list Z) : Z := fold_right Z.add 0%Z l.

(** The number of rows whose year is [y]. *)
Definition rows_of_year (y : option Z) (rows : list Database.pub_row) : nat :=
  List.length (filter (fun r => Database.year_eqb (Database.year r) y) rows).

(** The dictionary item of a grouped row of the histogram query. *)
Definition histogram_entry (row : option Z * nat) : string * Z :=
  (Database.year_text (fst row), Z.of_nat (snd row)).

(** [s] is [t] with some characters left out. *)
Inductive subsequence : string -> string -> Prop :=
| subsequence_nil : subsequence EmptyString EmptyString
| subsequence_keep (c : ascii) (s t : string) :
    subsequence s t -> subsequence (String c s) (String c t)
| subsequence_skip (c : ascii) (s t : string) :
    subsequence s t -> subsequence s (String c t).

(** The log of a fetch that ends with attempt number [k]: a back-off wait
    after each of the attempts before it. *)
Definition log_until (k : nat) : list ScholarFetcher.event :=
  flat_map (fun j => [ScholarFetcher.Attempt j; ScholarFetcher.Backoff j])
           (seq 1 (k - 1))
  ++ [ScholarFetcher.Attempt k].

(** The records of [l] with the year label [label], in the order of [l]. *)
Definition with_label (label : string) (l : list ScholarFetcher.publication)
  : list ScholarFetcher.publication :=
  filter (fun p => String.eqb (ScholarFetcher.year p) label) l.

(** The number of statements of a bulk replace of [publications]. *)
Definition bulk_statements (publications : list Database.pub) : nat :=
  List.length
    (Database.batches Database.batch_size
       (map Database.values_of publications)) + 3.

(** ** Further sample data *)

(** What the fetcher returns from [Examples.working_client]. *)
Definition sample_fetched : ScholarFetcher.scholar_data :=
  ScholarFetcher._format_scholar_data Examples.author
    (ScholarFetcher._process_all_publications Examples.fill_but_fifth
       (seq 1 10))
    BulkSync.scholar_id.

(** The server after a first profile upsert. *)
Definition profiled_world : Database.world :=
  snd (Database.update_profile Examples.no_faults sample_profile
         Examples.stocked_world).

(** Page [k + 1] of the papers of 2021, five to a page. *)
Definition sample_page (k : nat) : Database.page_result :=
  match fst (Database.get_publications Examples.no_faults Examples.int_of_str
               (Z.of_nat k + 1) 5 (Some "2021"%string)
               Examples.stocked_world) with
  | Returned result => result
  | Raised _ =>
      {| Database.page_publications := [];
         Database.page_pagination :=
           {| Database.page := 0; Database.per_page := 0;
              Database.total := 0; Database.total_pages := 0;
              Database.has_next := false |} |}
  end.

(** A request for pages of size zero. *)
Definition zero_size_request : App.request_args :=
  {| App.arg_page := None; App.arg_per_page := Some "0"%string;
     App.arg_year := None |}.

(** A reading of [ILIKE] for the patterns [%text%] of the search: the
    text between the two wildcards occurs in the field, up to case. *)
Fixpoint ci_prefix (lit s : string) : bool :=
  match lit, s with
  | EmptyString, _ => true
  | String p lit', String c s' => Re.ci_eqb p c && ci_prefix lit' s'
  | String _ _, EmptyString => false
  end.

Fixpoint ci_contains (lit s : string) : bool :=
  ci_prefix lit s
  || match s with
     | EmptyString => false
     | String _ s' => ci_contains lit s'
     end.

Definition sample_ilike (pattern text : string) : bool :=
  ci_contains (String.substring 1 (String.length pattern - 2) pattern) text.

(* ===================================================================== *)
(** * Properties                                                          *)
(* ===================================================================== *)

Unset Implicit Arguments.

(** Unfolds a gateway call into its statements. *)
Ltac gateway_steps :=
  unfold Database.get_publications, Database.search_publications,
    Database.get_profile, Database.update_profile,
    Database.update_profile_body, Database.update_row,
    Database.insert_profile, Database.count_query, Database.select_query,
    FixUnknown.fix_unknown_years, FixUnknown.analysis, FixUnknown.count_where,
    Database.and_then, Database.get_connection, Database.commit,
    Database.execute, Database.query, Database.lift, Database.ret,
    Database.rollback.

(** Splits on the next statement the fault plan decides; a refused
    statement ends the goal at once. *)
Ltac next_statement faults :=
  match goal with
  | |- context [if faults ?n then _ else _] =>
      destruct (faults n); [first [discriminate | reflexivity]|]; simpl
  end.

(** ** The fetcher's retry loop *)

Section RetryFacts.
Import ScholarFetcher.
Variable source_pub : Type.
Variable scholarly : nat -> client source_pub.
Variable scholar_id : string.

Local Abbreviation try_body attempt :=
  (attempt_body (scholarly attempt) scholar_id).

(** The loop, unrolled over its three attempts. *)
Lemma fetch_scholar_data_unrolled :
  fetch_scholar_data scholarly scholar_id =
  match try_body 1 with
  | Returned r => (Some r, [Attempt 1])
  | Raised _ =>
      match try_body 2 with
      | Returned r => (Some r, [Attempt 1; Backoff 1; Attempt 2])
      | Raised _ =>
          match try_body 3 with
          | Returned r =>
              (Some r, [Attempt 1; Backoff 1; Attempt 2; Backoff 2; Attempt 3])
          | Raised _ =>
              (None, [Attempt 1; Backoff 1; Attempt 2; Backoff 2; Attempt 3])
          end
      end
  end.
Proof.
  unfold fetch_scholar_data. simpl.
  destruct (attempt_body (scholarly 1) scholar_id); [reflexivity|].
  destruct (attempt_body (scholarly 2) scholar_id); [reflexivity|].
  destruct (attempt_body (scholarly 3) scholar_id); reflexivity.
Qed.

Lemma attempts_never_exceed_ceiling :
  attempts_made (snd (fetch_scholar_data scholarly scholar_id)) <= max_retries.
Proof.
  rewrite fetch_scholar_data_unrolled.
  destruct (try_body 1); [cbv; lia|].
  destruct (try_body 2); [cbv; lia|].
  destruct (try_body 3); cbv; lia.
Qed.
End RetryFacts.

(** C2. Retry policy of [fetch_scholar_data]: at most three attempts are
    made; when the first two attempts raise and the third returns, the
    fetch returns that result after exactly three attempts; when every
    attempt raises, it returns the sentinel [None] after exactly three
    attempts. The function has no raising path: every raise of an attempt
    is absorbed by the handler. *)
Theorem fetch_retry_policy
        (source_pub : Type)
        (scholarly : nat -> ScholarFetcher.client source_pub)
        (scholar_id : string) :
  let try_body n := ScholarFetcher.attempt_body (scholarly n) scholar_id in
  let run := ScholarFetcher.fetch_scholar_data scholarly scholar_id in
  ScholarFetcher.attempts_made (snd run) <= 3
  /\ (forall e1 e2 result,
        try_body 1 = Raised e1 -> try_body 2 = Raised e2 ->
        try_body 3 = Returned result ->
        fst run = Some result /\ ScholarFetcher.attempts_made (snd run) = 3)
  /\ ((forall n, is_returned (try_body n) = false) ->
        fst run = None /\ ScholarFetcher.attempts_made (snd run) = 3).
Proof.
  intros try_body run. split; [|split].
  - apply attempts_never_exceed_ceiling.
  - intros e1 e2 result H1 H2 H3. subst run.
    rewrite fetch_scholar_data_unrolled.
    subst try_body. cbv beta in *. rewrite H1, H2, H3. split; reflexivity.
  - intros Hfail. subst run. rewrite fetch_scholar_data_unrolled.
    pose proof (Hfail 1) as H1. pose proof (Hfail 2) as H2.
    pose proof (Hfail 3) as H3. subst try_body. cbv beta in *.
    destruct (ScholarFetcher.attempt_body (scholarly 1) scholar_id);
      [discriminate|].
    destruct (ScholarFetcher.attempt_body (scholarly 2) scholar_id);
      [discriminate|].
    destruct (ScholarFetcher.attempt_body (scholarly 3) scholar_id);
      [discriminate|].
    split; reflexivity.
Qed.

(** ** Per-publication processing *)

Section ProcessFacts.
Import ScholarFetcher.
Variable source_pub : Type.
Variable fill : source_pub -> outcome filled_pub.

Local Abbreviation kept := (kept fill).
Local Abbreviation survives := (survives fill).

Lemma process_step_kept processed item :
  process_step fill processed item = processed ++ kept item.
Proof.
  unfold process_step, kept.
  destruct (process_one fill (fst item) (snd item)); [reflexivity|].
  now rewrite app_nil_r.
Qed.

Lemma fold_process_step items processed :
  fold_left (process_step fill) items processed
  = processed ++ flat_map kept items.
Proof.
  revert processed. induction items as [|item items IH]; intros processed.
  - simpl. now rewrite app_nil_r.
  - simpl. rewrite IH, process_step_kept, <- app_assoc. reflexivity.
Qed.

Lemma process_all_flat_map publications :
  _process_all_publications fill publications
  = flat_map kept (enumerate publications).
Proof.
  unfold _process_all_publications. now rewrite fold_process_step.
Qed.

Lemma process_one_returns i p :
  is_returned (process_one fill i p) = is_returned (fill p).
Proof. unfold process_one, bind. destruct (fill p); reflexivity. Qed.

Lemma process_one_number i p record :
  process_one fill i p = Returned record -> pub_number record = i + 1.
Proof.
  unfold process_one, bind. destruct (fill p); [|discriminate].
  intros H. injection H as <-. reflexivity.
Qed.

(** The survivors, record by record, over any run of positions. *)
Lemma kept_survivors (items : list (nat * source_pub)) :
  Forall2 (fun record item =>
             process_one fill (fst item) (snd item) = Returned record)
          (flat_map kept items) (filter survives items).
Proof.
  induction items as [|item items IH]; simpl; [constructor|].
  unfold kept at 1, survives at 1.
  rewrite <- (process_one_returns (fst item) (snd item)).
  destruct (process_one fill (fst item) (snd item)) eqn:E; simpl.
  - constructor; assumption.
  - assumption.
Qed.

Lemma filter_survives_enumerate (l : list source_pub) (i : nat) :
  map snd (filter survives (combine (seq i (List.length l)) l))
  = filter (fun p => is_returned (fill p)) l.
Proof.
  revert i. induction l as [|p l IH]; intros i; simpl; [reflexivity|].
  unfold survives at 1. simpl.
  destruct (is_returned (fill p)); simpl; now rewrite IH.
Qed.

Lemma positions_increase (l : list source_pub) (i : nat) :
  StronglySorted lt
    (map (fun item => fst item + 1)
         (filter survives (combine (seq i (List.length l)) l)))
  /\ Forall (fun item => i <= fst item)
            (filter survives (combine (seq i (List.length l)) l)).
Proof.
  revert i. induction l as [|p l IH]; intros i; simpl.
  - split; constructor.
  - destruct (IH (S i)) as [Hs Hf].
    assert (Hf' : Forall (fun item : nat * source_pub => i <= fst item)
                   (filter survives (combine (seq (S i) (List.length l)) l))).
    { eapply Forall_impl; [|exact Hf]. simpl. intros; lia. }
    destruct (survives (i, p)); simpl.
    + split.
      * constructor; [exact Hs|].
        rewrite Forall_map. eapply Forall_impl; [|exact Hf].
        simpl. intros; lia.
      * constructor; [simpl; lia | exact Hf'].
    + split; assumption.
Qed.
End ProcessFacts.

(** C4. Per-item failure isolation in [_process_all_publications]: an item
    whose detail fetch raises is skipped and the loop goes on. The output
    has exactly one record per item that does not raise, in discovery
    order; each record is the one built from its item and carries the
    item's 1-based position as sequence number, so the sequence numbers
    increase strictly along the output. *)
Theorem per_item_failure_isolation
        (source_pub : Type)
        (fill : source_pub -> outcome ScholarFetcher.filled_pub)
        (publications : list source_pub) :
  let output := ScholarFetcher._process_all_publications fill publications in
  let survivors := filter (survives fill) (enumerate publications) in
  List.length output
  = List.length (filter (fun p => is_returned (fill p)) publications)
  /\ Forall2 (fun record item =>
                ScholarFetcher.process_one fill (fst item) (snd item)
                = Returned record)
             output survivors
  /\ map ScholarFetcher.pub_number output
     = map (fun item => fst item + 1) survivors
  /\ StronglySorted lt (map ScholarFetcher.pub_number output).
Proof.
  intros output survivors.
  assert (HF : Forall2 (fun record item =>
                ScholarFetcher.process_one fill (fst item) (snd item)
                = Returned record) output survivors).
  { subst output survivors. rewrite process_all_flat_map.
    apply kept_survivors. }
  assert (HN : map ScholarFetcher.pub_number output
               = map (fun item => fst item + 1) survivors).
  { clear -HF. induction HF as [|record item out surv H _ IH]; simpl;
      [reflexivity|].
    rewrite IH. f_equal. eapply process_one_number; eassumption. }
  split; [|split; [exact HF|split; [exact HN|]]].
  - rewrite (Forall2_length HF). subst survivors. unfold enumerate.
    rewrite <- (filter_survives_enumerate _ fill publications 0).
    now rewrite length_map.
  - rewrite HN. subst survivors. unfold enumerate.
    apply (positions_increase _ fill publications 0).
Qed.

(** ** The storage gateway: paginated read *)

Lemma ceiling_div_bounds (a b : Z) :
  (0 < b)%Z ->
  ((ceiling_div a b - 1) * b < a <= ceiling_div a b * b)%Z.
Proof.
  intros Hb. unfold ceiling_div.
  pose proof (Z.div_mod (- a) b ltac:(lia)) as Hdm.
  pose proof (Z.mod_pos_bound (- a) b Hb) as Hm. nia.
Qed.

Lemma ceiling_unique (a b k : Z) :
  (0 < b)%Z -> ((k - 1) * b < a <= k * b)%Z -> k = ceiling_div a b.
Proof.
  intros Hb Hk. pose proof (ceiling_div_bounds a b Hb) as Hc. nia.
Qed.

Lemma page_count_is_ceiling (total per_page : Z) :
  (1 <= per_page)%Z ->
  ((total + per_page - 1) / per_page = ceiling_div total per_page)%Z.
Proof.
  intros Hp. apply ceiling_unique; [lia|].
  pose proof (Z.div_mod (total + per_page - 1) per_page ltac:(lia)) as Hdm.
  pose proof (Z.mod_pos_bound (total + per_page - 1) per_page ltac:(lia)) as Hm.
  nia.
Qed.

(** C3. Pagination of [get_publications]: for a page number and a page
    size of at least 1, the call returns whenever its three statements are
    answered and the year filter is readable, and whatever it returns has
    [total] equal to the number of rows matching the filter, [total_pages]
    equal to the ceiling of [total / per_page], and [has_next] true exactly
    when [page * per_page < total]. *)
Theorem pagination_math
        (faults : nat -> bool) (int_of_str : string -> outcome Z)
        (page per_page : Z) (year_filter : option string)
        (w : Database.world) :
  (1 <= page)%Z -> (1 <= per_page)%Z ->
  let call :=
    Database.get_publications faults int_of_str page per_page year_filter w in
  (answers faults (Database.statements w) 3 ->
   is_returned (Database.build_where int_of_str year_filter) = true ->
   is_returned (fst call) = true)
  /\ (forall result,
        fst call = Returned result ->
        exists clause,
          Database.build_where int_of_str year_filter = Returned clause
          /\ let matching :=
               filter (Database.satisfies clause)
                      (Database.publications (Database.committed w)) in
             let p := Database.page_pagination result in
             Database.total p = Z.of_nat (List.length matching)
             /\ Database.total_pages p
                = ceiling_div (Database.total p) per_page
             /\ ((Database.total_pages p - 1) * per_page < Database.total p
                 <= Database.total_pages p * per_page)%Z
             /\ (Database.has_next p = true
                 <-> (page * per_page < Database.total p)%Z)).
Proof.
  intros Hpage Hper call.
  assert (Hlim : ((per_page <? 0) || ((page - 1) * per_page <? 0))%Z = false).
  { apply orb_false_iff. split; apply Z.ltb_ge; nia. }
  assert (Hnz : (per_page =? 0)%Z = false) by (apply Z.eqb_neq; lia).
  subst call.
  unfold Database.get_publications, Database.and_then, Database.get_connection,
    Database.execute, Database.lift, Database.count_query,
    Database.select_query, Database.query, Database.ret,
    Database.limit_offset, Database.floordiv.
  simpl. rewrite Hlim, Hnz. split.
  - intros Hans Hwhere.
    pose proof (Hans 0 ltac:(lia)) as H0.
    pose proof (Hans 1 ltac:(lia)) as H1.
    pose proof (Hans 2 ltac:(lia)) as H2.
    rewrite Nat.add_0_r in H0.
    replace (Database.statements w + 1) with (S (Database.statements w)) in H1
      by lia.
    replace (Database.statements w + 2) with (S (S (Database.statements w)))
      in H2 by lia.
    rewrite H0.
    destruct (Database.build_where int_of_str year_filter); [|discriminate].
    simpl. rewrite H1. simpl. rewrite H2. reflexivity.
  - intros result.
    destruct (faults (Database.statements w)); [discriminate|].
    destruct (Database.build_where int_of_str year_filter) as [clause|];
      [|discriminate].
    simpl. destruct (faults (S (Database.statements w))); [discriminate|].
    simpl. destruct (faults (S (S (Database.statements w)))); [discriminate|].
    simpl. intros H. injection H as <-. exists clause. split; [reflexivity|].
    simpl. split; [reflexivity|].
    rewrite page_count_is_ceiling by assumption.
    split; [reflexivity|]. split.
    + apply ceiling_div_bounds. lia.
    + rewrite Z.ltb_lt. split; intros; lia.
Qed.

(** ** The orchestrator and the admin endpoint *)

(** C9. Failure propagation: when the fetcher returns the sentinel [None],
    [sync_all_publications] reports failure and the admin endpoint answers
    500, and the server state is exactly what it was: no statement was
    sent, so neither the bulk replace nor the profile upsert ran. *)
Theorem fetch_failure_stops_sync
        (source_pub : Type)
        (scholarly : nat -> ScholarFetcher.client source_pub)
        (faults : nat -> bool) (pool_ok db_ready : bool)
        (w : Database.world) :
  fst (ScholarFetcher.fetch_scholar_data scholarly BulkSync.scholar_id) = None ->
  BulkSync.sync_all_publications pool_ok scholarly faults w = (false, w)
  /\ App.status (fst (App.sync_scholar_data db_ready scholarly faults w)) = 500
  /\ snd (App.sync_scholar_data db_ready scholarly faults w) = w.
Proof.
  intros Hnone.
  unfold BulkSync.sync_all_publications, App.sync_scholar_data.
  rewrite Hnone. destruct pool_ok, db_ready; repeat split; reflexivity.
Qed.

(** ** The profile read *)

Section ProfileFacts.
Import Database.
Variable faults : nat -> bool.

Lemma get_profile_run (w : world) :
  answers faults (statements w) 2 ->
  get_profile faults w
  = (Returned
       match latest_profile (scholar_profile (committed w)) with
       | Some row => dict_of_profile row
       | None => default_profile
       end,
     tick (tick (with_working (committed w) w))).
Proof.
  intros Hans.
  pose proof (Hans 0 ltac:(lia)) as H0. pose proof (Hans 1 ltac:(lia)) as H1.
  rewrite Nat.add_0_r in H0.
  replace (statements w + 1) with (S (statements w)) in H1 by lia.
  unfold get_profile, and_then, get_connection, execute, query, ret.
  rewrite H0. simpl. rewrite H1. simpl.
  destruct (latest_profile (scholar_profile (committed w))); reflexivity.
Qed.

Variable int_of_str : string -> outcome Z.

Lemma get_publications_run (page per_page : Z) (year_filter : option string)
      (w : world) :
  (1 <= page)%Z -> (1 <= per_page)%Z ->
  answers faults (statements w) 3 ->
  is_returned (build_where int_of_str year_filter) = true ->
  exists result,
    get_publications faults int_of_str page per_page year_filter w
    = (Returned result, tick (tick (tick (with_working (committed w) w)))).
Proof.
  intros Hpage Hper Hans Hwhere.
  assert (Hlim : ((per_page <? 0) || ((page - 1) * per_page <? 0))%Z = false).
  { apply orb_false_iff. split; apply Z.ltb_ge; nia. }
  assert (Hnz : (per_page =? 0)%Z = false) by (apply Z.eqb_neq; lia).
  pose proof (Hans 0 ltac:(lia)) as H0. pose proof (Hans 1 ltac:(lia)) as H1.
  pose proof (Hans 2 ltac:(lia)) as H2.
  rewrite Nat.add_0_r in H0.
  replace (statements w + 1) with (S (statements w)) in H1 by lia.
  replace (statements w + 2) with (S (S (statements w))) in H2 by lia.
  unfold get_publications, and_then, get_connection, execute, lift,
    count_query, select_query, query, ret, limit_offset, floordiv.
  simpl. rewrite Hlim, Hnz, H0.
  destruct (build_where int_of_str year_filter); [|discriminate].
  simpl. rewrite H1. simpl. rewrite H2. simpl. eexists. reflexivity.
Qed.
End ProfileFacts.

(** C10. The profile read without a profile row: when the
    [scholar_profile] table is empty and the two statements of
    [get_profile] are answered, the call returns the hard-coded default
    profile (fixed name, affiliation and scholar URL, all four counters
    zero) instead of raising or returning nothing; and a request to the
    publications endpoint for page 1, with a page size of at least 1 and a
    readable year filter, is answered 200 with that profile in its body. *)
Theorem default_profile_when_none
        (faults : nat -> bool) (int_of_str : string -> outcome Z)
        (w : Database.world) :
  Database.scholar_profile (Database.committed w) = [] ->
  (answers faults (Database.statements w) 2 ->
   fst (Database.get_profile faults w) = Returned Database.default_profile)
  /\ (Database.pd_name Database.default_profile = "Dr. Abhishek Dixit"%string
      /\ Database.pd_affiliation Database.default_profile
         = "Indian Institute of Technology Delhi"%string
      /\ Database.pd_scholar_url Database.default_profile
         = "https://scholar.google.co.in/citations?user=CjJ84BwAAAAJ&hl=en"%string
      /\ Database.pd_total_citations Database.default_profile = 0%Z
      /\ Database.pd_h_index Database.default_profile = 0%Z
      /\ Database.pd_i10_index Database.default_profile = 0%Z
      /\ Database.pd_total_publications Database.default_profile = 0%Z)
  /\ (forall (args : App.request_args) (per_page : Z),
        App.int_arg int_of_str (App.arg_page args) 1 = Returned 1%Z ->
        App.int_arg int_of_str (App.arg_per_page args) 5 = Returned per_page ->
        (1 <= per_page)%Z ->
        is_returned
          (Database.build_where int_of_str
             (Some (get (App.arg_year args) "all"%string))) = true ->
        answers faults (Database.statements w) 5 ->
        exists publications pagination,
          fst (App.get_publications true faults int_of_str args w)
          = {| App.status := 200;
               App.body :=
                 App.Publications (Some Database.default_profile)
                   publications pagination |}).
Proof.
  intros Hempty. split; [|split].
  - intros Hans. rewrite get_profile_run by assumption.
    rewrite Hempty. reflexivity.
  - repeat split; reflexivity.
  - intros args per_page Hp Hpp Hper Hwhere Hans.
    unfold App.get_publications, App.get_publications_body.
    unfold Database.and_then at 1. unfold Database.lift at 1. rewrite Hp.
    unfold Database.and_then at 1. unfold Database.lift at 1. rewrite Hpp.
    unfold Database.and_then at 1.
    destruct (@get_publications_run faults int_of_str 1%Z per_page
                (Some (get (App.arg_year args) "all"%string)) w)
      as [result Hrun]; try assumption; try lia.
    { intros k Hk. apply Hans. lia. }
    rewrite Hrun.
    unfold Database.and_then at 1.
    rewrite get_profile_run.
    + simpl. rewrite Hempty. simpl. eexists _, _. reflexivity.
    + simpl. intros k Hk.
      replace (S (S (S (Database.statements w))) + k)
        with (Database.statements w + (3 + k)) by lia.
      apply Hans. lia.
Qed.

(** ** The storage gateway: bulk replace *)

Section BatchFacts.
Variable A : Type.

Lemma chunks_concat (size : nat) :
  0 < size ->
  forall (count : nat) (l : list A),
    List.length l <= count * size ->
    List.concat (map (fun k => firstn size (skipn (k * size) l)) (seq 0 count)) = l.
Proof.
  intros Hsize count. induction count as [|count IH]; intros l Hlen.
  - simpl in *. destruct l; [reflexivity | simpl in Hlen; lia].
  - assert (Hrest : List.length (skipn size l) <= count * size).
    { rewrite length_skipn. simpl in Hlen. lia. }
    pose proof (IH (skipn size l) Hrest) as E.
    change (seq 0 (S count)) with (0 :: seq 1 count).
    rewrite <- seq_shift, map_cons, concat_cons, map_map. simpl.
    transitivity (firstn size l ++ skipn size l); [|apply firstn_skipn].
    f_equal. etransitivity; [|exact E].
    f_equal. apply map_ext. intros k. rewrite skipn_skipn.
    now replace (k * size + size) with (size + k * size) by lia.
Qed.

Lemma range_step_covers (n size : nat) :
  0 < size -> n <= ((n + size - 1) / size) * size.
Proof.
  intros Hsize.
  pose proof (Nat.div_mod_eq (n + size - 1) size) as Hdm.
  pose proof (Nat.mod_upper_bound (n + size - 1) size ltac:(lia)) as Hm.
  nia.
Qed.

Lemma range_step_tight (n size : nat) :
  0 < size -> forall k, k < (n + size - 1) / size -> k * size < n.
Proof.
  intros Hsize k Hk.
  pose proof (Nat.div_mod_eq (n + size - 1) size) as Hdm.
  pose proof (Nat.mod_upper_bound (n + size - 1) size ltac:(lia)) as Hm.
  nia.
Qed.

Lemma batches_concat (size : nat) (values : list A) :
  0 < size -> List.concat (Database.batches size values) = values.
Proof.
  intros Hsize. unfold Database.batches, Database.range_step.
  rewrite map_map. apply chunks_concat; [assumption|].
  now apply range_step_covers.
Qed.

(** Every batch holds between 1 and [size] items, and every batch but
    the last holds exactly [size]. *)
Lemma batches_sizes (size : nat) (values : list A) :
  0 < size ->
  forall i batch,
    nth_error (Database.batches size values) i = Some batch ->
    1 <= List.length batch <= size
    /\ (S i < List.length (Database.batches size values) ->
        List.length batch = size).
Proof.
  intros Hsize i batch. unfold Database.batches, Database.range_step.
  rewrite map_map, length_map, length_seq, nth_error_map.
  destruct (nth_error (seq 0 ((List.length values + size - 1) / size)) i)
    as [k|] eqn:Hk; [|discriminate].
  simpl. intros H. injection H as <-.
  assert (Hi : i < (List.length values + size - 1) / size).
  { pose proof (proj1 (nth_error_Some
                         (seq 0 ((List.length values + size - 1) / size)) i))
      as Hsome.
    rewrite length_seq in Hsome. apply Hsome. congruence. }
  rewrite nth_error_seq in Hk.
  destruct (Nat.ltb_spec i ((List.length values + size - 1) / size));
    [|lia].
  injection Hk as <-. simpl.
  pose proof (range_step_tight (List.length values) size Hsize i Hi) as Hlt.
  rewrite length_firstn, length_skipn. split; [lia|].
  intros Hnext.
  pose proof (range_step_tight (List.length values) size Hsize (S i) Hnext) as Hlt'.
  simpl in Hlt'. lia.
Qed.
End BatchFacts.

Section BulkFacts.
Import Database.
Variable faults : nat -> bool.

Lemma fold_insert_tick (l : list pub) (w : world) :
  fold_left insert_row l (tick w) = tick (fold_left insert_row l w).
Proof.
  revert w. induction l as [|v l IH]; intros w; simpl; [reflexivity|].
  rewrite <- IH. reflexivity.
Qed.

Lemma fold_insert_row (l : list pub) (w : world) :
  fold_left insert_row l w
  = {| committed := committed w;
       working :=
         with_publications
           (publications (working w) ++ rows_from (publications_seq w) l)
           (working w);
       publications_seq := publications_seq w + Z.of_nat (List.length l);
       profile_seq := profile_seq w;
       statements := statements w |}.
Proof.
  revert w. induction l as [|v l IH]; intros w.
  - simpl. rewrite app_nil_r, Z.add_0_r. destruct w as [c [p s] ps fs n].
    reflexivity.
  - cbn [fold_left]. rewrite IH. unfold insert_row, with_publications.
    cbn [committed working publications_seq profile_seq statements
         publications scholar_profile rows_from List.length].
    rewrite <- app_assoc. cbn [app]. f_equal. lia.
Qed.

Lemma iter_tick (k : nat) (w : world) :
  Nat.iter k tick w
  = {| committed := committed w; working := working w;
       publications_seq := publications_seq w;
       profile_seq := profile_seq w;
       statements := statements w + k |}.
Proof.
  induction k as [|k IH].
  - simpl. rewrite Nat.add_0_r. destruct w; reflexivity.
  - rewrite Nat.iter_succ, IH. unfold tick. simpl. f_equal. lia.
Qed.

(** The insert loop: it raises at the first statement the fault plan
    refuses, and the committed tables are as before; otherwise all the
    batches are inserted in order. *)
Lemma for_each_batches_run (bs : list (list pub)) (w : world) :
  if existsb faults (seq (statements w) (List.length bs))
  then exists w',
      for_each (execute_values faults) bs w = (Raised DatabaseError, w')
      /\ committed w' = committed w
  else for_each (execute_values faults) bs w
       = (Returned tt,
          Nat.iter (List.length bs) tick
                   (fold_left insert_row (List.concat bs) w)).
Proof.
  revert w. induction bs as [|b bs IH]; intros w; [reflexivity|].
  cbn [List.length seq existsb for_each List.concat].
  assert (Hexec : execute_values faults b w
                  = if faults (statements w)
                    then (Raised DatabaseError, tick w)
                    else (Returned tt, tick (fold_left insert_row b w)))
    by reflexivity.
  unfold and_then. rewrite Hexec.
  destruct (faults (statements w)) eqn:Hf; cbn [orb].
  - exists (tick w). split; reflexivity.
  - specialize (IH (tick (fold_left insert_row b w))).
    assert (Hst : statements (tick (fold_left insert_row b w))
                  = S (statements w)).
    { rewrite fold_insert_row. reflexivity. }
    rewrite Hst in IH.
    destruct (existsb faults (seq (S (statements w)) (List.length bs))).
    + destruct IH as [w' [Hrun Hc]]. exists w'. split; [exact Hrun|].
      rewrite Hc, fold_insert_row. reflexivity.
    + rewrite IH. f_equal. rewrite fold_left_app, fold_insert_tick.
      rewrite Nat.iter_succ_r. reflexivity.
Qed.
End BulkFacts.

(** What a bulk replace does, by the fault plan over its statements. *)
Lemma bulk_insert_run
      (faults : nat -> bool) (publications : list Database.pub)
      (w : Database.world) :
  let values := map Database.values_of publications in
  let bs := Database.batches Database.batch_size values in
  let run := Database.bulk_insert_publications faults publications w in
  if existsb faults (seq (Database.statements w) (List.length bs + 3))
  then fst run = false
       /\ Database.committed (snd run) = Database.committed w
  else fst run = true
       /\ Database.publications (Database.committed (snd run))
          = rows_from (Database.publications_seq w) values
       /\ Database.scholar_profile (Database.committed (snd run))
          = Database.scholar_profile (Database.committed w)
       /\ Database.working (snd run) = Database.committed (snd run).
Proof.
  intros values bs run.
  subst run. unfold Database.bulk_insert_publications.
  set (n := Database.statements w).
  replace (List.length bs + 3) with (2 + (List.length bs + 1)) by lia.
  rewrite (seq_app 2), (seq_app (List.length bs) 1), !existsb_app.
  replace (n + 2) with (S (S n)) by lia.
  change (seq n 2) with [n; S n].
  change (seq (S (S n) + List.length bs) 1) with [S (S n) + List.length bs].
  cbn [existsb].
  assert (Hconn : Database.get_connection faults w
                  = if faults n
                    then (Raised DatabaseError, Database.tick w)
                    else (Returned tt,
                          Database.tick
                            (Database.with_working (Database.committed w) w)))
    by reflexivity.
  rewrite Hconn. destruct (faults n); cbn [orb]; [split; reflexivity|].
  set (w1 := Database.tick (Database.with_working (Database.committed w) w)).
  unfold Database.bulk_insert_body, Database.and_then.
  assert (Hdel : Database.delete_publications faults w1
                 = if faults (S n)
                   then (Raised DatabaseError, Database.tick w1)
                   else (Returned tt,
                         Database.tick
                           (Database.with_working
                              (Database.with_publications []
                                 (Database.working w1)) w1)))
    by reflexivity.
  rewrite Hdel. destruct (faults (S n)); cbn [orb]; [split; reflexivity|].
  set (w2 := Database.tick
               (Database.with_working
                  (Database.with_publications [] (Database.working w1)) w1)).
  fold values. fold bs.
  pose proof (for_each_batches_run faults bs w2) as Hloop.
  change (Database.statements w2) with (S (S n)) in Hloop.
  destruct (existsb faults (seq (S (S n)) (List.length bs))); cbn [orb].
  - destruct Hloop as [w' [Hrun Hc]]. rewrite Hrun. cbn [fst snd].
    split; [reflexivity|]. unfold Database.rollback. simpl. exact Hc.
  - rewrite Hloop.
    set (w3 := Nat.iter (List.length bs) Database.tick
                 (fold_left Database.insert_row (List.concat bs) w2)).
    assert (Hw3 : w3 = Nat.iter (List.length bs) Database.tick
                 (fold_left Database.insert_row (List.concat bs) w2))
      by reflexivity.
    assert (Hcat : List.concat bs = values)
      by (apply batches_concat; unfold Database.batch_size; lia).
    rewrite iter_tick, fold_insert_row, Hcat in Hw3.
    clearbody bs values.
    assert (Hcommit : Database.commit faults w3
                      = if faults (S (S n) + List.length bs)
                        then (Raised DatabaseError, Database.tick w3)
                        else (Returned tt,
                              Database.tick
                                (Database.with_committed
                                   (Database.working w3) w3))).
    { unfold Database.commit, Database.execute. rewrite Hw3. reflexivity. }
    rewrite Hcommit.
    destruct (faults (S (S n) + List.length bs)); cbn [orb fst snd].
    + split; [reflexivity|]. rewrite Hw3. reflexivity.
    + split; [reflexivity|]. rewrite Hw3. cbn.
      repeat split; reflexivity.
Qed.


(** ** Year labels *)

Lemma all_digits_of_uint (d : Decimal.uint) :
  all_digits (NilEmpty.string_of_uint d) = true.
Proof. induction d; simpl; try rewrite IHd; reflexivity. Qed.

(** [str(z).isdigit()] holds exactly for the non-negative integers. *)
Lemma isdigit_str_of_int (z : Z) : isdigit (str_of_int z) = (0 <=? z)%Z.
Proof.
  destruct z as [|p|p]; [reflexivity| |reflexivity].
  unfold str_of_int. simpl.
  pose proof (all_digits_of_uint (Pos.to_uint p)) as Hd.
  destruct (Pos.to_uint p); simpl in *; try reflexivity; exact Hd.
Qed.

Lemma int_digits_snoc (s : string) (c : ascii) (acc : Z) :
  int_digits acc (s ++ String c EmptyString)
  = (10 * int_digits acc s + digit_value c)%Z.
Proof.
  revert acc. induction s as [|a s IH]; intros acc; simpl; [reflexivity|].
  apply IH.
Qed.

Lemma int_digits_lower_bound (s : string) (acc : Z) :
  (0 <= acc)%Z -> (0 <= int_digits acc s)%Z.
Proof.
  revert acc. induction s as [|a s IH]; intros acc Hacc; cbn [int_digits];
    [exact Hacc|].
  apply IH. unfold digit_value. lia.
Qed.

Lemma year_value_positive (y : option Z) :
  Database.year_value y
  = match y with
    | Some z => if (0 <? z)%Z then Some z else None
    | None => None
    end.
Proof.
  destruct y as [z|]; [|reflexivity].
  unfold Database.year_value. rewrite isdigit_str_of_int.
  destruct (Z.eqb_spec z 0), (Z.leb_spec 0 z), (Z.ltb_spec 0 z);
    simpl; try reflexivity; lia.
Qed.

(** Raw year "0" is numeric, yet the table gets an unset year for it. *)
Lemma year_zero_is_stored_unset :
  isdigit "0" = true
  /\ int_of_digits "0" = 0%Z
  /\ stored_year "0" = None
  /\ ~ (forall label : string,
          isdigit label = true ->
          stored_year label = Some (int_of_digits label)).
Proof.
  repeat split; try reflexivity.
  intros H. specialize (H "0"%string eq_refl). discriminate H.
Qed.

(** C6. Year normalization, as the code does it. The orchestrator maps a
    label made of digits to its decimal value and any other label to the
    unset year, so that ["2021"] gives 2021, ["n/a"] gives unset, and a
    numeric zero is distinct from unset at that stage. The value
    preparation of the bulk replace then keeps a positive year and turns
    a zero year into unset: the table receives the decimal value of a
    digit label when it is positive, and an unset year for every other
    label. *)
Theorem year_normalization (label : string) :
  BulkSync.year_of_label label
  = (if isdigit label then Some (int_of_digits label) else None)
  /\ stored_year label
     = (if isdigit label && (0 <? int_of_digits label)%Z
        then Some (int_of_digits label) else None)
  /\ (0 <= int_of_digits label)%Z
  /\ (forall c : ascii,
        int_of_digits (label ++ String c EmptyString)
        = (10 * int_of_digits label + digit_value c)%Z)
  /\ (BulkSync.year_of_label "2021" = Some 2021%Z
      /\ stored_year "2021" = Some 2021%Z
      /\ BulkSync.year_of_label "n/a" = None
      /\ stored_year "n/a" = None
      /\ BulkSync.year_of_label "0" = Some 0%Z
      /\ BulkSync.year_of_label "0" <> None).
Proof.
  split; [reflexivity|]. split; [|split; [|split]].
  - unfold stored_year. rewrite year_value_positive.
    unfold BulkSync.year_of_label. destruct (isdigit label); reflexivity.
  - apply int_digits_lower_bound. lia.
  - intros c. apply int_digits_snoc.
  - repeat split; try reflexivity. discriminate.
Qed.

(** ** Which years reach the table *)

Lemma rows_from_years (values : list Database.pub) (s : Z) :
  map Database.year (rows_from s values) = map Database.in_year values.
Proof.
  revert s. induction values as [|v values IH]; intros s; simpl;
    [reflexivity|].
  now rewrite IH.
Qed.

Lemma update_profile_keeps_publications
      (faults : nat -> bool) (d : Database.profile_data) (w : Database.world) :
  Database.publications
    (Database.committed (snd (Database.update_profile faults d w)))
  = Database.publications (Database.committed w).
Proof.
  gateway_steps. do 2 next_statement faults.
  destruct (Database.scholar_profile (Database.committed w)) as [|row rows];
    simpl; do 2 next_statement faults; reflexivity.
Qed.

Lemma fix_unknown_years_reads_only
      (pool_ok : bool) (faults : nat -> bool) (w : Database.world) :
  Database.committed (snd (FixUnknown.fix_unknown_years pool_ok faults w))
  = Database.committed w.
Proof.
  gateway_steps. destruct pool_ok; [|reflexivity].
  do 4 next_statement faults. reflexivity.
Qed.

(** A one-digit year label goes all the way into the table: the run
    stores year 7, which is no 4-digit year. *)
Lemma one_digit_year_is_stored :
  let publications := BulkSync.flatten [("7"%string, [Examples.paper "7" 1])] in
  let run :=
    Database.bulk_insert_publications Examples.no_faults publications
      Examples.empty_world in
  fst run = true
  /\ map Database.year (Database.publications (Database.committed (snd run)))
     = [Some 7%Z]
  /\ ~ plausible_year 7
  /\ ~ (forall faults pubs w,
          Forall (fun r => match Database.year r with
                           | Some y => plausible_year y
                           | None => True
                           end)
                 (Database.publications
                    (Database.committed
                       (snd (Database.bulk_insert_publications faults pubs w))))).
Proof.
  assert (Hrun :
    map Database.year
      (Database.publications
         (Database.committed
            (snd (Database.bulk_insert_publications Examples.no_faults
                    (BulkSync.flatten [("7"%string, [Examples.paper "7" 1])])
                    Examples.empty_world))))
    = [Some 7%Z]) by reflexivity.
  split; [reflexivity|]. split; [exact Hrun|]. split.
  - unfold plausible_year. lia.
  - intros H.
    specialize (H Examples.no_faults
                  (BulkSync.flatten [("7"%string, [Examples.paper "7" 1])])
                  Examples.empty_world).
    remember (Database.publications _) as rows eqn:Hrows.
    destruct rows as [|r rows]; [discriminate Hrun|].
    injection Hrun as Hy _. inversion H as [|? ? Hr _]; subst.
    rewrite Hy in Hr. unfold plausible_year in Hr. lia.
Qed.

(** C7. The years that reach the table, as the code has it. A bulk
    replace that commits stores, for every item, the item's year when it
    is a positive integer and an unset year otherwise; no range is
    checked, so every committed year is unset or positive. A bulk replace
    that fails, the profile upsert and the year analysis script leave the
    stored publications as they were. *)
Theorem stored_years_unset_or_positive
        (faults : nat -> bool) (publications : list Database.pub)
        (w : Database.world) :
  let run := Database.bulk_insert_publications faults publications w in
  (if fst run
   then map Database.year (Database.publications (Database.committed (snd run)))
        = map (fun p => match Database.in_year p with
                        | Some y => if (0 <? y)%Z then Some y else None
                        | None => None
                        end) publications
        /\ Forall (fun r => match Database.year r with
                            | Some y => (0 < y)%Z
                            | None => True
                            end)
                  (Database.publications (Database.committed (snd run)))
   else Database.committed (snd run) = Database.committed w)
  /\ (forall d,
        Database.publications
          (Database.committed (snd (Database.update_profile faults d w)))
        = Database.publications (Database.committed w))
  /\ (forall pool_ok,
        Database.committed (snd (FixUnknown.fix_unknown_years pool_ok faults w))
        = Database.committed w).
Proof.
  intros run. split; [|split].
  - pose proof (bulk_insert_run faults publications w) as Hrun.
    cbv zeta in Hrun. fold run in Hrun.
    destruct (existsb faults _).
    + destruct Hrun as [Hres Hc]. rewrite Hres. exact Hc.
    + destruct Hrun as [Hres [Hrows _]]. rewrite Hres, Hrows.
      rewrite rows_from_years, map_map.
      assert (Hy : forall p,
                 Database.in_year (Database.values_of p)
                 = match Database.in_year p with
                   | Some y => if (0 <? y)%Z then Some y else None
                   | None => None
                   end).
      { intros p. simpl. apply year_value_positive. }
      split; [apply map_ext; exact Hy|].
      clear. generalize (Database.publications_seq w).
      induction publications as [|p l IH]; intros s; simpl; constructor.
      * simpl. rewrite year_value_positive.
        destruct (Database.in_year p) as [y|]; [|exact I].
        destruct (Z.ltb_spec 0 y); [assumption|exact I].
      * apply IH.
  - intros d. apply update_profile_keeps_publications.
  - intros pool_ok. apply fix_unknown_years_reads_only.
Qed.

(** ** Sorting *)

Section SortFacts.
Variable A : Type.
Variable before : A -> A -> bool.

Local Abbreviation R := (fun x y : A => before x y = true).

Lemma insert_by_perm (x : A) (l : list A) :
  Permutation (insert_by before x l) (x :: l).
Proof.
  induction l as [|y l IH]; simpl; [apply Permutation_refl|].
  destruct (before x y); [apply Permutation_refl|].
  eapply perm_trans; [apply perm_skip, IH | apply perm_swap].
Qed.

Lemma sort_by_perm (l : list A) : Permutation (sort_by before l) l.
Proof.
  induction l as [|x l IH]; simpl; [constructor|].
  eapply perm_trans; [apply insert_by_perm | apply perm_skip, IH].
Qed.

Hypothesis before_total : forall x y, before x y = false -> before y x = true.
Hypothesis before_trans :
  forall x y z, before x y = true -> before y z = true -> before x z = true.

Lemma insert_by_sorted (x : A) (l : list A) :
  StronglySorted R l -> StronglySorted R (insert_by before x l).
Proof.
  induction l as [|y l IH]; intros Hs; simpl.
  - constructor; constructor.
  - inversion Hs as [|? ? Hl Hy]; subst.
    destruct (before x y) eqn:Hxy.
    + constructor; [exact Hs|]. constructor; [exact Hxy|].
      eapply Forall_impl; [|exact Hy]. intros z Hz.
      eapply before_trans; eassumption.
    + constructor; [apply IH, Hl|].
      eapply Permutation_Forall;
        [apply Permutation_sym, insert_by_perm|].
      constructor; [apply before_total, Hxy | exact Hy].
Qed.

Lemma sort_by_sorted (l : list A) : StronglySorted R (sort_by before l).
Proof.
  induction l as [|x l IH]; simpl; [constructor|].
  apply insert_by_sorted, IH.
Qed.
End SortFacts.

Section SortedFacts.
Variable A : Type.
Variable R : A -> A -> Prop.

Lemma sorted_app_r (l1 l2 : list A) :
  StronglySorted R (l1 ++ l2) -> StronglySorted R l2.
Proof.
  induction l1 as [|x l1 IH]; simpl; intros H; [exact H|].
  inversion H; subst. now apply IH.
Qed.

Lemma sorted_precedes (l : list A) (a b : A) :
  StronglySorted R l -> precedes a b l -> R a b.
Proof.
  intros Hs [l1 l2 l3 ->].
  apply sorted_app_r in Hs. inversion Hs as [|? ? _ Hall]; subst.
  rewrite Forall_forall in Hall. apply Hall.
  apply in_or_app. right. left. reflexivity.
Qed.

Lemma sorted_skipn (n : nat) (l : list A) :
  StronglySorted R l -> StronglySorted R (skipn n l).
Proof.
  intros H. rewrite <- (firstn_skipn n l) in H.
  eapply sorted_app_r; exact H.
Qed.

Lemma sorted_firstn (n : nat) (l : list A) :
  StronglySorted R l -> StronglySorted R (firstn n l).
Proof.
  revert n. induction l as [|x l IH]; intros n Hs.
  - rewrite firstn_nil. constructor.
  - destruct n as [|n]; [constructor|]. simpl.
    inversion Hs as [|? ? Hl Hx]; subst. constructor; [apply IH, Hl|].
    rewrite Forall_forall in *. intros y Hy. apply Hx.
    rewrite <- (firstn_skipn n l). apply in_or_app. now left.
Qed.
End SortedFacts.

(** ** Orderings of the fetcher and of the gateway *)

Lemma order_before_iff (a b : Database.pub_row) :
  Database.order_before a b = true <-> storage_order a b.
Proof.
  unfold Database.order_before, storage_order.
  destruct (Database.year a) as [ya|], (Database.year b) as [yb|].
  - rewrite orb_true_iff, andb_true_iff, Z.ltb_lt, Z.eqb_eq, Z.leb_le.
    reflexivity.
  - split; [intros _; exact I | reflexivity].
  - split; [discriminate | intros []].
  - apply Z.leb_le.
Qed.

Lemma order_before_total (a b : Database.pub_row) :
  Database.order_before a b = false -> Database.order_before b a = true.
Proof.
  intros H. apply order_before_iff.
  assert (Hn : ~ storage_order a b).
  { intros Hs. apply order_before_iff in Hs. congruence. }
  unfold storage_order in *.
  destruct (Database.year a), (Database.year b); try exact I; lia.
Qed.

Lemma order_before_trans (a b c : Database.pub_row) :
  Database.order_before a b = true -> Database.order_before b c = true ->
  Database.order_before a c = true.
Proof.
  rewrite !order_before_iff. unfold storage_order.
  destruct (Database.year a), (Database.year b), (Database.year c);
    try tauto; lia.
Qed.

Lemma sorted_impl (A : Type) (R R' : A -> A -> Prop) (l : list A) :
  (forall x y, R x y -> R' x y) -> StronglySorted R l -> StronglySorted R' l.
Proof.
  intros Himp Hs. induction Hs as [|x l _ IH Hx]; constructor; [exact IH|].
  eapply Forall_impl; [|exact Hx]. apply Himp.
Qed.

Lemma order_by_sorted (rows : list Database.pub_row) :
  StronglySorted storage_order (Database.order_by rows).
Proof.
  eapply sorted_impl; [intros x y; apply order_before_iff|].
  apply sort_by_sorted; [apply order_before_total | apply order_before_trans].
Qed.

Lemma sorted_publications_sorted (l : list ScholarFetcher.publication) :
  StronglySorted year_key_ge (ScholarFetcher.sorted_publications l).
Proof.
  eapply sorted_impl; [intros x y H; apply Z.leb_le; exact H|].
  apply sort_by_sorted.
  - intros x y H. apply Z.leb_le. apply Z.leb_gt in H. lia.
  - intros x y z Hxy Hyz. apply Z.leb_le. apply Z.leb_le in Hxy, Hyz. lia.
Qed.

(** A page of the read and of the search is a slice of the ordered
    selection. *)
Lemma limit_offset_sorted (limit offset : Z) (rows page : list Database.pub_row) :
  Database.limit_offset limit offset rows = Returned page ->
  StronglySorted storage_order rows -> StronglySorted storage_order page.
Proof.
  unfold Database.limit_offset.
  destruct ((limit <? 0)%Z || (offset <? 0)%Z); [discriminate|].
  intros H Hs. injection H as <-. now apply sorted_firstn, sorted_skipn.
Qed.

Lemma get_publications_page
      (faults : nat -> bool) (int_of_str : string -> outcome Z)
      (page per_page : Z) (year_filter : option string)
      (w : Database.world) (result : Database.page_result) :
  fst (Database.get_publications faults int_of_str page per_page year_filter w)
  = Returned result ->
  exists rows,
    Database.page_publications result = map Database.dict_of_row rows
    /\ StronglySorted storage_order rows.
Proof.
  gateway_steps. next_statement faults.
  destruct (Database.build_where int_of_str year_filter) as [clause|];
    [|discriminate].
  simpl. do 2 next_statement faults.
  destruct (Database.limit_offset per_page ((page - 1) * per_page) _)
    as [rows|] eqn:Hpage; [|discriminate].
  destruct (Database.floordiv _ _); [|discriminate].
  simpl. intros H. injection H as <-. exists rows. split; [reflexivity|].
  eapply limit_offset_sorted; [exact Hpage | apply order_by_sorted].
Qed.

Lemma search_publications_page
      (faults : nat -> bool) (ilike : string -> string -> bool)
      (text : string) (page per_page : Z)
      (w : Database.world) (result : Database.search_result) :
  fst (Database.search_publications faults ilike text page per_page w)
  = Returned result ->
  StronglySorted storage_order (Database.found_publications result).
Proof.
  gateway_steps. do 3 next_statement faults.
  destruct (Database.limit_offset per_page ((page - 1) * per_page) _)
    as [rows|] eqn:Hpage; [|discriminate].
  simpl. intros H. injection H as <-. simpl.
  eapply limit_offset_sorted; [exact Hpage | apply order_by_sorted].
Qed.

(** ** Grouping by year label keeps the order *)

Section GroupFacts.
Import ScholarFetcher.

Lemma sorted_app_iff (l1 l2 : list publication) :
  StronglySorted year_key_ge (l1 ++ l2)
  <-> StronglySorted year_key_ge l1 /\ StronglySorted year_key_ge l2
      /\ (forall a b, In a l1 -> In b l2 -> year_key_ge a b).
Proof.
  induction l1 as [|x l1 IH]; simpl.
  - split; [intros H; repeat split; [constructor | exact H | intros ? ? []]
           | intros [_ [H _]]; exact H].
  - split.
    + intros H. inversion H as [|? ? Hs Hx]; subst.
      apply IH in Hs. destruct Hs as [H1 [H2 H12]].
      rewrite Forall_app in Hx. destruct Hx as [Hx1 Hx2].
      repeat split; [constructor; assumption | assumption |].
      intros a b [<-|Ha] Hb.
      * rewrite Forall_forall in Hx2. now apply Hx2.
      * now apply H12.
    + intros [H1 [H2 H12]]. inversion H1 as [|? ? Hs Hx]; subst.
      constructor.
      * apply IH. repeat split; try assumption.
        intros a b Ha Hb. apply H12; [now right | assumption].
      * apply Forall_app. split; [assumption|].
        apply Forall_forall. intros b Hb. apply H12; [now left | assumption].
Qed.

Lemma same_label_same_key (p q : publication) :
  year p = year q -> year_key p = year_key q.
Proof. unfold year_key. now intros ->. Qed.

Lemma group_add_perm (p : publication) (d : list (string * list publication)) :
  Permutation (records_of (group_add (year p) p d)) (records_of d ++ [p]).
Proof.
  unfold records_of. induction d as [|[y pubs] d IH]; simpl.
  - apply Permutation_refl.
  - destruct (String.eqb y (year p)); simpl.
    + rewrite <- !app_assoc. apply Permutation_app_head.
      apply Permutation_app_comm.
    + rewrite <- app_assoc. apply Permutation_app_head, IH.
Qed.

Lemma group_add_well_grouped (p : publication)
      (d : list (string * list publication)) :
  well_grouped d -> well_grouped (group_add (year p) p d).
Proof.
  unfold well_grouped. induction d as [|[y pubs] d IH]; simpl; intros H.
  - constructor; [|constructor]. simpl. split; [discriminate|].
    constructor; [reflexivity|constructor].
  - inversion H as [|? ? [Hne Hy] Hd]; subst. simpl in *.
    destruct (String.eqb_spec y (year p)) as [->|Hneq].
    + constructor; [|exact Hd]. simpl. split.
      * destruct pubs; discriminate.
      * apply Forall_app. split; [exact Hy|].
        constructor; [reflexivity|constructor].
    + constructor; [split; assumption | apply IH, Hd].
Qed.

Lemma group_add_sorted (p : publication)
      (d : list (string * list publication)) :
  well_grouped d ->
  StronglySorted year_key_ge (records_of d) ->
  Forall (fun q => year_key_ge q p) (records_of d) ->
  StronglySorted year_key_ge (records_of (group_add (year p) p d)).
Proof.
  unfold well_grouped, records_of.
  induction d as [|[y pubs] d IH]; simpl; intros Hg Hs Hge.
  - constructor; constructor.
  - inversion Hg as [|? ? [Hne Hy] Hd]; subst. simpl in *.
    apply sorted_app_iff in Hs. destruct Hs as [Hs1 [Hs2 H12]].
    apply Forall_app in Hge. destruct Hge as [Hge1 Hge2].
    destruct (String.eqb_spec y (year p)) as [->|Hneq]; simpl.
    + apply sorted_app_iff. split; [|split; [exact Hs2|]].
      * apply sorted_app_iff. split; [exact Hs1|].
        split; [constructor; constructor|].
        intros a b Ha [<-|[]]. rewrite Forall_forall in Hge1.
        now apply Hge1.
      * intros a b Ha Hb. apply in_app_or in Ha.
        destruct Ha as [Ha|[<-|[]]]; [now apply H12|].
        destruct pubs as [|q pubs]; [congruence|].
        pose proof (H12 q b (or_introl eq_refl) Hb) as Hqb.
        inversion Hy as [|? ? Hq _]; subst.
        unfold year_key_ge in *.
        rewrite (@same_label_same_key q p Hq) in Hqb. exact Hqb.
    + apply sorted_app_iff. split; [exact Hs1|].
      split; [apply IH; assumption|].
      intros a b Ha Hb.
      apply (Permutation_in _ (group_add_perm p d)) in Hb.
      apply in_app_or in Hb. destruct Hb as [Hb|[<-|[]]].
      * now apply H12.
      * rewrite Forall_forall in Hge1. now apply Hge1.
Qed.

Lemma group_fold (l : list publication) :
  forall d,
    well_grouped d ->
    StronglySorted year_key_ge (records_of d ++ l) ->
    let d' := fold_left (fun d pub => group_add (year pub) pub d) l d in
    well_grouped d'
    /\ StronglySorted year_key_ge (records_of d')
    /\ Permutation (records_of d') (records_of d ++ l).
Proof.
  induction l as [|p l IH]; intros d Hg Hs; cbn [fold_left].
  - rewrite app_nil_r in *. repeat split; [assumption | assumption|].
    apply Permutation_refl.
  - assert (Hs' : StronglySorted year_key_ge ((records_of d ++ [p]) ++ l)).
    { rewrite <- app_assoc. exact Hs. }
    pose proof Hs' as Hsplit. apply sorted_app_iff in Hsplit.
    destruct Hsplit as [Hdp [Hl Hcross]].
    apply sorted_app_iff in Hdp. destruct Hdp as [Hd [_ Hdp]].
    assert (Hperm := group_add_perm p d).
    destruct (IH (group_add (year p) p d)) as [Hg' [Hs'' Hp']].
    + apply group_add_well_grouped, Hg.
    + apply sorted_app_iff. split; [|split; [exact Hl|]].
      * apply group_add_sorted; [assumption | assumption|].
        apply Forall_forall. intros q Hq. apply Hdp; [assumption|now left].
      * intros a b Ha Hb. apply Hcross; [|assumption].
        apply (Permutation_in _ Hperm), Ha.
    + repeat split; [assumption | assumption|].
      eapply perm_trans; [exact Hp'|].
      change (p :: l) with ([p] ++ l). rewrite app_assoc.
      apply Permutation_app_tail, Hperm.
Qed.

(** The groups of [_format_scholar_data], read back in dictionary
    order, are the sorted list up to the order of equal keys. *)
Lemma grouped_records_sorted (l : list publication) :
  let by_year := group_by_year (sorted_publications l) in
  well_grouped by_year
  /\ StronglySorted year_key_ge (records_of by_year)
  /\ Permutation (records_of by_year) l.
Proof.
  intros by_year.
  destruct (@group_fold (sorted_publications l) [])
    as [Hg [Hs Hp]].
  - constructor.
  - apply sorted_publications_sorted.
  - repeat split; [exact Hg | exact Hs|].
    eapply perm_trans; [exact Hp|]. apply sort_by_perm.
Qed.

Lemma flatten_well_grouped (d : list (string * list publication)) :
  well_grouped d ->
  BulkSync.flatten d
  = map (fun p => BulkSync.with_year p (BulkSync.year_of_label (year p)))
        (records_of d).
Proof.
  unfold well_grouped, records_of, BulkSync.flatten.
  induction d as [|[y pubs] d IH]; intros Hg; simpl; [reflexivity|].
  inversion Hg as [|? ? [_ Hy] Hd]; subst. simpl in *.
  rewrite map_app, IH by assumption. f_equal.
  apply map_ext_in. intros p Hp. rewrite Forall_forall in Hy.
  now rewrite (Hy p Hp).
Qed.
End GroupFacts.


Lemma unknown_before_numeric_is_zero (a b : ScholarFetcher.publication) :
  year_key_ge a b ->
  isdigit (ScholarFetcher.year a) = false ->
  isdigit (ScholarFetcher.year b) = true ->
  int_of_digits (ScholarFetcher.year b) = 0%Z.
Proof.
  unfold year_key_ge, ScholarFetcher.year_key. intros Hge Ha Hb.
  rewrite Ha, Hb in Hge.
  pose proof (@int_digits_lower_bound (ScholarFetcher.year b) 0%Z ltac:(lia)).
  unfold int_of_digits in *. lia.
Qed.


(** ** Highlighting of the owner's name *)

Section StringFacts.
Local Open Scope string_scope.

Lemma append_assoc (a b c : string) : (a ++ b) ++ c = a ++ b ++ c.
Proof. induction a as [|x a IH]; simpl; [reflexivity | now rewrite IH]. Qed.

Lemma length_append (a b : string) :
  String.length (a ++ b) = String.length a + String.length b.
Proof. induction a as [|x a IH]; simpl; [reflexivity | now rewrite IH]. Qed.

Lemma last_char_app (o : option ascii) (a b : string) :
  Re.last_char o (a ++ b) = Re.last_char (Re.last_char o a) b.
Proof.
  revert o. induction a as [|x a IH]; intros o; simpl; [reflexivity|].
  apply IH.
Qed.

Lemma last_char_nonempty (o1 o2 : option ascii) (s : string) :
  s <> "" -> Re.last_char o1 s = Re.last_char o2 s.
Proof. destruct s; [congruence | reflexivity]. Qed.
End StringFacts.

Section ScanFacts.
Local Open Scope string_scope.
Variable lit : string.

(** The scanner over one pattern, at a position where no match is under
    way. *)
Local Abbreviation scan prev s := (Re.sub_scan lit prev 0 s).

Lemma match_literal_split (l s m rest : string) :
  Re.match_literal l s = Some (m, rest) ->
  s = m ++ rest /\ String.length m = String.length l.
Proof.
  revert s m rest. induction l as [|p l IH]; intros s m rest; simpl.
  - intros H. injection H as <- <-. split; reflexivity.
  - destruct s as [|c s]; [discriminate|].
    destruct (Re.ci_eqb p c); [|discriminate].
    destruct (Re.match_literal l s) as [[m' rest']|] eqn:E; [|discriminate].
    intros H. injection H as <- <-.
    destruct (IH _ _ _ E) as [-> Hlen]. simpl. split; congruence.
Qed.

Lemma match_at_split (prev : option ascii) (s m rest : string) :
  Re.match_at lit prev s = Some (m, rest) ->
  s = m ++ rest /\ String.length m = String.length lit.
Proof.
  unfold Re.match_at. destruct (Re.boundary prev (Re.head s)); [|discriminate].
  destruct (Re.match_literal lit s) as [[m' rest']|] eqn:E; [|discriminate].
  destruct (Re.boundary _ _); [|discriminate].
  intros H. injection H as <- <-. eapply match_literal_split, E.
Qed.

Lemma sub_scan_skip (m rest : string) (prev : option ascii) :
  Re.sub_scan lit prev (String.length m) (m ++ rest)
  = scan (Re.last_char prev m) rest.
Proof.
  revert prev. induction m as [|c m IH]; intros prev; [reflexivity|].
  simpl. destruct m as [|c' m]; [destruct rest; reflexivity|].
  apply IH.
Qed.

Hypothesis lit_nonempty : lit <> "".

Lemma scan_match (prev : option ascii) (s m rest : string) :
  Re.match_at lit prev s = Some (m, rest) ->
  scan prev s = Re.emphasise m ++ scan (Re.last_char prev m) rest.
Proof.
  intros H. destruct (match_at_split _ _ _ _ H) as [-> Hlen].
  destruct m as [|c m].
  - destruct lit; [congruence | discriminate].
  - change (String c m ++ rest) with (String c (m ++ rest)) in *.
    cbn [Re.sub_scan]. rewrite H. f_equal.
    cbn [String.length Nat.sub]. rewrite Nat.sub_0_r.
    apply (sub_scan_skip m rest (Some c)).
Qed.

Lemma scan_copy (prev : option ascii) (c : ascii) (s : string) :
  Re.match_at lit prev (String c s) = None ->
  scan prev (String c s) = String c (scan (Some c) s).
Proof. intros H. cbn [Re.sub_scan]. now rewrite H. Qed.

(** Without a match anywhere, the text comes out as it went in. *)
Lemma scan_without_match (s : string) (prev : option ascii) :
  Re.search_from lit prev s = false -> scan prev s = s.
Proof.
  revert prev. induction s as [|c s IH]; intros prev; [reflexivity|].
  cbn [Re.search_from].
  destruct (Re.match_at lit prev (String c s)) eqn:E; [discriminate|].
  intros H. rewrite scan_copy by exact E. now rewrite IH.
Qed.
End ScanFacts.

Section ReachFacts.
Local Open Scope string_scope.
Variable lit : string.
Hypothesis lit_nonempty : lit <> "".

Local Abbreviation scan prev s := (Re.sub_scan lit prev 0 s).

(** The character at which the scanner is to arrive. *)
Variable c0 : ascii.
Hypothesis no_run_c0 : Occurrence.no_run lit c0 = true.

Lemma literal_stays_before (l pre m rest post : string) :
  Occurrence.without c0 l = true ->
  Re.match_literal l (pre ++ String c0 post) = Some (m, rest) ->
  exists pre2, pre = m ++ pre2 /\ rest = pre2 ++ String c0 post.
Proof.
  revert pre m rest. induction l as [|p l IH]; intros pre m rest Hw; simpl.
  - intros H. injection H as <- <-. exists pre. split; reflexivity.
  - simpl in Hw. apply andb_true_iff in Hw. destruct Hw as [Hp Hw].
    apply negb_true_iff in Hp.
    destruct pre as [|x pre]; simpl.
    + rewrite Hp. discriminate.
    + destruct (Re.ci_eqb p x); [|discriminate].
      destruct (Re.match_literal l (pre ++ String c0 post))
        as [[m' rest']|] eqn:E; [|discriminate].
      intros H. injection H as <- <-.
      destruct (IH _ _ _ Hw E) as [pre2 [-> ->]].
      exists pre2. split; reflexivity.
Qed.

Lemma match_stays_before (prev : option ascii) (x : ascii)
      (pre m rest post : string) :
  Re.match_at lit prev (String x pre ++ String c0 post) = Some (m, rest) ->
  exists pre2, String x pre = m ++ pre2 /\ rest = pre2 ++ String c0 post.
Proof.
  unfold Re.match_at. destruct (Re.boundary prev _); [|discriminate].
  destruct (Re.match_literal lit (String x pre ++ String c0 post))
    as [[m' rest']|] eqn:E; [|discriminate].
  destruct (Re.boundary _ _); [|discriminate].
  intros H. injection H as <- <-.
  destruct lit as [|p0 l]; [congruence|].
  simpl in E. destruct (Re.ci_eqb p0 x); [|discriminate].
  destruct (Re.match_literal l (pre ++ String c0 post))
    as [[m'' rest'']|] eqn:E'; [|discriminate].
  injection E as <- <-.
  destruct (literal_stays_before _ _ _ _ _ no_run_c0 E') as [pre2 [-> ->]].
  exists pre2. split; reflexivity.
Qed.

Lemma last_char_emphasise (o : option ascii) (m : string) :
  Re.last_char o (Re.emphasise m) = Some ">"%char.
Proof.
  unfold Re.emphasise. rewrite !last_char_app. reflexivity.
Qed.

(** The scanner arrives at the position of [c0] without passing over
    it; what it has written by then ends in a non-word character
    whenever the text before the position does. *)
Lemma scan_reach (n : nat) :
  forall (pre : string) (prev : option ascii) (post : string),
    String.length pre <= n ->
    exists X,
      scan prev (pre ++ String c0 post)
      = X ++ scan (Re.last_char prev pre) (String c0 post)
      /\ (forall o, Re.word_side (Re.last_char o pre) = false ->
                    Re.word_side (Re.last_char o X) = false).
Proof.
  induction n as [|n IH]; intros pre prev post Hlen.
  - destruct pre; [|simpl in Hlen; lia].
    exists "". split; [reflexivity | intros o H; exact H].
  - destruct pre as [|x pre].
    { exists "". split; [reflexivity | intros o H; exact H]. }
    destruct (Re.match_at lit prev (String x pre ++ String c0 post))
      as [[m rest]|] eqn:E.
    + destruct (match_stays_before _ _ _ _ _ _ E) as [pre2 [Hpre ->]].
      destruct (match_at_split _ _ _ _ _ E) as [_ Hm].
      assert (Hm0 : 0 < String.length m).
      { rewrite Hm. destruct lit; [congruence | simpl; lia]. }
      assert (Hlen2 : String.length pre2 <= n).
      { apply (f_equal String.length) in Hpre.
        rewrite length_append in Hpre. simpl in Hpre, Hlen. lia. }
      destruct (IH pre2 (Re.last_char prev m) post Hlen2) as [X2 [HX2 HW2]].
      exists (Re.emphasise m ++ X2). split.
      * rewrite (scan_match _ lit_nonempty _ _ _ _ E), HX2.
        rewrite Hpre, last_char_app, append_assoc. reflexivity.
      * intros o Ho. rewrite Hpre, last_char_app in Ho.
        rewrite last_char_app, last_char_emphasise.
        destruct X2 as [|y X2]; [reflexivity|].
        rewrite (last_char_nonempty _ (Re.last_char o m)) by discriminate.
        apply HW2, Ho.
    + simpl in Hlen.
      destruct (IH pre (Some x) post ltac:(lia)) as [X2 [HX2 HW2]].
      exists (String x X2). split.
      * change (String x pre ++ String c0 post)
          with (String x (pre ++ String c0 post)) in *.
        rewrite (scan_copy _ _ _ _ E), HX2. reflexivity.
      * intros o Ho. simpl in *. apply HW2, Ho.
Qed.
End ReachFacts.

Section BlockFacts.
Local Open Scope string_scope.
Variable lit : string.
Hypothesis lit_nonempty : lit <> "".

Local Abbreviation scan prev s := (Re.sub_scan lit prev 0 s).

Lemma mismatch_sound (l b rest : string) :
  Occurrence.mismatch l b = true -> Re.match_literal l (b ++ rest) = None.
Proof.
  revert b. induction l as [|p l IH]; intros b; simpl; [discriminate|].
  destruct b as [|c b]; [discriminate|]. simpl.
  destruct (Re.ci_eqb p c); [|reflexivity].
  intros H. now rewrite (IH _ H).
Qed.

Lemma mismatch_no_match (prev : option ascii) (b rest : string) :
  Occurrence.mismatch lit b = true -> Re.match_at lit prev (b ++ rest) = None.
Proof.
  intros H. unfold Re.match_at. rewrite (mismatch_sound _ _ rest H).
  now destruct (Re.boundary _ _).
Qed.

(** A stretch in which no match can start is copied as it is. *)
Lemma scan_through (b : string) :
  Occurrence.no_start lit b = true ->
  forall prev rest,
    scan prev (b ++ rest) = b ++ scan (Re.last_char prev b) rest.
Proof.
  induction b as [|c b IH]; intros Hb prev rest; [reflexivity|].
  cbn [Occurrence.no_start] in Hb. apply andb_true_iff in Hb.
  destruct Hb as [Hm Hb].
  pose proof (mismatch_no_match prev _ rest Hm) as Hnone.
  change (String c b ++ rest) with (String c (b ++ rest)) in *.
  rewrite (scan_copy _ _ _ _ Hnone), (IH Hb). reflexivity.
Qed.

Variable c0 : ascii.
Hypothesis no_run_c0 : Occurrence.no_run lit c0 = true.

(** A block in which no match can start, and into which no earlier
    match can run, goes through a pass untouched. *)
Lemma scan_block (blk : string) (pre : string) (prev : option ascii)
      (post : string) :
  Occurrence.no_start lit (String c0 blk) = true ->
  exists X,
    scan prev (pre ++ String c0 blk ++ post)
    = X ++ String c0 blk ++ scan (Re.last_char prev (pre ++ String c0 blk)) post
    /\ (forall o, Re.word_side (Re.last_char o pre) = false ->
                  Re.word_side (Re.last_char o X) = false).
Proof.
  intros Hblk.
  destruct (scan_reach lit lit_nonempty c0 no_run_c0 (String.length pre)
              pre prev (blk ++ post) (Nat.le_refl _)) as [X [HX HW]].
  exists X. split; [|exact HW].
  change (String c0 blk ++ post) with (String c0 (blk ++ post)).
  rewrite HX.
  change (String c0 (blk ++ post)) with (String c0 blk ++ post).
  rewrite (scan_through _ Hblk), last_char_app. reflexivity.
Qed.

(** A match at the position of [c0] is wrapped by the pass. *)
Lemma scan_wraps (m : string) (pre : string) (prev : option ascii)
      (post : string) :
  Re.match_at lit (Re.last_char prev pre) (String c0 m ++ post)
  = Some (String c0 m, post) ->
  exists X,
    scan prev (pre ++ String c0 m ++ post)
    = X ++ Re.emphasise (String c0 m)
        ++ scan (Re.last_char prev (pre ++ String c0 m)) post
    /\ (forall o, Re.word_side (Re.last_char o pre) = false ->
                  Re.word_side (Re.last_char o X) = false).
Proof.
  intros Hm.
  destruct (scan_reach lit lit_nonempty c0 no_run_c0 (String.length pre)
              pre prev (m ++ post) (Nat.le_refl _)) as [X [HX HW]].
  exists X. split; [|exact HW].
  change (String c0 m ++ post) with (String c0 (m ++ post)) in *.
  rewrite HX, (scan_match _ lit_nonempty _ _ _ _ Hm), last_char_app.
  reflexivity.
Qed.
End BlockFacts.

Section CaseFacts.
Local Open Scope string_scope.

Lemma ci_eqb_lower (x y : ascii) : Re.ci_eqb x y = true -> lower x = lower y.
Proof. unfold Re.ci_eqb. apply Ascii.eqb_eq. Qed.

Lemma ci_eqb_refl (x : ascii) : Re.ci_eqb x x = true.
Proof. unfold Re.ci_eqb. apply Ascii.eqb_refl. Qed.

Lemma ci_eqb_right (p c c' : ascii) :
  Re.ci_eqb c c' = true -> Re.ci_eqb p c = Re.ci_eqb p c'.
Proof. intros H. unfold Re.ci_eqb. now rewrite (ci_eqb_lower _ _ H). Qed.

Lemma is_word_lower (x : ascii) : is_word (lower x) = is_word x.
Proof. destruct x as [[] [] [] [] [] [] [] []]; reflexivity. Qed.

Lemma is_word_ci (x y : ascii) :
  Re.ci_eqb x y = true -> is_word x = is_word y.
Proof.
  intros H. rewrite <- (is_word_lower x), <- (is_word_lower y).
  now rewrite (ci_eqb_lower _ _ H).
Qed.

Lemma ci_same_refl (a : string) : Occurrence.ci_same a a = true.
Proof.
  induction a as [|x a IH]; simpl; [reflexivity|].
  now rewrite ci_eqb_refl, IH.
Qed.

Lemma ci_same_app (a a' b b' : string) :
  Occurrence.ci_same a a' = true -> Occurrence.ci_same b b' = true ->
  Occurrence.ci_same (a ++ b) (a' ++ b') = true.
Proof.
  revert a'. induction a as [|x a IH]; intros [|y a']; simpl;
    try discriminate; [auto|].
  intros H Hb. apply andb_true_iff in H. destruct H as [Hxy Ha].
  now rewrite Hxy, (IH _ Ha Hb).
Qed.

Lemma mismatch_ci (l b b' : string) :
  Occurrence.ci_same b b' = true ->
  Occurrence.mismatch l b = Occurrence.mismatch l b'.
Proof.
  revert b b'. induction l as [|p l IH]; intros [|c b] [|c' b']; simpl;
    try reflexivity; try discriminate.
  intros H. apply andb_true_iff in H. destruct H as [Hc Hb].
  rewrite (ci_eqb_right p _ _ Hc), (IH _ _ Hb). reflexivity.
Qed.

Lemma no_start_ci (l b b' : string) :
  Occurrence.ci_same b b' = true ->
  Occurrence.no_start l b = Occurrence.no_start l b'.
Proof.
  revert b'. induction b as [|c b IH]; intros [|c' b'] H;
    try reflexivity; try discriminate.
  cbn [Occurrence.no_start]. rewrite (mismatch_ci l _ _ H).
  simpl in H. apply andb_true_iff in H. destruct H as [_ Hb].
  now rewrite (IH _ Hb).
Qed.

Lemma without_ci (c c' : ascii) (s : string) :
  Re.ci_eqb c c' = true -> Occurrence.without c s = Occurrence.without c' s.
Proof.
  intros H. induction s as [|p s IH]; simpl; [reflexivity|].
  now rewrite (ci_eqb_right p _ _ H), IH.
Qed.

Lemma no_run_ci (l : string) (c c' : ascii) :
  Re.ci_eqb c c' = true -> Occurrence.no_run l c = Occurrence.no_run l c'.
Proof. destruct l; [reflexivity|]. apply without_ci. Qed.

Lemma match_literal_ci_same (l s m rest : string) :
  Re.match_literal l s = Some (m, rest) -> Occurrence.ci_same l m = true.
Proof.
  revert s m rest. induction l as [|p l IH]; intros s m rest; simpl.
  - intros H. injection H as <- _. reflexivity.
  - destruct s as [|c s]; [discriminate|].
    destruct (Re.ci_eqb p c) eqn:Hpc; [|discriminate].
    destruct (Re.match_literal l s) as [[m' rest']|] eqn:E; [|discriminate].
    intros H. injection H as <- _. simpl. now rewrite Hpc, (IH _ _ _ E).
Qed.

Lemma last_char_word_ci (a b : string) :
  Occurrence.ci_same a b = true ->
  forall o o', Re.word_side o = Re.word_side o' ->
    Re.word_side (Re.last_char o a) = Re.word_side (Re.last_char o' b).
Proof.
  revert b. induction a as [|x a IH]; intros [|y b] H o o' Ho;
    try discriminate; [exact Ho|].
  simpl in H. apply andb_true_iff in H. destruct H as [Hxy Hab].
  simpl. apply (IH _ Hab). simpl. now apply is_word_ci.
Qed.

(** What a pass writes first is no word character when what it reads
    first is none. *)
Lemma head_scan (l : string) (prev : option ascii) (s : string) :
  l <> "" ->
  Re.word_side (Re.head s) = false ->
  Re.word_side (Re.head (Re.sub_scan l prev 0 s)) = false.
Proof.
  intros Hl Hs. destruct s as [|c s]; [reflexivity|].
  destruct (Re.match_at l prev (String c s)) as [[m rest]|] eqn:E.
  - rewrite (scan_match _ Hl _ _ _ _ E). reflexivity.
  - rewrite (scan_copy _ _ _ _ E). exact Hs.
Qed.
End CaseFacts.

Section OccurrenceFacts.
Local Open Scope string_scope.

Lemma match_at_parts (l : string) (prev : option ascii) (s m rest : string) :
  Re.match_at l prev s = Some (m, rest) ->
  Re.boundary prev (Re.head s) = true
  /\ Re.match_literal l s = Some (m, rest)
  /\ Re.boundary (Re.last_char prev m) (Re.head rest) = true.
Proof.
  unfold Re.match_at. destruct (Re.boundary prev (Re.head s)); [|discriminate].
  destruct (Re.match_literal l s) as [[m' rest']|]; [|discriminate].
  destruct (Re.boundary (Re.last_char prev m') (Re.head rest')) eqn:B;
    [|discriminate].
  intros H. injection H as <- <-. repeat split. exact B.
Qed.

Lemma ci_same_match_literal (l m post : string) :
  Occurrence.ci_same l m = true -> Re.match_literal l (m ++ post) = Some (m, post).
Proof.
  revert m. induction l as [|x l IH]; intros [|c m]; simpl;
    try discriminate; [reflexivity|].
  intros H. apply andb_true_iff in H. destruct H as [Hxc Hlm].
  now rewrite Hxc, (IH _ Hlm).
Qed.

(** A literal that begins and ends with a word character. *)
Variable q : string.
Variable q0 : ascii.
Variable q' : string.
Hypothesis q_shape : q = String q0 q'.
Hypothesis q_first : is_word q0 = true.
Hypothesis q_last : Re.word_side (Re.last_char None q) = true.

Lemma ci_same_first (m : string) :
  Occurrence.ci_same q m = true ->
  exists c0 m', m = String c0 m' /\ Re.ci_eqb q0 c0 = true
                /\ is_word c0 = true.
Proof.
  rewrite q_shape. destruct m as [|c0 m']; [discriminate|]. simpl.
  intros H. apply andb_true_iff in H. destruct H as [Hc _].
  exists c0, m'. repeat split; [exact Hc|].
  now rewrite <- (is_word_ci _ _ Hc).
Qed.

Lemma ci_same_last (m : string) (o : option ascii) :
  Occurrence.ci_same q m = true -> Re.word_side (Re.last_char o m) = true.
Proof.
  intros H. rewrite <- q_last. symmetry. rewrite q_shape in *.
  destruct m as [|c0 m']; [discriminate|]. simpl in H.
  apply andb_true_iff in H. destruct H as [Hc Hrest]. simpl.
  apply last_char_word_ci; [exact Hrest|]. simpl. now apply is_word_ci.
Qed.

(** An occurrence of the literal, without reference to the matcher: the
    segment is the literal up to case, and neither the character before
    it nor the one after it is a word character. *)
Lemma occurs_iff (text pre m post : string) :
  Occurrence.occurs q text pre m post
  <-> text = pre ++ m ++ post
      /\ Occurrence.ci_same q m = true
      /\ Re.word_side (Re.last_char None pre) = false
      /\ Re.word_side (Re.head post) = false.
Proof.
  unfold Occurrence.occurs. split.
  - intros [Htext Hm].
    destruct (match_at_parts _ _ _ _ _ Hm) as [B1 [Hlit B2]].
    pose proof (match_literal_ci_same _ _ _ _ Hlit) as Hci.
    destruct (ci_same_first _ Hci) as [c0 [m' [-> [_ Hw0]]]].
    unfold Re.boundary in B1, B2. rewrite (ci_same_last _ _ Hci) in B2.
    simpl in B1. rewrite Hw0 in B1.
    repeat split; [exact Htext | exact Hci | |].
    + destruct (Re.word_side (Re.last_char None pre)); [discriminate|reflexivity].
    + destruct (Re.word_side (Re.head post)); [discriminate|reflexivity].
  - intros [Htext [Hci [Hpre Hpost]]]. split; [exact Htext|].
    unfold Re.match_at, Re.boundary.
    rewrite (ci_same_match_literal _ _ post Hci), (ci_same_last _ _ Hci).
    destruct (ci_same_first _ Hci) as [c0 [m' [-> [_ Hw0]]]].
    simpl. rewrite Hpre, Hw0, Hpost. reflexivity.
Qed.
End OccurrenceFacts.

Section PassFacts.
Local Open Scope string_scope.

(** The literal of the pass. *)
Variable p : string.
Hypothesis p_nonempty : p <> "".

(** The pass wraps the occurrences of its own literal. *)
Lemma pass_wraps (p0 : ascii) (p' text pre m post : string) :
  p = String p0 p' ->
  Occurrence.no_run p p0 = true ->
  Occurrence.occurs p text pre m post ->
  exists X Y, Re.sub p text = X ++ Re.emphasise m ++ Y.
Proof.
  intros Hp Hrun [-> Hm].
  destruct (match_at_parts _ _ _ _ _ Hm) as [_ [Hlit _]].
  pose proof (match_literal_ci_same _ _ _ _ Hlit) as Hci.
  rewrite Hp in Hci. destruct m as [|c0 m]; [discriminate|].
  simpl in Hci. apply andb_true_iff in Hci. destruct Hci as [Hc0 _].
  rewrite (no_run_ci p _ _ Hc0) in Hrun.
  destruct (scan_wraps p p_nonempty c0 Hrun m pre None post Hm)
    as [X [HX _]].
  exists X. eexists. unfold Re.sub. exact HX.
Qed.

(** The pass leaves an emphasised name of another literal as it is. *)
Lemma pass_keeps (q m X Y : string) :
  Occurrence.ci_same q m = true ->
  Occurrence.no_start p (Re.emphasise q) = true ->
  Occurrence.no_run p "<" = true ->
  exists X' Y', Re.sub p (X ++ Re.emphasise m ++ Y) = X' ++ Re.emphasise m ++ Y'.
Proof.
  intros Hci Hstart Hrun.
  assert (Hsame : Occurrence.ci_same (Re.emphasise q) (Re.emphasise m) = true).
  { unfold Re.emphasise. apply ci_same_app; [apply ci_same_refl|].
    apply ci_same_app; [exact Hci | apply ci_same_refl]. }
  rewrite (no_start_ci p _ _ Hsame) in Hstart.
  unfold Re.emphasise, Re.open_tag in *.
  change ("<strong>" ++ m ++ Re.close_tag)
    with (String "<" ("strong>" ++ m ++ Re.close_tag)) in *.
  destruct (scan_block p p_nonempty "<" Hrun _ X None Y Hstart)
    as [X' [HX _]].
  exists X'. eexists. unfold Re.sub. exact HX.
Qed.

(** The pass leaves an occurrence of another literal an occurrence. *)
Lemma pass_transfers (q : string) (q0 : ascii) (q' text pre m post : string) :
  q = String q0 q' ->
  Occurrence.no_start p q = true ->
  Occurrence.no_run p q0 = true ->
  is_word q0 = true ->
  Re.word_side (Re.last_char None q) = true ->
  Occurrence.occurs q text pre m post ->
  exists pre' post', Occurrence.occurs q (Re.sub p text) pre' m post'.
Proof.
  intros Hq Hstart Hrun Hw0 Hwlast Hocc.
  apply (occurs_iff q q0 q' Hq Hw0 Hwlast) in Hocc.
  destruct Hocc as [-> [Hci [Hpre Hpost]]].
  rewrite (no_start_ci p _ _ Hci) in Hstart.
  destruct (ci_same_first q q0 q' Hq Hw0 m Hci) as [c0 [m' [-> [Hc0 _]]]].
  rewrite (no_run_ci p _ _ Hc0) in Hrun.
  destruct (scan_block p p_nonempty c0 Hrun m' pre None post Hstart)
    as [X [HX HW]].
  exists X. eexists.
  apply (occurs_iff q q0 q' Hq Hw0 Hwlast).
  split; [unfold Re.sub; exact HX|]. split; [exact Hci|].
  split; [exact (HW None Hpre) | exact (head_scan p _ post p_nonempty Hpost)].
Qed.
End PassFacts.

Section HighlightFacts.
Local Open Scope string_scope.

Lemma highlight_passes (authors : string) :
  authors <> "" ->
  ScholarFetcher._highlight_author_name authors
  = Re.sub "A. Dixit" (Re.sub "Abhishek Dixit" (Re.sub "A Dixit" authors)).
Proof. destruct authors; [congruence | reflexivity]. Qed.

Lemma occurs_ci_same (lit text pre m post : string) :
  Occurrence.occurs lit text pre m post -> Occurrence.ci_same lit m = true.
Proof.
  intros [_ Hm]. destruct (match_at_parts _ _ _ _ _ Hm) as [_ [Hlit _]].
  eapply match_literal_ci_same, Hlit.
Qed.

Lemma occurs_nonempty (lit text pre m post : string) :
  lit <> "" -> Occurrence.occurs lit text pre m post -> text <> "".
Proof.
  intros Hlit [-> Hm] Hempty.
  destruct (match_at_split _ _ _ _ _ Hm) as [_ Hlen].
  destruct pre; [|discriminate]. destruct m; [|discriminate].
  destruct lit; [congruence | discriminate].
Qed.
End HighlightFacts.


(** ** The statements at sample inputs *)

Lemma fetch_retry_policy_witness :
  (fst (ScholarFetcher.fetch_scholar_data Examples.recovering BulkSync.scholar_id)
   = Some (ScholarFetcher._format_scholar_data Examples.author
             (ScholarFetcher._process_all_publications Examples.fill_but_fifth
                (seq 1 10))
             BulkSync.scholar_id)
   /\ ScholarFetcher.attempts_made
        (snd (ScholarFetcher.fetch_scholar_data Examples.recovering
                BulkSync.scholar_id)) = 3)
  /\ (fst (ScholarFetcher.fetch_scholar_data Examples.unreachable
             BulkSync.scholar_id) = None
      /\ ScholarFetcher.attempts_made
           (snd (ScholarFetcher.fetch_scholar_data Examples.unreachable
                   BulkSync.scholar_id)) = 3).
Proof.
  split.
  - apply (proj1 (proj2 (fetch_retry_policy nat Examples.recovering
                           BulkSync.scholar_id))
             ScholarError ScholarError); reflexivity.
  - apply (proj2 (proj2 (fetch_retry_policy nat Examples.unreachable
                           BulkSync.scholar_id))).
    intros n. reflexivity.
Defined.


Lemma pagination_math_witness :
  (1 <= 2)%Z /\ (1 <= 5)%Z
  /\ is_returned
       (fst (Database.get_publications Examples.no_faults Examples.int_of_str
               2 5 (Some "2021"%string) Examples.stocked_world)) = true
  /\ forall result,
      fst (Database.get_publications Examples.no_faults Examples.int_of_str
             2 5 (Some "2021"%string) Examples.stocked_world)
      = Returned result ->
      Database.total (Database.page_pagination result) = 12%Z
      /\ Database.total_pages (Database.page_pagination result) = 3%Z
      /\ Database.has_next (Database.page_pagination result) = true.
Proof.
  assert (H1 : (1 <= 2)%Z) by lia. assert (H2 : (1 <= 5)%Z) by lia.
  split; [exact H1|]. split; [exact H2|].
  destruct (pagination_math Examples.no_faults Examples.int_of_str 2 5
              (Some "2021"%string) Examples.stocked_world H1 H2)
    as [Hreturns Hfields].
  split.
  - apply Hreturns; [intros k _; reflexivity | reflexivity].
  - intros result Hresult.
    destruct (Hfields result Hresult) as [clause [Hclause [Ht [Hp [_ Hn]]]]].
    injection Hclause as <-. cbv zeta in Ht, Hp, Hn.
    assert (Ht' : Database.total (Database.page_pagination result) = 12%Z)
      by (rewrite Ht; reflexivity).
    rewrite Ht' in Hp, Hn. split; [exact Ht'|]. split; [exact Hp|].
    apply Hn. lia.
Defined.

Lemma fetch_failure_stops_sync_witness :
  fst (ScholarFetcher.fetch_scholar_data Examples.unreachable BulkSync.scholar_id)
  = None
  /\ BulkSync.sync_all_publications true Examples.unreachable Examples.no_faults
       Examples.stocked_world
     = (false, Examples.stocked_world)
  /\ App.status
       (fst (App.sync_scholar_data true Examples.unreachable Examples.no_faults
               Examples.stocked_world)) = 500
  /\ snd (App.sync_scholar_data true Examples.unreachable Examples.no_faults
            Examples.stocked_world)
     = Examples.stocked_world.
Proof.
  split; [reflexivity|].
  apply (fetch_failure_stops_sync nat Examples.unreachable Examples.no_faults
           true true Examples.stocked_world).
  reflexivity.
Defined.

Lemma default_profile_when_none_witness :
  Database.scholar_profile (Database.committed Examples.empty_world) = []
  /\ fst (Database.get_profile Examples.no_faults Examples.empty_world)
     = Returned Database.default_profile
  /\ exists publications pagination,
      fst (App.get_publications true Examples.no_faults Examples.int_of_str
             Examples.first_page Examples.empty_world)
      = {| App.status := 200;
           App.body :=
             App.Publications (Some Database.default_profile)
               publications pagination |}.
Proof.
  assert (Hempty : Database.scholar_profile
                     (Database.committed Examples.empty_world) = [])
    by reflexivity.
  destruct (default_profile_when_none Examples.no_faults Examples.int_of_str
              Examples.empty_world Hempty) as [Hread [_ Hpage]].
  split; [exact Hempty|]. split.
  - apply Hread. intros k _. reflexivity.
  - apply (Hpage Examples.first_page 5%Z); try reflexivity.
    + lia.
    + intros k _. reflexivity.
Defined.



(** Ten source items of which the fifth cannot be filled: nine records,
    numbered by discovery position. *)
Example nine_of_ten_survive :
  map ScholarFetcher.pub_number
      (ScholarFetcher._process_all_publications Examples.fill_but_fifth
         (seq 1 10))
  = [1; 2; 3; 4; 6; 7; 8; 9; 10].
Proof. reflexivity. Qed.

(** A failure after two of three batches leaves the thirteen rows of the
    first sync in place. *)
Example failure_after_two_batches :
  let new_list := Examples.second_snapshot in
  List.length (Database.batches Database.batch_size
                 (map Database.values_of new_list)) = 3
  /\ Database.bulk_insert_publications
       (Examples.faults_from (Database.statements Examples.stocked_world + 4))
       new_list Examples.stocked_world
     = (false,
        snd (Database.bulk_insert_publications
               (Examples.faults_from (Database.statements Examples.stocked_world + 4))
               new_list Examples.stocked_world))
  /\ Database.committed
       (snd (Database.bulk_insert_publications
               (Examples.faults_from (Database.statements Examples.stocked_world + 4))
               new_list Examples.stocked_world))
     = Database.committed Examples.stocked_world
  /\ List.length
       (Database.publications (Database.committed Examples.stocked_world)) = 13.
Proof. vm_compute. repeat split; reflexivity. Qed.

(* ===================================================================== *)
(** * Further properties                                                  *)
(* ===================================================================== *)

(** ** The profile upsert *)

Section UpsertFacts.
Import Database.
Variable faults : nat -> bool.

(** What [update_profile] does, by the fault plan over its four
    statements. *)
Lemma update_profile_run (d : profile_data) (w : world) :
  let old := scholar_profile (committed w) in
  let stamp := Z.of_nat (statements w + 2) in
  let run := update_profile faults d w in
  if existsb faults (seq (statements w) 4)
  then fst run = false /\ committed (snd run) = committed w
  else fst run = true
       /\ publications (committed (snd run)) = publications (committed w)
       /\ working (snd run) = committed (snd run)
       /\ statements (snd run) = statements w + 4
       /\ scholar_profile (committed (snd run))
          = match old with
            | [] => [profile_row_of (profile_seq w + 1) stamp d]
            | row :: _ =>
                map (fun r => if (profile_id r =? profile_id row)%Z
                              then profile_row_of (profile_id row) stamp d
                              else r) old
            end.
Proof.
  intros old stamp run. subst run old stamp.
  change (seq (statements w) 4)
    with [statements w; S (statements w); S (S (statements w));
          S (S (S (statements w)))].
  cbn [existsb]. gateway_steps. unfold now.
  destruct (faults (statements w)); [split; reflexivity|]. simpl.
  destruct (faults (S (statements w))); [split; reflexivity|]. simpl.
  replace (statements w + 2) with (S (S (statements w))) by lia.
  destruct (scholar_profile (committed w)) as [|row rows] eqn:Hold; simpl;
    (destruct (faults (S (S (statements w)))); [split; reflexivity|]; simpl;
     destruct (faults (S (S (S (statements w))))); simpl;
     [split; reflexivity|]);
    repeat split; try reflexivity; simpl; try lia;
    rewrite Hold; reflexivity.
Qed.
End UpsertFacts.



(** X3. Upsert, then read: on a profile table of at most one row, a
    profile upsert followed by [get_profile], with all six statements
    answered, returns the data just written. *)
Theorem profile_round_trip
        (faults : nat -> bool) (d : Database.profile_data)
        (w : Database.world) :
  List.length (Database.scholar_profile (Database.committed w)) <= 1 ->
  answers faults (Database.statements w) 6 ->
  let run := Database.update_profile faults d w in
  fst run = true
  /\ exists p,
      fst (Database.get_profile faults (snd run)) = Returned p /\ shows d p.
Proof.
  intros Hlen Hans run.
  pose proof (update_profile_run faults d w) as H.
  cbv zeta in H. fold run in H.
  assert (Hnone : existsb faults (seq (Database.statements w) 4) = false).
  { apply not_true_is_false. intros Hex. apply existsb_exists in Hex.
    destruct Hex as [k [Hk Hf]]. apply in_seq in Hk.
    specialize (Hans (k - Database.statements w) ltac:(lia)).
    replace (Database.statements w + (k - Database.statements w)) with k
      in Hans by lia.
    congruence. }
  rewrite Hnone in H. destruct H as [Hok [_ [_ [Hst Hnew]]]].
  split; [exact Hok|].
  rewrite get_profile_run.
  - eexists. split; [reflexivity|]. rewrite Hnew.
    destruct (Database.scholar_profile (Database.committed w))
      as [|row [|row' rest]].
    + repeat split.
    + simpl. rewrite Z.eqb_refl. repeat split.
    + simpl in Hlen. lia.
  - intros k Hk. rewrite Hst.
    replace (Database.statements w + 4 + k)
      with (Database.statements w + (4 + k)) by lia.
    apply Hans. lia.
Qed.

(** ** Pages of the paginated read *)

Section PageFacts.
Import Database.
Variable faults : nat -> bool.
Variable int_of_str : string -> outcome Z.

(** A returned page is a slice of the ordered selection, and the call
    only returns for a positive page size and a non-negative offset. *)
Lemma get_publications_slice (page per_page : Z) (year_filter : option string)
      (w : world) (result : page_result) :
  fst (get_publications faults int_of_str page per_page year_filter w)
  = Returned result ->
  exists clause,
    build_where int_of_str year_filter = Returned clause
    /\ (1 <= per_page)%Z /\ (1 <= page)%Z
    /\ total (page_pagination result)
       = Z.of_nat (List.length (filter (satisfies clause)
                                       (publications (committed w))))
    /\ page_publications result
       = map dict_of_row
           (firstn (Z.to_nat per_page)
              (skipn (Z.to_nat ((page - 1) * per_page))
                 (order_by (filter (satisfies clause)
                                   (publications (committed w)))))).
Proof.
  gateway_steps. next_statement faults.
  destruct (build_where int_of_str year_filter) as [clause|]; [|discriminate].
  simpl. do 2 next_statement faults.
  unfold limit_offset, floordiv.
  destruct (Z.ltb_spec per_page 0); [discriminate|].
  destruct (Z.ltb_spec ((page - 1) * per_page) 0); [discriminate|].
  simpl. destruct (Z.eqb_spec per_page 0); [discriminate|].
  simpl. intros Hres. injection Hres as <-. exists clause. simpl.
  repeat split; try reflexivity; nia.
Qed.

Lemma slice_incl {A : Type} (n m : nat) (l : list A) (x : A) :
  In x (firstn n (skipn m l)) -> In x l.
Proof.
  intros H. rewrite <- (firstn_skipn m l). apply in_or_app. right.
  rewrite <- (firstn_skipn n (skipn m l)). apply in_or_app. now left.
Qed.

Lemma map_by_position {A B : Type} (f : A -> B) (g : nat -> B) (l : list A) :
  (forall k a, nth_error l k = Some a -> f a = g k) ->
  map f l = map g (seq 0 (List.length l)).
Proof.
  revert g. induction l as [|a l IH]; intros g Hg; [reflexivity|].
  simpl. rewrite (Hg 0 a eq_refl). f_equal.
  rewrite <- seq_shift, map_map. apply IH.
  intros k b Hk. apply (Hg (S k) b Hk).
Qed.
End PageFacts.

(** X4. Size of a page: whenever the paginated read returns, the page
    holds [min(per_page, max(0, total - (page - 1) * per_page))]
    publications; so it never holds more than [per_page], and it is empty
    past the last page. *)
Theorem page_size
        (faults : nat -> bool) (int_of_str : string -> outcome Z)
        (page per_page : Z) (year_filter : option string)
        (w : Database.world) (result : Database.page_result) :
  fst (Database.get_publications faults int_of_str page per_page year_filter w)
  = Returned result ->
  Z.of_nat (List.length (Database.page_publications result))
  = Z.min per_page
      (Z.max 0 (Database.total (Database.page_pagination result)
                - (page - 1) * per_page)).
Proof.
  intros Hrun.
  destruct (get_publications_slice faults int_of_str _ _ _ _ _ Hrun)
    as [clause [_ [Hper [Hpage [Htotal Hrows]]]]].
  rewrite Hrows, Htotal, length_map, length_firstn, length_skipn.
  unfold Database.order_by.
  rewrite (Permutation_length
             (sort_by_perm _ Database.order_before
                (filter (Database.satisfies clause)
                        (Database.publications (Database.committed w))))).
  nia.
Qed.


(** X6. The year filter is sound: with the filter ["Unknown"] every
    publication of the page has the year label ["Unknown"], and with a
    filter that [int] reads as [y] every publication of the page has the
    year label [str(y)]. *)
Theorem year_filter_sound
        (faults : nat -> bool) (int_of_str : string -> outcome Z)
        (page per_page : Z) (year_filter : option string)
        (w : Database.world) (result : Database.page_result) :
  fst (Database.get_publications faults int_of_str page per_page year_filter w)
  = Returned result ->
  (year_filter = Some "Unknown"%string ->
   Forall (fun d => Database.out_year d = "Unknown"%string)
          (Database.page_publications result))
  /\ (forall y,
         Database.build_where int_of_str year_filter
         = Returned (Database.YearEquals y) ->
         Forall (fun d => Database.out_year d = str_of_int y)
                (Database.page_publications result)).
Proof.
  intros Hrun.
  destruct (get_publications_slice faults int_of_str _ _ _ _ _ Hrun)
    as [clause [Hclause [_ [_ [_ Hrows]]]]].
  assert (Hall : Forall (fun r => Database.satisfies clause r = true)
                   (firstn (Z.to_nat per_page)
                      (skipn (Z.to_nat ((page - 1) * per_page))
                         (Database.order_by
                            (filter (Database.satisfies clause)
                               (Database.publications
                                  (Database.committed w))))))).
  { apply Forall_forall. intros r Hr.
    apply slice_incl in Hr.
    apply (Permutation_in _ (sort_by_perm _ _ _)) in Hr.
    apply filter_In in Hr. apply Hr. }
  rewrite Hrows. split.
  - intros ->. simpl in Hclause. injection Hclause as <-.
    rewrite Forall_map. eapply Forall_impl; [|exact Hall].
    intros r Hr. simpl in *. destruct (Database.year r); [discriminate|].
    reflexivity.
  - intros y Hy. rewrite Hclause in Hy. injection Hy as ->.
    rewrite Forall_map. eapply Forall_impl; [|exact Hall].
    intros r Hr. simpl in *. destruct (Database.year r) as [z|]; [|discriminate].
    apply Z.eqb_eq in Hr. now subst.
Qed.

(** ** Search and the full listing *)

(** X7. The search returns only matches: whenever [search_publications]
    returns, every publication of the page is a stored row whose title,
    authors or venue the server's [ILIKE] matches against [%query%]; the
    page holds at most [per_page] rows; [total] is the number of stored
    rows that match, and [query] is handed back unchanged. *)
Theorem search_sound
        (faults : nat -> bool) (ilike : string -> string -> bool)
        (text : string) (page per_page : Z)
        (w : Database.world) (result : Database.search_result) :
  fst (Database.search_publications faults ilike text page per_page w)
  = Returned result ->
  let pattern := ("%" ++ text ++ "%")%string in
  Forall (fun r =>
            In r (Database.publications (Database.committed w))
            /\ (ilike pattern (Database.title r)
                || ilike pattern (Database.authors r)
                || ilike pattern (Database.venue r)) = true)
         (Database.found_publications result)
  /\ (Z.of_nat (List.length (Database.found_publications result)) <= per_page)%Z
  /\ Database.found_total result
     = Z.of_nat
         (List.length
            (filter (Database.search_matches ilike pattern)
                    (Database.publications (Database.committed w))))
  /\ Database.found_query result = text.
Proof.
  gateway_steps. do 3 next_statement faults.
  unfold Database.limit_offset.
  destruct (Z.ltb_spec per_page 0); [discriminate|].
  destruct (Z.ltb_spec ((page - 1) * per_page) 0); [discriminate|].
  simpl. intros Hres. injection Hres as <-. simpl.
  split; [|split; [|split; reflexivity]].
  - apply Forall_forall. intros r Hr. apply slice_incl in Hr.
    apply (Permutation_in _ (sort_by_perm _ _ _)) in Hr.
    apply filter_In in Hr. exact Hr.
  - rewrite length_firstn. lia.
Qed.

(** X8. The full listing is complete: [get_all_publications] returns
    exactly when its two statements are answered, and then returns every
    stored publication once, rows with a set year first, greater year
    first, then greater citation count first. *)
Theorem get_all_publications_complete
        (faults : nat -> bool) (w : Database.world) :
  let call := Database.get_all_publications faults w in
  if existsb faults (seq (Database.statements w) 2)
  then fst call = Raised DatabaseError
  else exists rows,
      fst call = Returned rows
      /\ Permutation rows (Database.publications (Database.committed w))
      /\ StronglySorted storage_order rows.
Proof.
  intros call. subst call.
  change (seq (Database.statements w) 2)
    with [Database.statements w; S (Database.statements w)].
  cbn [existsb]. unfold Database.get_all_publications. gateway_steps.
  destruct (faults (Database.statements w)); [reflexivity|]. simpl.
  destruct (faults (S (Database.statements w))); [reflexivity|]. simpl.
  eexists. split; [reflexivity|]. split.
  - apply sort_by_perm.
  - apply order_by_sorted.
Qed.

(** ** The year histogram *)

Section HistogramFacts.
Import Database.

Lemma year_eqb_eq (a b : option Z) : year_eqb a b = true <-> a = b.
Proof.
  destruct a as [x|], b as [y|]; simpl; try (split; congruence).
  rewrite Z.eqb_eq. split; congruence.
Qed.

Lemma exists_year_In (y : option Z) (l : list (option Z)) :
  existsb (year_eqb y) l = true <-> In y l.
Proof.
  rewrite existsb_exists. split.
  - intros [z [Hz E]]. apply year_eqb_eq in E. now subst.
  - intros H. exists y. split; [exact H | now apply year_eqb_eq].
Qed.

Lemma distinct_years_In (years : list (option Z)) (y : option Z) :
  In y (distinct_years years) <-> In y years.
Proof.
  induction years as [|a l IH]; simpl; [tauto|].
  destruct (existsb (year_eqb a) l) eqn:E.
  - apply exists_year_In in E. rewrite IH. split; [tauto|].
    intros [<-|H]; assumption.
  - simpl. rewrite IH. tauto.
Qed.

Lemma distinct_years_NoDup (years : list (option Z)) :
  NoDup (distinct_years years).
Proof.
  induction years as [|a l IH]; simpl; [constructor|].
  destruct (existsb (year_eqb a) l) eqn:E; [exact IH|].
  constructor; [|exact IH]. rewrite distinct_years_In.
  intros H. apply exists_year_In in H. congruence.
Qed.

Lemma str_of_int_inj (z z' : Z) : str_of_int z = str_of_int z' -> z = z'.
Proof.
  assert (Hread : forall x,
             NilZero.int_of_string (str_of_int x) = Some (Z.to_int x)).
  { intros x. apply NilZero.isi; destruct x; simpl; try discriminate;
      intros E; injection E; apply DecimalPos.Unsigned.to_uint_nonnil. }
  intros H. apply DecimalZ.to_int_inj.
  pose proof (Hread z) as H1. rewrite H, Hread in H1. congruence.
Qed.

Lemma str_of_int_not_unknown (z : Z) : str_of_int z <> "Unknown"%string.
Proof.
  intros H. pose proof (isdigit_str_of_int z) as Hd. rewrite H in Hd.
  destruct z as [|p|p]; try discriminate Hd.
  unfold str_of_int in H. simpl in H. discriminate H.
Qed.

Lemma year_text_inj (a b : option Z) : year_text a = year_text b -> a = b.
Proof.
  destruct a as [x|], b as [y|]; simpl; intros H.
  - f_equal. now apply str_of_int_inj.
  - now apply str_of_int_not_unknown in H.
  - symmetry in H. now apply str_of_int_not_unknown in H.
  - reflexivity.
Qed.

Lemma year_text_unknown (y : option Z) :
  year_text y = "Unknown"%string <-> y = None.
Proof.
  split; [|intros ->; reflexivity].
  intros H. apply (year_text_inj y None H).
Qed.

(** *** Dictionaries with distinct keys *)

Lemma dict_set_fresh {V : Type} (key : string) (v : V) (d : list (string * V)) :
  ~ In key (map fst d) -> dict_set key v d = d ++ [(key, v)].
Proof.
  induction d as [|[k x] d IH]; simpl; intros H; [reflexivity|].
  destruct (String.eqb_spec k key) as [->|Hk]; [tauto|].
  rewrite IH; [reflexivity | tauto].
Qed.

Lemma dict_get_absent {V : Type} (key : string) (d : list (string * V)) :
  ~ In key (map fst d) -> dict_get key d = None.
Proof.
  induction d as [|[k x] d IH]; simpl; intros H; [reflexivity|].
  destruct (String.eqb_spec k key) as [->|Hk]; [tauto|].
  apply IH. tauto.
Qed.

Lemma dict_get_present {V : Type} (key : string) (v : V) (d : list (string * V)) :
  NoDup (map fst d) -> In (key, v) d -> dict_get key d = Some v.
Proof.
  induction d as [|[k x] d IH]; simpl; intros Hnd Hin; [contradiction|].
  inversion Hnd as [|? ? Hk Hd]; subst.
  destruct Hin as [E|Hin].
  - injection E as -> ->. now rewrite String.eqb_refl.
  - destruct (String.eqb_spec k key) as [->|Hne]; [|now apply IH].
    exfalso. apply Hk. apply (in_map fst) in Hin. exact Hin.
Qed.

Lemma counts_dict_from (results : list (option Z * nat))
      (acc : list (string * Z)) :
  NoDup (map fst (acc ++ map histogram_entry results)) ->
  fold_left (fun d row => dict_set (year_text (fst row)) (Z.of_nat (snd row)) d)
            results acc
  = acc ++ map histogram_entry results.
Proof.
  revert acc. induction results as [|row results IH]; intros acc Hnd; simpl.
  - now rewrite app_nil_r.
  - rewrite dict_set_fresh.
    + rewrite IH; [now rewrite <- app_assoc|].
      rewrite <- app_assoc. exact Hnd.
    + rewrite map_app in Hnd. apply NoDup_remove_2 in Hnd.
      intros H. apply Hnd. apply in_or_app. now left.
Qed.

Lemma counts_dict_entries (results : list (option Z * nat)) :
  NoDup (map fst results) ->
  counts_dict results = map histogram_entry results.
Proof.
  intros Hnd. unfold counts_dict. rewrite counts_dict_from; [reflexivity|].
  simpl. rewrite map_map.
  clear -Hnd. induction results as [|row results IH]; simpl; [constructor|].
  inversion Hnd as [|? ? Hx Hl]; subst. constructor; [|now apply IH].
  intros H. apply in_map_iff in H. destruct H as [row' [E Hin]].
  apply year_text_inj in E. apply Hx. rewrite <- E. now apply in_map.
Qed.

(** *** The grouped rows *)

Variable text_desc : string -> string -> bool.

Lemma year_counts_perm (rows : list pub_row) :
  Permutation (year_counts text_desc rows)
    (map (fun y => (y, rows_of_year y rows)) (distinct_years (map year rows))).
Proof. apply sort_by_perm. Qed.

Lemma year_counts_keys (rows : list pub_row) :
  NoDup (map fst (year_counts text_desc rows)).
Proof.
  eapply Permutation_NoDup.
  - apply Permutation_map, Permutation_sym, year_counts_perm.
  - rewrite map_map. simpl. rewrite map_id. apply distinct_years_NoDup.
Qed.

Lemma year_counts_In (rows : list pub_row) (y : option Z) (c : nat) :
  In (y, c) (year_counts text_desc rows)
  <-> c = rows_of_year y rows /\ In y (map year rows).
Proof.
  split.
  - intros H. apply (Permutation_in _ (year_counts_perm rows)) in H.
    apply in_map_iff in H. destruct H as [y' [E Hy]]. injection E as -> <-.
    split; [reflexivity|]. now apply distinct_years_In.
  - intros [-> Hy].
    apply (Permutation_in _ (Permutation_sym (year_counts_perm rows))).
    apply in_map_iff. exists y. split; [reflexivity|].
    now apply distinct_years_In.
Qed.

Lemma rows_of_year_zero (rows : list pub_row) (y : option Z) :
  ~ In y (map year rows) -> rows_of_year y rows = 0.
Proof.
  unfold rows_of_year. induction rows as [|r rows IH]; simpl; [reflexivity|].
  intros H. destruct (year_eqb (year r) y) eqn:E.
  - apply year_eqb_eq in E. tauto.
  - apply IH. tauto.
Qed.

Lemma rows_of_year_pos (rows : list pub_row) (y : option Z) :
  In y (map year rows) -> 0 < rows_of_year y rows.
Proof.
  unfold rows_of_year. induction rows as [|r rows IH]; simpl; [tauto|].
  intros [E|H].
  - rewrite (proj2 (year_eqb_eq _ _) E). simpl. lia.
  - destruct (year_eqb (year r) y); simpl; [lia | now apply IH].
Qed.

(** *** Sums of counts *)

Lemma sum_of_perm (l l' : list Z) : Permutation l l' -> sum_of l = sum_of l'.
Proof.
  unfold sum_of. induction 1; simpl; lia.
Qed.

Lemma sum_of_indicator (a : option Z) (ys : list (option Z)) :
  NoDup ys -> In a ys ->
  sum_of (map (fun y => if year_eqb a y then 1%Z else 0%Z) ys) = 1%Z.
Proof.
  unfold sum_of. induction ys as [|y ys IH]; simpl; [tauto|].
  intros Hnd Hin. inversion Hnd as [|? ? Hy Hys]; subst.
  destruct (year_eqb a y) eqn:E.
  - apply year_eqb_eq in E. subst y.
    assert (Hzero : fold_right Z.add 0%Z
                      (map (fun y => if year_eqb a y then 1%Z else 0%Z) ys)
                    = 0%Z).
    { clear -Hy. induction ys as [|z ys IH]; simpl; [reflexivity|].
      destruct (year_eqb a z) eqn:E.
      - apply year_eqb_eq in E. subst. simpl in Hy. tauto.
      - rewrite IH; [reflexivity|]. simpl in Hy. tauto. }
    rewrite Hzero. reflexivity.
  - destruct Hin as [->|Hin].
    + rewrite (proj2 (year_eqb_eq _ _) eq_refl) in E. discriminate.
    + rewrite (IH Hys Hin). reflexivity.
Qed.

Lemma counts_cover (rows : list pub_row) (ys : list (option Z)) :
  NoDup ys -> (forall r, In r rows -> In (year r) ys) ->
  sum_of (map (fun y => Z.of_nat (rows_of_year y rows)) ys)
  = Z.of_nat (List.length rows).
Proof.
  intros Hnd. induction rows as [|r rows IH]; intros Hcover.
  - unfold rows_of_year. simpl. clear. unfold sum_of.
    induction ys; simpl; lia.
  - assert (Hsplit :
      forall l, sum_of (map (fun y => Z.of_nat (rows_of_year y (r :: rows))) l)
                = (sum_of (map (fun y => if year_eqb (year r) y
                                         then 1%Z else 0%Z) l)
                   + sum_of (map (fun y => Z.of_nat (rows_of_year y rows)) l))%Z).
    { unfold sum_of, rows_of_year. induction l as [|y l IHl];
        [reflexivity|].
      cbn [map fold_right]. rewrite IHl. cbn [filter].
      destruct (year_eqb (year r) y); cbn [List.length]; lia. }
    rewrite Hsplit, sum_of_indicator, IH.
    + simpl List.length. lia.
    + intros r' Hr'. apply Hcover. now right.
    + exact Hnd.
    + apply Hcover. now left.
Qed.

(** *** Unset years last *)

Lemma insert_null_last (x : option Z * nat) (l : list (option Z * nat)) :
  StronglySorted (fun a b => fst a = None -> fst b = None) l ->
  StronglySorted (fun a b => fst a = None -> fst b = None)
                 (insert_by (histogram_before text_desc) x l).
Proof.
  induction l as [|y l IH]; intros Hs; simpl.
  - constructor; constructor.
  - inversion Hs as [|? ? Hl Hy]; subst.
    destruct (histogram_before text_desc x y) eqn:Hxy.
    + constructor; [exact Hs|]. constructor.
      * intros Hx. unfold histogram_before in Hxy. rewrite Hx in Hxy.
        destruct (fst y); [discriminate | reflexivity].
      * rewrite Forall_forall in *. intros z Hz Hx. apply (Hy z Hz).
        unfold histogram_before in Hxy. rewrite Hx in Hxy.
        destruct (fst y); [discriminate | reflexivity].
    + constructor; [apply IH, Hl|].
      eapply Permutation_Forall;
        [apply Permutation_sym, insert_by_perm|].
      constructor; [|exact Hy].
      intros Hnone. unfold histogram_before in Hxy. rewrite Hnone in Hxy.
      destruct (fst x); [discriminate | reflexivity].
Qed.

Lemma year_counts_null_last (rows : list pub_row) :
  StronglySorted (fun a b => fst a = None -> fst b = None)
                 (year_counts text_desc rows).
Proof.
  unfold year_counts, sort_by.
  induction (map _ (distinct_years (map year rows))) as [|x l IH]; simpl;
    [constructor|].
  apply insert_null_last, IH.
Qed.
End HistogramFacts.

Section HistogramResult.
Import Database.
Variable faults : nat -> bool.
Variable text_desc : string -> string -> bool.

Lemma year_eq_dec (a b : option Z) : {a = b} + {a <> b}.
Proof. decide equality. apply Z.eq_dec. Qed.

Lemma entries_keys (results : list (option Z * nat)) :
  NoDup (map fst results) ->
  NoDup (map fst (map histogram_entry results)).
Proof.
  intros Hnd. rewrite map_map.
  induction results as [|row results IH]; simpl; [constructor|].
  inversion Hnd as [|? ? Hx Hl]; subst. constructor; [|now apply IH].
  intros H. apply in_map_iff in H. destruct H as [row' [E Hin]].
  simpl in E. apply year_text_inj in E. apply Hx. rewrite <- E.
  now apply in_map.
Qed.

Lemma get_years_with_counts_run (w : world) :
  get_years_with_counts faults text_desc w
  = if existsb faults (seq (statements w) 2)
    then ([], if faults (statements w) then tick w
              else tick (tick (with_working (committed w) w)))
    else (map histogram_entry
              (year_counts text_desc (publications (committed w))),
          tick (tick (with_working (committed w) w))).
Proof.
  change (seq (statements w) 2) with [statements w; S (statements w)].
  cbn [existsb]. unfold get_years_with_counts. gateway_steps.
  destruct (faults (statements w)); [reflexivity|]. simpl.
  destruct (faults (S (statements w))); [reflexivity|]. simpl.
  rewrite counts_dict_entries; [reflexivity | apply year_counts_keys].
Qed.
End HistogramResult.

(** X9. The year histogram. [get_years_with_counts] never raises and
    never changes the tables: when one of its two statements is refused
    it returns the empty dictionary. Otherwise the dictionary has, for
    every year label with at least one stored publication, the number of
    publications with that year, and no other key; the counts add up to
    the number of stored publications; and the key ["Unknown"], when
    present, is the last one. *)
Theorem years_histogram
        (faults : nat -> bool) (text_desc : string -> string -> bool)
        (w : Database.world) :
  let rows := Database.publications (Database.committed w) in
  let run := Database.get_years_with_counts faults text_desc w in
  Database.committed (snd run) = Database.committed w
  /\ if existsb faults (seq (Database.statements w) 2)
     then fst run = []
     else (forall y,
              dict_get (Database.year_text y) (fst run)
              = if (rows_of_year y rows =? 0)%nat then None
                else Some (Z.of_nat (rows_of_year y rows)))
          /\ Forall (fun item => exists y, fst item = Database.year_text y
                                           /\ In y (map Database.year rows))
                    (fst run)
          /\ NoDup (map fst (fst run))
          /\ sum_of (map snd (fst run)) = Z.of_nat (List.length rows)
          /\ (forall pre c post,
                 fst run = pre ++ ("Unknown"%string, c) :: post -> post = []).
Proof.
  intros rows run. subst run. rewrite get_years_with_counts_run.
  destruct (existsb faults (seq (Database.statements w) 2)).
  - split; [|reflexivity]. destruct (faults (Database.statements w));
      reflexivity.
  - cbn [fst snd]. split; [reflexivity|]. fold rows.
    pose proof (year_counts_keys text_desc rows) as Hkeys.
    pose proof (entries_keys _ Hkeys) as Hnd.
    split; [|split; [|split; [exact Hnd|split]]].
    + intros y. destruct (in_dec year_eq_dec y (map Database.year rows))
        as [Hin|Hout].
      * pose proof (rows_of_year_pos rows y Hin) as Hpos.
        destruct (Nat.eqb_spec (rows_of_year y rows) 0) as [E|_]; [lia|].
        apply dict_get_present; [exact Hnd|].
        apply in_map_iff. exists (y, rows_of_year y rows).
        split; [reflexivity|]. apply year_counts_In. split; [reflexivity|].
        exact Hin.
      * rewrite (rows_of_year_zero rows y Hout). simpl.
        apply dict_get_absent. rewrite map_map. intros H.
        apply in_map_iff in H. destruct H as [[y' c] [E Hrow]].
        simpl in E. apply year_text_inj in E. subst y'.
        apply year_counts_In in Hrow. tauto.
    + apply Forall_forall. intros item Hitem. apply in_map_iff in Hitem.
      destruct Hitem as [[y c] [<- Hrow]]. exists y. split; [reflexivity|].
      apply year_counts_In in Hrow. tauto.
    + rewrite map_map. simpl.
      rewrite <- (map_map snd Z.of_nat).
      rewrite (sum_of_perm _ _
                 (Permutation_map Z.of_nat
                    (Permutation_map snd (year_counts_perm text_desc rows)))).
      rewrite !map_map. simpl.
      apply counts_cover; [apply distinct_years_NoDup|].
      intros r Hr. apply distinct_years_In. now apply in_map.
    + intros pre c post Hsplit.
      apply map_eq_app in Hsplit. destruct Hsplit as [lpre [ltail [Hl [_ Htail]]]].
      apply map_eq_cons in Htail.
      destruct Htail as [[y n] [lpost [-> [Hrow <-]]]].
      injection Hrow as Hy _. simpl in Hy. apply year_text_unknown in Hy.
      subst y.
      pose proof (year_counts_null_last text_desc rows) as Hsorted.
      rewrite Hl in Hsorted, Hkeys.
      apply sorted_app_r in Hsorted.
      inversion Hsorted as [|? ? _ Hall]; subst.
      rewrite map_app in Hkeys. apply NoDup_app_remove_l in Hkeys.
      simpl in Hkeys. inversion Hkeys as [|? ? Hnot _]; subst.
      destruct lpost as [|z lpost]; [reflexivity|]. exfalso.
      inversion Hall as [|? ? Hz _]; subst. apply Hnot. left.
      exact (Hz eq_refl).
Qed.

(** X10. The years endpoint answers 200 whenever the database object
    exists: a failure of the histogram query is answered 200 with an empty
    mapping, not 500; only a missing database object gives 500. *)
Theorem years_endpoint_never_fails
        (db_ready : bool) (faults : nat -> bool)
        (text_desc : string -> string -> bool) (w : Database.world) :
  let answer := fst (App.get_years db_ready faults text_desc w) in
  (App.status answer = if db_ready then 200 else 500)
  /\ (db_ready = true ->
      existsb faults (seq (Database.statements w) 2) = true ->
      answer = {| App.status := 200; App.body := App.YearCounts [] |}).
Proof.
  intros answer. subst answer. unfold App.get_years.
  destruct db_ready; [|split; [reflexivity | discriminate]].
  rewrite get_years_with_counts_run. split.
  - destruct (existsb faults _); reflexivity.
  - intros _ ->. reflexivity.
Qed.

(** ** The read endpoints *)

(** X11. A page size of zero is refused: the paginated read never
    returns for [per_page = 0] (the page count divides by it), and a
    request to the publications endpoint whose [per_page] reads as 0 is
    answered 500, with the tables as they were. *)
Theorem zero_page_size_is_refused
        (db_ready : bool) (faults : nat -> bool)
        (int_of_str : string -> outcome Z) (args : App.request_args)
        (w : Database.world) :
  App.int_arg int_of_str (App.arg_per_page args) 5 = Returned 0%Z ->
  let run := App.get_publications db_ready faults int_of_str args w in
  (forall page year_filter,
      is_returned
        (fst (Database.get_publications faults int_of_str page 0 year_filter w))
      = false)
  /\ App.status (fst run) = 500
  /\ Database.committed (snd run) = Database.committed w.
Proof.
  intros Hper run.
  assert (Hread : forall page year_filter w0,
             exists e w1,
               Database.get_publications faults int_of_str page 0
                 year_filter w0 = (Raised e, w1)
               /\ Database.committed w1 = Database.committed w0).
  { intros page year_filter w0. gateway_steps.
    destruct (faults (Database.statements w0)); simpl;
      [eexists _, _; split; reflexivity|].
    destruct (Database.build_where int_of_str year_filter); simpl;
      [|eexists _, _; split; reflexivity].
    destruct (faults (S (Database.statements w0))); simpl;
      [eexists _, _; split; reflexivity|].
    destruct (faults (S (S (Database.statements w0)))); simpl;
      [eexists _, _; split; reflexivity|].
    unfold Database.limit_offset.
    destruct (_ || _); simpl; eexists _, _; split; reflexivity. }
  split; [|split].
  - intros page year_filter.
    destruct (Hread page year_filter w) as [e [w1 [-> _]]]. reflexivity.
  - subst run. unfold App.get_publications, App.get_publications_body.
    destruct db_ready; [|reflexivity].
    unfold Database.and_then at 1. unfold Database.lift at 1.
    destruct (App.int_arg int_of_str (App.arg_page args) 1) as [page|];
      [|reflexivity].
    unfold Database.and_then at 1. unfold Database.lift at 1. rewrite Hper.
    unfold Database.and_then at 1.
    destruct (Hread page (Some (get (App.arg_year args) "all"%string)) w)
      as [e [w1 [-> _]]]. reflexivity.
  - subst run. unfold App.get_publications, App.get_publications_body.
    destruct db_ready; [|reflexivity].
    unfold Database.and_then at 1. unfold Database.lift at 1.
    destruct (App.int_arg int_of_str (App.arg_page args) 1) as [page|];
      [|reflexivity].
    unfold Database.and_then at 1. unfold Database.lift at 1. rewrite Hper.
    unfold Database.and_then at 1.
    destruct (Hread page (Some (get (App.arg_year args) "all"%string)) w)
      as [e [w1 [-> Hc]]]. exact Hc.
Qed.

Section EndpointFacts.
Import Database.
Variable faults : nat -> bool.
Variable int_of_str : string -> outcome Z.

Lemma get_publications_reads_only (page per_page : Z)
      (year_filter : option string) (w : world) :
  let run := get_publications faults int_of_str page per_page year_filter w in
  committed (snd run) = committed w
  /\ (is_returned (fst run) = true -> working (snd run) = committed w).
Proof.
  gateway_steps.
  destruct (faults (statements w)); simpl; [split; [reflexivity|discriminate]|].
  destruct (build_where int_of_str year_filter); simpl;
    [|split; [reflexivity|discriminate]].
  destruct (faults (S (statements w))); simpl;
    [split; [reflexivity|discriminate]|].
  destruct (faults (S (S (statements w)))); simpl;
    [split; [reflexivity|discriminate]|].
  unfold limit_offset. destruct (_ || _); simpl;
    [split; [reflexivity|discriminate]|].
  unfold floordiv. destruct (_ =? _)%Z; simpl; split;
    try reflexivity; discriminate.
Qed.

Lemma get_publications_pagination (page per_page : Z)
      (year_filter : option string) (w : world) (result : page_result) :
  fst (get_publications faults int_of_str page per_page year_filter w)
  = Returned result ->
  Database.page (page_pagination result) = page
  /\ Database.per_page (page_pagination result) = per_page.
Proof.
  gateway_steps. next_statement faults.
  destruct (build_where int_of_str year_filter); [|discriminate]. simpl.
  do 2 next_statement faults.
  destruct (limit_offset _ _ _); [|discriminate]. simpl.
  destruct (floordiv _ _); [|discriminate]. simpl.
  intros H. injection H as <-. split; reflexivity.
Qed.

Lemma get_profile_reads_only (w : world) :
  committed (snd (get_profile faults w)) = committed w.
Proof.
  gateway_steps. do 2 next_statement faults.
  destruct (latest_profile _); reflexivity.
Qed.

(** The body of the publications endpoint, call by call. *)
Lemma get_publications_body_run (args : App.request_args) (w : world) :
  App.get_publications_body faults int_of_str args w
  = match App.int_arg int_of_str (App.arg_page args) 1 with
    | Raised e => (Raised e, w)
    | Returned page =>
        match App.int_arg int_of_str (App.arg_per_page args) 5 with
        | Raised e => (Raised e, w)
        | Returned per_page =>
            match get_publications faults int_of_str page per_page
                    (Some (get (App.arg_year args) "all"%string)) w with
            | (Raised e, w1) => (Raised e, w1)
            | (Returned result, w1) =>
                match get_profile faults w1 with
                | (Raised e, w2) => (Raised e, w2)
                | (Returned profile, w2) =>
                    (Returned
                       (App.Publications
                          (if (page =? 1)%Z then Some profile else None)
                          (page_publications result)
                          (page_pagination result)), w2)
                end
            end
        end
    end.
Proof.
  unfold App.get_publications_body.
  unfold and_then at 1. unfold lift at 1.
  destruct (App.int_arg int_of_str (App.arg_page args) 1) as [page|];
    [|reflexivity].
  unfold and_then at 1. unfold lift at 1.
  destruct (App.int_arg int_of_str (App.arg_per_page args) 5) as [per_page|];
    [|reflexivity].
  cbv zeta. unfold and_then at 1.
  destruct (get_publications faults int_of_str page per_page _ w)
    as [[result|e] w1]; [|reflexivity].
  unfold and_then at 1.
  destruct (get_profile faults w1) as [[profile|e] w2]; reflexivity.
Qed.
End EndpointFacts.

(** X12. The publications endpoint. It never changes the committed
    tables. When it answers with a publication list the status is 200,
    the pagination block repeats the page number and the page size read
    from the request, and the profile is part of the body exactly on
    page 1; every other answer has status 500. *)
Theorem publications_endpoint_shape
        (db_ready : bool) (faults : nat -> bool)
        (int_of_str : string -> outcome Z) (args : App.request_args)
        (w : Database.world) :
  let run := App.get_publications db_ready faults int_of_str args w in
  Database.committed (snd run) = Database.committed w
  /\ match App.body (fst run) with
     | App.Publications profile _ pagination =>
         App.status (fst run) = 200
         /\ App.int_arg int_of_str (App.arg_page args) 1
            = Returned (Database.page pagination)
         /\ App.int_arg int_of_str (App.arg_per_page args) 5
            = Returned (Database.per_page pagination)
         /\ (profile = None <-> Database.page pagination <> 1%Z)
     | _ => App.status (fst run) = 500
     end.
Proof.
  intros run. subst run. unfold App.get_publications.
  destruct db_ready; [|split; reflexivity].
  rewrite get_publications_body_run.
  destruct (App.int_arg int_of_str (App.arg_page args) 1) as [page|];
    [|split; reflexivity].
  destruct (App.int_arg int_of_str (App.arg_per_page args) 5) as [per_page|];
    [|split; reflexivity].
  pose proof (get_publications_reads_only faults int_of_str page per_page
                (Some (get (App.arg_year args) "all"%string)) w) as Hread.
  pose proof (get_publications_pagination faults int_of_str page per_page
                (Some (get (App.arg_year args) "all"%string)) w) as Hpag.
  cbv zeta in Hread.
  destruct (Database.get_publications faults int_of_str page per_page
              (Some (get (App.arg_year args) "all"%string)) w)
    as [[result|e] w1]; cbn [fst snd] in *;
    [|split; [apply Hread | reflexivity]].
  destruct Hread as [Hc _]. destruct (Hpag result eq_refl) as [Hp Hpp].
  pose proof (get_profile_reads_only faults w1) as Hprof.
  destruct (Database.get_profile faults w1) as [[profile|e] w2];
    cbn [fst snd] in *; [|split; [congruence | reflexivity]].
  cbn [App.body App.status].
  split; [congruence|]. rewrite Hp, Hpp.
  split; [reflexivity|]. split; [reflexivity|]. split; [reflexivity|].
  destruct (Z.eqb_spec page 1); split; intros H;
    try discriminate; try reflexivity; congruence.
Qed.

(** X13. The query of the search endpoint. The answer is 400 exactly
    when the database object exists, [page] and [per_page] both read as
    integers and [q] is missing or empty; both numbers are read before
    [q] is looked at, so an unreadable number gives 500 even without a
    query. A 400 is answered without sending any statement. *)
Theorem search_needs_query
        (db_ready : bool) (faults : nat -> bool)
        (int_of_str : string -> outcome Z)
        (ilike : string -> string -> bool) (args : App.search_args)
        (w : Database.world) :
  let run := App.search_publications db_ready faults int_of_str ilike args w in
  (App.status (fst run) = 400
   <-> db_ready = true
       /\ get (App.search_q args) ""%string = ""%string
       /\ is_returned (App.int_arg int_of_str (App.search_page args) 1) = true
       /\ is_returned (App.int_arg int_of_str (App.search_per_page args) 10)
          = true)
  /\ (App.status (fst run) = 400 ->
      fst run = {| App.status := 400; App.body := App.QueryRequired |}
      /\ snd run = w)
  /\ ((is_returned (App.int_arg int_of_str (App.search_page args) 1) = false
       \/ is_returned (App.int_arg int_of_str (App.search_per_page args) 10)
          = false) ->
      App.status (fst run) = 500 /\ snd run = w).
Proof.
  intros run. subst run. unfold App.search_publications.
  destruct db_ready.
  2:{ cbn. repeat split; try discriminate; try tauto.
      intros [H _]. discriminate H. }
  destruct (App.int_arg int_of_str (App.search_page args) 1) as [page|e].
  2:{ cbn. repeat split; try discriminate; try tauto.
      intros [_ [_ [H _]]]. discriminate H. }
  destruct (App.int_arg int_of_str (App.search_per_page args) 10)
    as [per_page|e].
  2:{ cbn. repeat split; try discriminate; try tauto.
      intros [_ [_ [_ H]]]. discriminate H. }
  destruct (get (App.search_q args) ""%string) as [|c q] eqn:Hq.
  - cbn. split; [split; [intros _; repeat split | reflexivity]|].
    split; [intros _; split; reflexivity|].
    intros [Hp|Hp]; discriminate Hp.
  - destruct (Database.search_publications faults ilike (String c q) page
                per_page w) as [[result|e] w1]; cbn;
      (split; [split; [discriminate | intros [_ [Hp _]]; discriminate Hp]|]);
      (split; [discriminate | intros [Hp|Hp]; discriminate Hp]).
Qed.

(** X14. The connection check endpoint reports the number of committed
    publications: it answers 200 exactly when the database object exists
    and its three statements are answered, the reported total is then
    the number of rows of the table and the version text is cut to 50
    characters; every other answer is 500. It never changes the
    committed tables. *)
Theorem connection_check_reports_row_count
        (db_ready : bool) (faults : nat -> bool) (db_version : string)
        (w : Database.world) :
  let run := App.test_database db_ready faults db_version w in
  Database.committed (snd run) = Database.committed w
  /\ if db_ready && negb (existsb faults (seq (Database.statements w) 3))
     then fst run
          = {| App.status := 200;
               App.body :=
                 App.TestPassed
                   (Z.of_nat
                      (List.length
                         (Database.publications (Database.committed w))))
                   (String.substring 0 50 db_version ++ "...")%string |}
     else App.status (fst run) = 500.
Proof.
  intros run. subst run. unfold App.test_database, App.test_queries.
  destruct db_ready; [|split; reflexivity].
  change (seq (Database.statements w) 3)
    with [Database.statements w; S (Database.statements w);
          S (S (Database.statements w))].
  cbn [existsb andb]. gateway_steps.
  destruct (faults (Database.statements w)); simpl; [split; reflexivity|].
  destruct (faults (S (Database.statements w))); simpl;
    [split; reflexivity|].
  destruct (faults (S (S (Database.statements w)))); simpl;
    split; reflexivity.
Qed.

(** X15. The verification script only reads: [verify_sync] never
    changes the committed tables, and it returns [True] exactly when the
    pool could be created, its four statements are answered and more
    than 1400 publications are stored. *)
Theorem verify_sync_reads_only
        (pool_ok : bool) (faults : nat -> bool) (w : Database.world) :
  let run := BulkSync.verify_sync pool_ok faults w in
  Database.committed (snd run) = Database.committed w
  /\ fst run
     = pool_ok
       && negb (existsb faults (seq (Database.statements w) 4))
       && (1400 <? Z.of_nat (List.length
                               (Database.publications (Database.committed w))))%Z.
Proof.
  intros run. subst run. unfold BulkSync.verify_sync, BulkSync.verification.
  destruct pool_ok; [|split; reflexivity].
  change (seq (Database.statements w) 4)
    with [Database.statements w; S (Database.statements w);
          S (S (Database.statements w)); S (S (S (Database.statements w)))].
  cbn [existsb andb]. gateway_steps.
  destruct (faults (Database.statements w)); simpl; [split; reflexivity|].
  destruct (faults (S (Database.statements w))); simpl;
    [split; reflexivity|].
  destruct (faults (S (S (Database.statements w)))); simpl;
    [split; reflexivity|].
  destruct (faults (S (S (S (Database.statements w))))); simpl;
    split; reflexivity.
Qed.

(** ** A sync run, end to end *)

Lemma rows_from_length (values : list Database.pub) (s : Z) :
  List.length (rows_from s values) = List.length values.
Proof.
  revert s. induction values as [|v values IH]; intros s; simpl;
    [reflexivity|].
  now rewrite IH.
Qed.

(** The server after a bulk replace all of whose statements are
    answered. *)
Lemma bulk_insert_success
      (faults : nat -> bool) (publications : list Database.pub)
      (w : Database.world) :
  existsb faults (seq (Database.statements w) (bulk_statements publications))
  = false ->
  let values := map Database.values_of publications in
  let stored :=
    {| Database.publications := rows_from (Database.publications_seq w) values;
       Database.scholar_profile :=
         Database.scholar_profile (Database.committed w) |} in
  Database.bulk_insert_publications faults publications w
  = (true,
     {| Database.committed := stored;
        Database.working := stored;
        Database.publications_seq :=
          (Database.publications_seq w + Z.of_nat (List.length values))%Z;
        Database.profile_seq := Database.profile_seq w;
        Database.statements :=
          Database.statements w + bulk_statements publications |}).
Proof.
  intros Hans values stored. subst stored. unfold bulk_statements in *.
  fold values in Hans |- *.
  set (bs := Database.batches Database.batch_size values) in *.
  unfold Database.bulk_insert_publications.
  set (n := Database.statements w) in *.
  replace (List.length bs + 3) with (2 + (List.length bs + 1)) in Hans by lia.
  rewrite (seq_app 2), (seq_app (List.length bs) 1), !existsb_app in Hans.
  replace (n + 2) with (S (S n)) in Hans by lia.
  change (seq n 2) with [n; S n] in Hans.
  change (seq (S (S n) + List.length bs) 1)
    with [S (S n) + List.length bs] in Hans.
  cbn [existsb] in Hans.
  apply orb_false_iff in Hans. destruct Hans as [H01 Hrest].
  apply orb_false_iff in H01. destruct H01 as [H0 H1].
  apply orb_false_iff in H1. destruct H1 as [H1 _].
  apply orb_false_iff in Hrest. destruct Hrest as [Hloopf Hlast].
  apply orb_false_iff in Hlast. destruct Hlast as [Hlast _].
  assert (Hconn : Database.get_connection faults w
                  = (Returned tt,
                     Database.tick
                       (Database.with_working (Database.committed w) w))).
  { unfold Database.get_connection, Database.execute. fold n.
    rewrite H0. reflexivity. }
  rewrite Hconn.
  set (w1 := Database.tick (Database.with_working (Database.committed w) w)).
  unfold Database.bulk_insert_body, Database.and_then.
  assert (Hdel : Database.delete_publications faults w1
                 = (Returned tt,
                    Database.tick
                      (Database.with_working
                         (Database.with_publications []
                            (Database.working w1)) w1))).
  { unfold Database.delete_publications, Database.execute.
    change (Database.statements w1) with (S n). rewrite H1. reflexivity. }
  rewrite Hdel.
  set (w2 := Database.tick
               (Database.with_working
                  (Database.with_publications [] (Database.working w1)) w1)).
  fold values. fold bs.
  pose proof (for_each_batches_run faults bs w2) as Hloop.
  change (Database.statements w2) with (S (S n)) in Hloop.
  rewrite Hloopf in Hloop. rewrite Hloop.
  assert (Hcat : List.concat bs = values)
    by (apply batches_concat; unfold Database.batch_size; lia).
  rewrite iter_tick, fold_insert_row, Hcat.
  clearbody bs values.
  unfold Database.commit, Database.execute.
  cbn [Database.statements Database.committed Database.working
       Database.publications_seq Database.profile_seq].
  change (Database.statements w2) with (S (S n)). rewrite Hlast.
  unfold Database.tick, Database.with_committed, Database.with_publications.
  cbn. f_equal. f_equal. lia.
Qed.

Lemma bulk_insert_failure
      (faults : nat -> bool) (publications : list Database.pub)
      (w : Database.world) :
  existsb faults (seq (Database.statements w) (bulk_statements publications))
  = true ->
  fst (Database.bulk_insert_publications faults publications w) = false
  /\ Database.committed
       (snd (Database.bulk_insert_publications faults publications w))
     = Database.committed w.
Proof.
  intros Hans. pose proof (bulk_insert_run faults publications w) as Hrun.
  cbv zeta in Hrun. unfold bulk_statements in Hans. rewrite Hans in Hrun.
  exact Hrun.
Qed.

Section SyncFacts.
Variable source_pub : Type.
Variable scholarly : nat -> ScholarFetcher.client source_pub.
Variable faults : nat -> bool.

(** A fetched result was built by [_format_scholar_data]. *)
Lemma fetched_is_formatted (scholar_id : string)
      (d : ScholarFetcher.scholar_data) :
  fst (ScholarFetcher.fetch_scholar_data scholarly scholar_id) = Some d ->
  exists author publications,
    d = ScholarFetcher._format_scholar_data (source_pub := source_pub)
          author publications scholar_id.
Proof.
  rewrite fetch_scholar_data_unrolled.
  assert (Hbody : forall n r,
             ScholarFetcher.attempt_body (scholarly n) scholar_id = Returned r ->
             exists author publications,
               r = ScholarFetcher._format_scholar_data
                     (source_pub := source_pub) author publications scholar_id).
  { intros n r. unfold ScholarFetcher.attempt_body.
    destruct (ScholarFetcher.search_and_fill_author (scholarly n) scholar_id)
      as [author|]; [|discriminate].
    simpl. intros H. injection H as <-. eexists _, _. reflexivity. }
  destruct (ScholarFetcher.attempt_body (scholarly 1) scholar_id) eqn:E1.
  { simpl. intros H. injection H as <-. eapply Hbody, E1. }
  destruct (ScholarFetcher.attempt_body (scholarly 2) scholar_id) eqn:E2.
  { simpl. intros H. injection H as <-. eapply Hbody, E2. }
  destruct (ScholarFetcher.attempt_body (scholarly 3) scholar_id) eqn:E3.
  { simpl. intros H. injection H as <-. eapply Hbody, E3. }
  discriminate.
Qed.

(** The flattened list of a formatted result has as many items as the
    result counts. *)
Lemma formatted_count (author : ScholarFetcher.author_filled source_pub)
      (publications : list ScholarFetcher.publication) (scholar_id : string) :
  let d := ScholarFetcher._format_scholar_data author publications scholar_id in
  List.length (BulkSync.flatten (ScholarFetcher.publications_by_year d))
  = ScholarFetcher.total_publications d.
Proof.
  cbv zeta. unfold ScholarFetcher._format_scholar_data.
  cbn [ScholarFetcher.publications_by_year ScholarFetcher.total_publications].
  destruct (grouped_records_sorted publications) as [Hg [_ Hp]].
  cbv zeta in Hg, Hp.
  rewrite (flatten_well_grouped _ Hg), length_map.
  rewrite (Permutation_length Hp).
  unfold ScholarFetcher.sorted_publications, sort_reverse.
  symmetry. apply Permutation_length, sort_by_perm.
Qed.

Lemma store_success (d : ScholarFetcher.scholar_data) (w : Database.world) :
  let pubs := BulkSync.flatten (ScholarFetcher.publications_by_year d) in
  existsb faults (seq (Database.statements w) (bulk_statements pubs)) = false ->
  exists w1,
    Database.bulk_insert_publications faults pubs w = (true, w1)
    /\ BulkSync.store faults d w
       = (true, pubs,
          snd (Database.update_profile faults (BulkSync.profile_data_of d) w1))
    /\ Database.publications (Database.committed w1)
       = rows_from (Database.publications_seq w)
           (map Database.values_of pubs)
    /\ Database.scholar_profile (Database.committed w1)
       = Database.scholar_profile (Database.committed w)
    /\ Database.profile_seq w1 = Database.profile_seq w
    /\ Database.statements w1
       = Database.statements w + bulk_statements pubs.
Proof.
  intros pubs Hans.
  pose proof (bulk_insert_success faults pubs w Hans) as Hrun.
  cbv zeta in Hrun. eexists. split; [exact Hrun|].
  unfold BulkSync.store. fold pubs. rewrite Hrun.
  repeat split; reflexivity.
Qed.

Lemma store_failure (d : ScholarFetcher.scholar_data) (w : Database.world) :
  let pubs := BulkSync.flatten (ScholarFetcher.publications_by_year d) in
  existsb faults (seq (Database.statements w) (bulk_statements pubs)) = true ->
  exists w1,
    BulkSync.store faults d w = (false, pubs, w1)
    /\ Database.committed w1 = Database.committed w.
Proof.
  intros pubs Hans.
  destruct (bulk_insert_failure faults pubs w Hans) as [Hres Hc].
  unfold BulkSync.store. fold pubs.
  destruct (Database.bulk_insert_publications faults pubs w) as [[|] w1];
    [discriminate Hres|].
  exists w1. split; [reflexivity | exact Hc].
Qed.
End SyncFacts.




(** ** The fetcher, further *)

(** X19. The fetch returns the result of the first attempt that
    succeeds: [fetch_scholar_data] returns a result [r] with the log
    [log] exactly when some attempt [k] of the three returns [r], every
    attempt before it raises, and the log shows the attempts 1 to [k]
    with one back-off wait after each attempt but the last. *)
Theorem fetch_first_success
        (source_pub : Type)
        (scholarly : nat -> ScholarFetcher.client source_pub)
        (scholar_id : string) (r : ScholarFetcher.scholar_data)
        (log : list ScholarFetcher.event) :
  let try_body n := ScholarFetcher.attempt_body (scholarly n) scholar_id in
  ScholarFetcher.fetch_scholar_data scholarly scholar_id = (Some r, log)
  <-> exists k,
      1 <= k <= ScholarFetcher.max_retries
      /\ (forall j, 1 <= j < k -> is_returned (try_body j) = false)
      /\ try_body k = Returned r
      /\ log = log_until k.
Proof.
  intros try_body. rewrite fetch_scholar_data_unrolled. fold (try_body 1).
  fold (try_body 2). fold (try_body 3). unfold ScholarFetcher.max_retries.
  split.
  - destruct (try_body 1) as [r1|e1] eqn:E1.
    { intros H. injection H as <- <-. exists 1.
      split; [lia|]. split; [intros j Hj; lia|]. split; [exact E1|reflexivity]. }
    destruct (try_body 2) as [r2|e2] eqn:E2.
    { intros H. injection H as <- <-. exists 2.
      split; [lia|]. split; [|split; [exact E2|reflexivity]].
      intros j Hj. assert (j = 1) as -> by lia. now rewrite E1. }
    destruct (try_body 3) as [r3|e3] eqn:E3; [|discriminate].
    intros H. injection H as <- <-. exists 3.
    split; [lia|]. split; [|split; [exact E3|reflexivity]].
    intros j Hj. assert (j = 1 \/ j = 2) as [->| ->] by lia;
      [now rewrite E1 | now rewrite E2].
  - intros [k [Hk [Hbefore [Hat ->]]]].
    assert (k = 1 \/ k = 2 \/ k = 3) as [->|[->| ->]] by lia.
    + rewrite Hat. reflexivity.
    + pose proof (Hbefore 1 ltac:(lia)) as H1.
      destruct (try_body 1); [discriminate H1|]. rewrite Hat. reflexivity.
    + pose proof (Hbefore 1 ltac:(lia)) as H1.
      pose proof (Hbefore 2 ltac:(lia)) as H2.
      destruct (try_body 1); [discriminate H1|].
      destruct (try_body 2); [discriminate H2|]. rewrite Hat. reflexivity.
Qed.

Section StableFacts.
Variable A : Type.
Variable before : A -> A -> bool.
Variable P : A -> bool.
Hypothesis may_stay : forall x y, P x = true -> P y = true -> before x y = true.

Lemma filter_insert_by (x : A) (l : list A) :
  filter P (insert_by before x l)
  = if P x then x :: filter P l else filter P l.
Proof.
  induction l as [|y l IH]; cbn [insert_by].
  - cbn [filter]. reflexivity.
  - destruct (before x y) eqn:Hxy.
    + cbn [filter]. reflexivity.
    + cbn [filter]. rewrite IH.
      destruct (P x) eqn:Hx, (P y) eqn:Hy; try reflexivity.
      rewrite (may_stay x y Hx Hy) in Hxy. discriminate Hxy.
Qed.

(** The sort is stable: items that may stay in front of each other keep
    their order. *)
Lemma filter_sort_by (l : list A) : filter P (sort_by before l) = filter P l.
Proof.
  induction l as [|x l IH]; [reflexivity|].
  cbn [sort_by fold_right]. fold (sort_by before l).
  rewrite filter_insert_by, IH. reflexivity.
Qed.
End StableFacts.

Section LabelFacts.
Import ScholarFetcher.

Local Abbreviation group_of label d :=
  (match dict_get label d with Some g => g | None => [] end).

Lemma dict_get_group_add (label : string) (p : publication)
      (d : list (string * list publication)) :
  dict_get label (group_add (year p) p d)
  = if String.eqb (year p) label
    then Some (group_of label d ++ [p])
    else dict_get label d.
Proof.
  induction d as [|[y pubs] d IH]; cbn [group_add dict_get].
  - destruct (String.eqb (year p) label); reflexivity.
  - destruct (String.eqb_spec y (year p)) as [->|Hy]; cbn [dict_get].
    + destruct (String.eqb (year p) label); reflexivity.
    + rewrite IH.
      destruct (String.eqb_spec y label) as [->|Hl];
        destruct (String.eqb_spec (year p) label) as [Hp|Hp];
        try reflexivity.
      congruence.
Qed.

Lemma dict_get_group_fold (label : string) (l : list publication) :
  forall d,
    dict_get label (fold_left (fun d pub => group_add (year pub) pub d) l d)
    = match with_label label l with
      | [] => dict_get label d
      | _ :: _ => Some (group_of label d ++ with_label label l)
      end.
Proof.
  unfold with_label.
  induction l as [|p l IH]; intros d; cbn [fold_left filter]; [reflexivity|].
  rewrite IH, dict_get_group_add.
  destruct (String.eqb (year p) label).
  - destruct (filter _ l) as [|q g].
    + reflexivity.
    + rewrite <- app_assoc. reflexivity.
  - reflexivity.
Qed.

Lemma group_add_keys (label : string) (p : publication)
      (d : list (string * list publication)) :
  NoDup (map fst d) -> NoDup (map fst (group_add label p d)).
Proof.
  assert (Hkeys : forall k, In k (map fst (group_add label p d))
                            -> k = label \/ In k (map fst d)).
  { induction d as [|[y pubs] d IH]; cbn [group_add map fst].
    - intros k [<-|[]]. now left.
    - destruct (String.eqb_spec y label) as [->|Hy]; cbn [map fst].
      + intros k Hk. right. exact Hk.
      + intros k [<-|Hk]; [right; now left|].
        destruct (IH k Hk) as [->|Hin]; [now left | right; now right]. }
  clear Hkeys.
  induction d as [|[y pubs] d IH]; cbn [group_add map fst]; intros Hnd.
  - constructor; [intros [] | constructor].
  - inversion Hnd as [|? ? Hy Hd]; subst.
    destruct (String.eqb_spec y label) as [->|Hneq]; cbn [map fst].
    + constructor; assumption.
    + constructor; [|now apply IH].
      intros Hin. apply Hy. clear IH Hnd Hy Hd.
      induction d as [|[z zs] d IHd]; cbn [group_add map fst] in *.
      * destruct Hin as [<-|[]]. congruence.
      * destruct (String.eqb_spec z label) as [->|Hz]; cbn [map fst] in *.
        -- exact Hin.
        -- destruct Hin as [<-|Hin]; [now left | right; now apply IHd].
Qed.

Lemma group_by_year_keys (l : list publication) :
  NoDup (map fst (group_by_year l)).
Proof.
  unfold group_by_year.
  assert (H : forall d, NoDup (map fst d) ->
                        NoDup (map fst (fold_left
                                          (fun d pub => group_add (year pub) pub d)
                                          l d))).
  { induction l as [|p l IH]; intros d Hd; cbn [fold_left]; [exact Hd|].
    apply IH, group_add_keys, Hd. }
  apply H. constructor.
Qed.

Lemma with_label_sorted (label : string) (l : list publication) :
  with_label label (sorted_publications l) = with_label label l.
Proof.
  unfold with_label, sorted_publications, sort_reverse.
  apply filter_sort_by. intros x y Hx Hy.
  apply String.eqb_eq in Hx, Hy. apply Z.leb_le.
  rewrite (same_label_same_key x y) by congruence. lia.
Qed.
End LabelFacts.

(** X20. The groups of [_format_scholar_data]: the dictionary has one
    key per year label that occurs, and the group of a label lists the
    records with that label in the order in which they were discovered
    (the sort is stable and the grouping appends). A label without
    records is no key. *)
Theorem groups_in_discovery_order
        (source_pub : Type)
        (author : ScholarFetcher.author_filled source_pub)
        (publications : list ScholarFetcher.publication)
        (scholar_id label : string) :
  let by_year :=
    ScholarFetcher.publications_by_year
      (ScholarFetcher._format_scholar_data author publications scholar_id) in
  NoDup (map fst by_year)
  /\ dict_get label by_year
     = match with_label label publications with
       | [] => None
       | p :: group => Some (p :: group)
       end.
Proof.
  cbv zeta. unfold ScholarFetcher._format_scholar_data.
  cbn [ScholarFetcher.publications_by_year].
  split; [apply group_by_year_keys|].
  unfold ScholarFetcher.group_by_year.
  rewrite dict_get_group_fold, with_label_sorted.
  destruct (with_label label publications); reflexivity.
Qed.

Section SubsequenceFacts.
Local Open Scope string_scope.

Lemma subsequence_refl (s : string) : subsequence s s.
Proof. induction s; constructor; assumption. Qed.

Lemma subsequence_prepend (u s t : string) :
  subsequence s t -> subsequence s (u ++ t).
Proof.
  intros H. induction u as [|c u IH]; [exact H|].
  simpl. now constructor.
Qed.

Lemma subsequence_app (s1 t1 s2 t2 : string) :
  subsequence s1 t1 -> subsequence s2 t2 -> subsequence (s1 ++ s2) (t1 ++ t2).
Proof.
  intros H1 H2. induction H1; simpl; [exact H2 | |]; now constructor.
Qed.

Lemma subsequence_trans (a b c : string) :
  subsequence a b -> subsequence b c -> subsequence a c.
Proof.
  intros Hab Hbc. revert a Hab.
  induction Hbc as [|x b c Hbc IH|x b c Hbc IH]; intros a Hab.
  - exact Hab.
  - inversion Hab; subst.
    + constructor. now apply IH.
    + apply subsequence_skip. now apply IH.
  - apply subsequence_skip. now apply IH.
Qed.

(** One pass of [re.sub] only adds the two tags around its matches. *)
Lemma scan_adds (lit : string) :
  lit <> "" ->
  forall n s prev,
    String.length s <= n ->
    subsequence s (Re.sub_scan lit prev 0 s).
Proof.
  intros Hlit. induction n as [|n IH]; intros s prev Hlen.
  - destruct s; [constructor | simpl in Hlen; lia].
  - destruct s as [|c s]; [constructor|].
    destruct (Re.match_at lit prev (String c s)) as [[m rest]|] eqn:E.
    + rewrite (scan_match lit Hlit _ _ _ _ E).
      destruct (match_at_split _ _ _ _ _ E) as [Hs Hm].
      rewrite Hs. unfold Re.emphasise. rewrite !append_assoc.
      apply subsequence_prepend. apply subsequence_app;
        [apply subsequence_refl|].
      apply subsequence_prepend. apply IH.
      assert (Hl : String.length (String c s)
                   = String.length m + String.length rest)
        by (rewrite Hs; apply length_append).
      assert (0 < String.length lit) by (destruct lit; [congruence | simpl; lia]).
      simpl in Hl, Hlen. lia.
    + rewrite (scan_copy lit _ _ _ E). constructor. apply IH.
      simpl in Hlen. lia.
Qed.

Lemma sub_adds (lit s : string) : lit <> "" -> subsequence s (Re.sub lit s).
Proof.
  intros Hlit. unfold Re.sub. apply (scan_adds lit Hlit (String.length s)).
  lia.
Qed.
End SubsequenceFacts.

(** X21. Highlighting only adds text: the author string that went in is
    what is left of the result when the added characters are taken out;
    no character of the author list is dropped, changed or moved, so the
    result is never shorter. *)
Theorem highlighting_only_adds (authors : string) :
  subsequence authors (ScholarFetcher._highlight_author_name authors)
  /\ String.length authors
     <= String.length (ScholarFetcher._highlight_author_name authors).
Proof.
  assert (Hsub : subsequence authors
                   (ScholarFetcher._highlight_author_name authors)).
  { destruct authors as [|c s]; [constructor|].
    rewrite highlight_passes by discriminate.
    eapply subsequence_trans; [|apply sub_adds; discriminate].
    eapply subsequence_trans; [|apply sub_adds; discriminate].
    apply sub_adds. discriminate. }
  split; [exact Hsub|].
  induction Hsub; simpl; lia.
Qed.

(** ** From the scraped year to the displayed year *)

Lemma int_digits_of_uint_acc (d : Decimal.uint) (acc : positive) :
  int_digits (Z.pos acc) (NilEmpty.string_of_uint d)
  = Z.pos (Pos.of_uint_acc d acc).
Proof.
  revert acc. induction d; intros acc; cbn [NilEmpty.string_of_uint int_digits
                                            Pos.of_uint_acc];
    [reflexivity| | | | | | | | | |];
    rewrite <- IHd; f_equal;
    match goal with
    | |- context [digit_value ?c] =>
        let v := eval vm_compute in (digit_value c) in
        change (digit_value c) with v
    end; lia.
Qed.

Lemma int_digits_of_uint (d : Decimal.uint) :
  int_of_digits (NilEmpty.string_of_uint d) = Z.of_uint d.
Proof.
  unfold int_of_digits, Z.of_uint.
  induction d; cbn [NilEmpty.string_of_uint int_digits Pos.of_uint];
    [reflexivity | exact IHd | | | | | | | | |];
    apply (int_digits_of_uint_acc d).
Qed.

Lemma int_of_str_of_int (z : Z) :
  (0 <= z)%Z -> int_of_digits (str_of_int z) = z.
Proof.
  intros Hz. rewrite <- (DecimalZ.of_to z) at 2.
  unfold str_of_int. destruct z as [|p|p]; [reflexivity| |lia].
  cbn [Z.to_int NilZero.string_of_int Z.of_int].
  unfold NilZero.string_of_uint.
  destruct (Pos.to_uint p) eqn:E; try apply int_digits_of_uint.
  exfalso. exact (DecimalPos.Unsigned.to_uint_nonnil p E).
Qed.

(** X22. From the scraped year to the displayed year. A publication
    whose scraped year is the integer [z] gets the label [str(z)]; when
    [z] is positive the table stores [z] and the read shows the label
    again, otherwise the table stores no year and the read shows
    ["Unknown"]. *)
Theorem year_round_trip (z : Z) :
  let label := str (PyInt z) in
  stored_year label = (if (0 <? z)%Z then Some z else None)
  /\ Database.year_text (stored_year label)
     = (if (0 <? z)%Z then label else "Unknown"%string).
Proof.
  cbv zeta. cbn [str].
  assert (Hstored : stored_year (str_of_int z)
                    = if (0 <? z)%Z then Some z else None).
  { unfold stored_year. rewrite year_value_positive.
    unfold BulkSync.year_of_label. rewrite isdigit_str_of_int.
    destruct (Z.leb_spec 0 z) as [Hz|Hz].
    - rewrite int_of_str_of_int by exact Hz. reflexivity.
    - destruct (Z.ltb_spec 0 z); [lia | reflexivity]. }
  split; [exact Hstored|]. rewrite Hstored.
  destruct (0 <? z)%Z; reflexivity.
Qed.

(** ** Writing, then reading *)

Lemma answers_none (faults : nat -> bool) (first count more : nat) :
  answers faults first (count + more) ->
  existsb faults (seq first count) = false
  /\ answers faults (first + count) more.
Proof.
  intros Hans. split.
  - apply not_true_is_false. intros Hex. apply existsb_exists in Hex.
    destruct Hex as [k [Hk Hf]]. apply in_seq in Hk.
    specialize (Hans (k - first) ltac:(lia)).
    replace (first + (k - first)) with k in Hans by lia. congruence.
  - intros k Hk. rewrite <- Nat.add_assoc. apply Hans. lia.
Qed.

(** X23. Replace, then read: after a bulk replace of a list, with the
    statements of the replace and of the read all answered, an
    unfiltered paginated read (page and page size at least 1) returns
    with a total equal to the length of the list, and every publication
    of the page is a row of the new list; no earlier row is shown. *)
Theorem replace_then_read
        (faults : nat -> bool) (int_of_str : string -> outcome Z)
        (publications : list Database.pub) (page per_page : Z)
        (w : Database.world) :
  (1 <= page)%Z -> (1 <= per_page)%Z ->
  answers faults (Database.statements w) (bulk_statements publications + 3) ->
  let replaced := Database.bulk_insert_publications faults publications w in
  fst replaced = true
  /\ exists result rows,
      fst (Database.get_publications faults int_of_str page per_page None
             (snd replaced)) = Returned result
      /\ Database.total (Database.page_pagination result)
         = Z.of_nat (List.length publications)
      /\ Database.page_publications result = map Database.dict_of_row rows
      /\ incl rows
           (rows_from (Database.publications_seq w)
              (map Database.values_of publications)).
Proof.
  intros Hpage Hper Hans replaced. subst replaced.
  destruct (answers_none faults _ _ _ Hans) as [Hbulk Hread].
  pose proof (bulk_insert_success faults publications w Hbulk) as Hrun.
  cbv zeta in Hrun. rewrite Hrun. cbn [fst snd].
  split; [reflexivity|].
  match goal with
  | |- context [Database.get_publications _ _ _ _ _ ?w1] => set (after := w1)
  end.
  destruct (get_publications_run faults int_of_str page per_page None after
              Hpage Hper Hread eq_refl) as [result Hres].
  assert (Hfst : fst (Database.get_publications faults int_of_str page
                        per_page None after) = Returned result)
    by (rewrite Hres; reflexivity).
  destruct (get_publications_slice faults int_of_str _ _ _ _ _ Hfst)
    as [clause [Hclause [_ [_ [Htotal Hrows]]]]].
  injection Hclause as <-.
  assert (Hall : forall rows,
             filter (Database.satisfies Database.NoFilter) rows = rows).
  { intros rows. induction rows as [|r rows IH]; [reflexivity|].
    cbn [filter Database.satisfies]. now rewrite IH. }
  rewrite Hall in Htotal, Hrows.
  change (Database.publications (Database.committed after))
    with (rows_from (Database.publications_seq w)
            (map Database.values_of publications)) in Htotal, Hrows.
  eexists result, _. split; [exact Hfst|]. split; [|split; [exact Hrows|]].
  - rewrite Htotal, rows_from_length, length_map. reflexivity.
  - intros r Hr. apply slice_incl in Hr.
    apply (Permutation_in _ (sort_by_perm _ _ _)) in Hr. exact Hr.
Qed.


(** ** The further statements at sample inputs *)


Lemma profile_round_trip_witness :
  List.length
    (Database.scholar_profile (Database.committed Examples.stocked_world)) <= 1
  /\ fst (Database.update_profile Examples.no_faults sample_profile
            Examples.stocked_world) = true
  /\ exists p,
      fst (Database.get_profile Examples.no_faults profiled_world) = Returned p
      /\ shows sample_profile p.
Proof.
  assert (Hlen : List.length
                   (Database.scholar_profile
                      (Database.committed Examples.stocked_world)) <= 1)
    by (vm_compute; lia).
  assert (Hans : answers Examples.no_faults
                   (Database.statements Examples.stocked_world) 6)
    by (intros k _; reflexivity).
  split; [exact Hlen|].
  exact (profile_round_trip Examples.no_faults sample_profile
           Examples.stocked_world Hlen Hans).
Defined.

Lemma page_size_witness :
  exists result,
    fst (Database.get_publications Examples.no_faults Examples.int_of_str
           3 5 (Some "2021"%string) Examples.stocked_world) = Returned result
    /\ Z.of_nat (List.length (Database.page_publications result))
       = Z.min 5 (Z.max 0 (Database.total (Database.page_pagination result)
                           - (3 - 1) * 5)).
Proof.
  destruct (fst (Database.get_publications Examples.no_faults
                   Examples.int_of_str 3 5 (Some "2021"%string)
                   Examples.stocked_world)) as [result|e] eqn:Hcall.
  - exists result. split; [reflexivity|].
    exact (page_size Examples.no_faults Examples.int_of_str 3 5
             (Some "2021"%string) Examples.stocked_world result Hcall).
  - vm_compute in Hcall. discriminate Hcall.
Defined.


Lemma year_filter_sound_witness :
  exists result,
    fst (Database.get_publications Examples.no_faults Examples.int_of_str
           1 5 (Some "Unknown"%string) Examples.stocked_world)
    = Returned result
    /\ Database.page_publications result <> []
    /\ Forall (fun d => Database.out_year d = "Unknown"%string)
              (Database.page_publications result).
Proof.
  destruct (fst (Database.get_publications Examples.no_faults
                   Examples.int_of_str 1 5 (Some "Unknown"%string)
                   Examples.stocked_world)) as [result|e] eqn:Hcall.
  - exists result. split; [reflexivity|]. split.
    + vm_compute in Hcall. injection Hcall as <-. discriminate.
    + exact (proj1 (year_filter_sound Examples.no_faults Examples.int_of_str
                      1 5 (Some "Unknown"%string) Examples.stocked_world
                      result Hcall) eq_refl).
  - vm_compute in Hcall. discriminate Hcall.
Defined.

Lemma search_sound_witness :
  exists result,
    fst (Database.search_publications Examples.no_faults sample_ilike
           "LIGHTWAVE" 1 5 Examples.stocked_world) = Returned result
    /\ Database.found_total result = 13%Z
    /\ Database.found_query result = "LIGHTWAVE"%string
    /\ (Z.of_nat (List.length (Database.found_publications result)) <= 5)%Z.
Proof.
  destruct (fst (Database.search_publications Examples.no_faults sample_ilike
                   "LIGHTWAVE" 1 5 Examples.stocked_world))
    as [result|e] eqn:Hcall.
  - exists result. split; [reflexivity|].
    destruct (search_sound Examples.no_faults sample_ilike "LIGHTWAVE" 1 5
                Examples.stocked_world result Hcall)
      as [_ [Hsize [Htotal Hquery]]].
    split; [rewrite Htotal; reflexivity|]. split; [exact Hquery | exact Hsize].
  - vm_compute in Hcall. discriminate Hcall.
Defined.

Lemma zero_page_size_is_refused_witness :
  App.int_arg Examples.int_of_str (App.arg_per_page zero_size_request) 5
  = Returned 0%Z
  /\ App.status
       (fst (App.get_publications true Examples.no_faults Examples.int_of_str
               zero_size_request Examples.stocked_world)) = 500.
Proof.
  assert (Hper : App.int_arg Examples.int_of_str
                   (App.arg_per_page zero_size_request) 5 = Returned 0%Z)
    by reflexivity.
  split; [exact Hper|].
  exact (proj1 (proj2 (zero_page_size_is_refused true Examples.no_faults
                         Examples.int_of_str zero_size_request
                         Examples.stocked_world Hper))).
Defined.



Lemma replace_then_read_witness :
  fst (Database.bulk_insert_publications Examples.no_faults
         Examples.second_snapshot Examples.stocked_world) = true
  /\ exists result rows,
      fst (Database.get_publications Examples.no_faults Examples.int_of_str
             2 5 None
             (snd (Database.bulk_insert_publications Examples.no_faults
                     Examples.second_snapshot Examples.stocked_world)))
      = Returned result
      /\ Database.total (Database.page_pagination result)
         = Z.of_nat (List.length Examples.second_snapshot)
      /\ Database.page_publications result = map Database.dict_of_row rows
      /\ incl rows
           (rows_from (Database.publications_seq Examples.stocked_world)
              (map Database.values_of Examples.second_snapshot)).
Proof.
  assert (Hpage : (1 <= 2)%Z) by lia. assert (Hper : (1 <= 5)%Z) by lia.
  assert (Hans : answers Examples.no_faults
                   (Database.statements Examples.stocked_world)
                   (bulk_statements Examples.second_snapshot + 3))
    by (intros k _; reflexivity).
  exact (replace_then_read Examples.no_faults Examples.int_of_str
           Examples.second_snapshot 2 5 Examples.stocked_world
           Hpage Hper Hans).
Defined.

